(** * Batch backtest route of gekko: a shallow embedding

    The development follows [web/routes/batchBacktest.js]: the report
    aggregators ([getTotalPerformanceReport], [getBatchBacktestReport],
    [getFakeReport]), the span tables ([monthlySpans], [quarterlySpans],
    [yearlySpans]), the span selector ([getDateMonthSpansForYear]) and the
    route itself ([module_exports]) with its two execution paths. *)

From Stdlib Require Import ZArith Lia Ascii Sorted.
From stdpp Require Import base option list strings gmap fin_maps.

Local Open Scope string_scope.
Local Open Scope Z_scope.
Local Open Scope list_scope.

(** ** JavaScript numbers

    A double is modelled by its class: NaN, the two infinities, or a finite
    value.  The finite values are the doubles that are whole numbers, held
    as integers; sums and products of whole numbers are whole, and are
    rounded as binary64 does (to 53 significant bits, to nearest, ties to
    even, past the largest double to an infinity).  Numbers with a
    fractional part and the sign of zero are not modelled. *)

Inductive number : Type :=
  | NaN
  | NegInf
  | Fin (z : Z)
  | PosInf.

#[global] Instance number_eq_dec : EqDecision number.
Proof. solve_decision. Defined.

Module Num.

(** The double nearest to the whole number [z]: [z] itself up to 2^53 in
    magnitude; beyond, the nearest multiple of the spacing of the doubles
    around [z], the even one of two that are equally near; an infinity when
    that is 2^1024 or more in magnitude. *)
Definition round (z : Z) : number :=
  let a := Z.abs z in
  if a <=? 2 ^ 53 then Fin z
  else
    let ulp := 2 ^ (Z.log2 a - 52) in
    let q := a / ulp in
    let r := a mod ulp in
    let q' := if 2 * r <? ulp then q
              else if ulp <? 2 * r then q + 1
              else if Z.even q then q else q + 1 in
    let m := q' * ulp in
    if 2 ^ 1024 <=? m then (if z <? 0 then NegInf else PosInf)
    else Fin (Z.sgn z * m).

(** [a + b] on numbers. *)
Definition add (a b : number) : number :=
  match a, b with
  | NaN, _ | _, NaN => NaN
  | PosInf, NegInf | NegInf, PosInf => NaN
  | PosInf, _ | _, PosInf => PosInf
  | NegInf, _ | _, NegInf => NegInf
  | Fin x, Fin y => round (x + y)
  end.

(** Sign of a number that is not NaN: -1, 0 or 1. *)
Definition sgn (a : number) : Z :=
  match a with
  | NaN => 0
  | NegInf => -1
  | Fin x => Z.sgn x
  | PosInf => 1
  end.

(** [a * b] on numbers. *)
Definition mul (a b : number) : number :=
  match a, b with
  | NaN, _ | _, NaN => NaN
  | Fin x, Fin y => round (x * y)
  | _, _ =>
      match sgn a * sgn b with
      | 0 => NaN
      | Zpos _ => PosInf
      | Zneg _ => NegInf
      end
  end.

(** [a < b]; false as soon as an operand is NaN. *)
Definition ltb (a b : number) : bool :=
  match a, b with
  | NaN, _ | _, NaN => false
  | _, NegInf => false
  | NegInf, _ => true
  | PosInf, _ => false
  | Fin _, PosInf => true
  | Fin x, Fin y => x <? y
  end.

(** [a >= b]; false as soon as an operand is NaN. *)
Definition geb (a b : number) : bool :=
  match a, b with
  | NaN, _ | _, NaN => false
  | _, _ => negb (ltb a b)
  end.

(** The binary step of [Math.min]: NaN wins, otherwise the smaller. *)
Definition min (a b : number) : number :=
  match a, b with
  | NaN, _ | _, NaN => NaN
  | _, _ => if ltb b a then b else a
  end.

(** The binary step of [Math.max]. *)
Definition max (a b : number) : number :=
  match a, b with
  | NaN, _ | _, NaN => NaN
  | _, _ => if ltb a b then b else a
  end.

End Num.

(** ** Primitive values held by report and configuration fields *)

Inductive value : Type :=
  | VUndef
  | VNull
  | VBool (b : bool)
  | VNum (n : number).

#[global] Instance value_eq_dec : EqDecision value.
Proof. solve_decision. Defined.

(** ToNumber. *)
Definition toNumber (v : value) : number :=
  match v with
  | VUndef => NaN
  | VNull => Fin 0
  | VBool true => Fin 1
  | VBool false => Fin 0
  | VNum n => n
  end.

(** ToBoolean. *)
Definition truthy (v : value) : bool :=
  match v with
  | VUndef | VNull => false
  | VBool b => b
  | VNum NaN => false
  | VNum (Fin z) => negb (z =? 0)
  | VNum _ => true
  end.

(** [v + w]: none of the values is a string or an object, so both operands
    go through ToNumber. *)
Definition jsAdd (v w : value) : value := VNum (Num.add (toNumber v) (toNumber w)).

(** [v * w]. *)
Definition jsMul (v w : value) : value := VNum (Num.mul (toNumber v) (toNumber w)).

(** [v < w] and [v >= w]. *)
Definition jsLt (v w : value) : bool := Num.ltb (toNumber v) (toNumber w).
Definition jsGe (v w : value) : bool := Num.geb (toNumber v) (toNumber w).

(** [a || b] on values. *)
Definition jsOr (a b : value) : value := if truthy a then a else b.

(** [Math.min.apply(null, l)] and [Math.max.apply(null, l)]: every argument
    goes through ToNumber; no argument gives +Infinity, resp. -Infinity. *)
Definition Math_min (l : list value) : value :=
  VNum (foldr (fun v acc => Num.min (toNumber v) acc) PosInf l).
Definition Math_max (l : list value) : value :=
  VNum (foldr (fun v acc => Num.max (toNumber v) acc) NegInf l).

(** ** Objects with primitive fields

    A plain object is a finite map from property names to values; reading a
    property that is not there gives [undefined]. *)

Abbreviation obj := (gmap string value).

Definition get (o : obj) (k : string) : value := default VUndef (o !! k).

(** An object literal [{k1: v1, ...}]. *)
Definition literal (kvs : list (string * value)) : obj := list_to_map kvs.

(** [Object.assign(target, source)]: every property of [source] is written
    into [target]. *)
Definition Object_assign (target source : obj) : obj := source ∪ target.

(** ** Exceptions *)

Inductive error : Type :=
  | TypeError
  | EngineError (msg : string).

Inductive result (A : Type) : Type :=
  | Ok (a : A)
  | Throw (e : error).
Arguments Ok {A} a.
Arguments Throw {A} e.

#[global] Instance result_ret : MRet result := fun A a => Ok a.
#[global] Instance result_bind : MBind result := fun A B f m =>
  match m with
  | Ok a => f a
  | Throw e => Throw e
  end.
#[global] Instance result_fmap : FMap result := fun A B f m =>
  match m with
  | Ok a => Ok (f a)
  | Throw e => Throw e
  end.

(** Property access [x.k] where [x] may be [undefined]: a TypeError then. *)
Definition deref {A} (x : option A) : result A :=
  match x with
  | Some a => Ok a
  | None => Throw TypeError
  end.

(** [l.filter(p)] for a callback that may throw. *)
Fixpoint filterR {A} (p : A → result bool) (l : list A) : result (list A) :=
  match l with
  | [] => Ok []
  | x :: xs =>
      b ← p x;
      ys ← filterR p xs;
      Ok (if b : bool then x :: ys else ys)
  end.

(** [l.reduce(f)] without an initial value: the first element seeds the
    accumulator and [f] is not called on it; an empty array is a TypeError. *)
Definition reduce1 {A} (f : A → A → A) (l : list A) : result A :=
  match l with
  | [] => Throw TypeError
  | x :: xs => Ok (foldl f x xs)
  end.

(** [l.length] as a JavaScript number. *)
Definition len {A} (l : list A) : value := VNum (Fin (Z.of_nat (length l))).

(** ** Result reports

    What the pipeline returns for one span.  Only the parts the route reads
    are kept: [performanceReport] and [tradingAdvisor.stats]; [None] is a
    property that is [undefined]. *)

Record advisor : Type := { stats : option obj }.

Record report : Type := {
  performanceReport : option obj;
  tradingAdvisor : option advisor
}.

(** [backtest.performanceReport.profit] *)
Definition profitOf (backtest : report) : result value :=
  pf ← deref (performanceReport backtest);
  Ok (get pf "profit").

(** The callback of the [reduce] in [getTotalPerformanceReport]. *)
Definition sumReports (res cur : report) : report :=
  let pfRes := default ∅ (performanceReport res) in
  let pfCur := default ∅ (performanceReport cur) in
  {| performanceReport := Some (literal [
       ("losses", jsAdd (get pfRes "losses") (get pfCur "losses"));
       ("profit", jsAdd (get pfRes "profit") (get pfCur "profit"));
       ("relativeProfit", jsAdd (get pfRes "relativeProfit") (get pfCur "relativeProfit"));
       ("trades", jsAdd (get pfRes "trades") (get pfCur "trades"));
       ("yearlyProfit", jsAdd (get pfRes "yearlyProfit") (get pfCur "yearlyProfit"))
     ]);
     tradingAdvisor := None |}.

(** [getTotalPerformanceReport(backtests, batchPeriodProfitThreshold)].

    The function returns [ret], which stays [undefined] ([None]) on an empty
    array.  With a single backtest [reduce] hands back that very element, so
    [ret] is the performance report of [backtests[0]] and [Object.assign]
    writes into it: the array as it is after the call is returned too. *)
Definition getTotalPerformanceReport (backtests : list report)
    (batchPeriodProfitThreshold : value) : result (list report * option obj) :=
  let batchPeriodProfitThreshold :=
    match batchPeriodProfitThreshold with
    | VUndef => VNum (Fin 0)
    | t => t
    end in
  if bool_decide (0 < length backtests)%nat then
    red ← reduce1 sumReports backtests;
    let ret := performanceReport red in
    let last := last backtests ≫= performanceReport in
    let first := head backtests ≫= performanceReport in
    endPrice ← (fun o => get o "endPrice") <$> deref last;
    endTime ← (fun o => get o "endTime") <$> deref last;
    startBalance ← (fun o => get o "startBalance") <$> deref first;
    startPrice ← (fun o => get o "startPrice") <$> deref first;
    startTime ← (fun o => get o "startTime") <$> deref first;
    minProfit ← Math_min <$> mapM profitOf backtests;
    maxProfit ← Math_max <$> mapM profitOf backtests;
    periodsProfit ← len <$> filterR (fun backtest =>
        p ← profitOf backtest; Ok (jsGe p batchPeriodProfitThreshold)) backtests;
    periodsLoss ← len <$> filterR (fun backtest =>
        p ← profitOf backtest; Ok (jsLt p batchPeriodProfitThreshold)) backtests;
    let periodsTotal := len backtests in
    target ← deref ret;
    let ret := Object_assign target (literal [
        ("endPrice", endPrice);
        ("endTime", endTime);
        ("startBalance", startBalance);
        ("startPrice", startPrice);
        ("startTime", startTime);
        ("minProfit", minProfit);
        ("maxProfit", maxProfit);
        ("periodsProfit", periodsProfit);
        ("periodsLoss", periodsLoss);
        ("periodsTotal", periodsTotal)
      ]) in
    let backtests :=
      match backtests with
      | [only] => [ {| performanceReport := Some ret;
                       tradingAdvisor := tradingAdvisor only |} ]
      | _ => backtests
      end in
    Ok (backtests, Some ret)
  else Ok (backtests, None).

(** [getFakeReport(stats)] *)
Module FakeReport.
Record t : Type := { stats : list obj; trades : value; total : value }.
End FakeReport.

Definition getFakeReport (stats : list obj) : FakeReport.t :=
  {| FakeReport.stats := stats;
     FakeReport.trades :=
       foldl (fun acc s => jsAdd acc (get s "profits")) (VNum (Fin 0)) stats;
     FakeReport.total :=
       foldl (fun acc s => jsAdd acc (get s "profitTot")) (VNum (Fin 0)) stats |}.

(** [getBatchBacktestReport(backtests)] *)
Definition getBatchBacktestReport (backtests : list report) : result (option obj) :=
  profitsArr ← mapM profitOf backtests;
  if bool_decide (0 < length backtests)%nat then
    Ok (Some (literal [
      ("minProfit", Math_min profitsArr);
      ("maxProfit", Math_max profitsArr)
    ]))
  else Ok None.

(** ** Dates

    A [Date] holds a time value in milliseconds since the epoch, or is
    invalid.  A time value set by the program goes through [TimeClip],
    which keeps it within 8.64e15 milliseconds of the epoch. *)

Inductive Date : Type :=
  | InvalidDate
  | DateMs (ms : Z).

#[global] Instance Date_eq_dec : EqDecision Date.
Proof. solve_decision. Defined.

(** A calendar reading in UTC. *)
Record civil : Type := {
  year : Z; month : Z; day : Z;
  hour : Z; minute : Z; second : Z; millisecond : Z
}.

#[global] Instance civil_eq_dec : EqDecision civil.
Proof. solve_decision. Defined.

Module Calendar.

Definition isLeap (y : Z) : bool :=
  ((y mod 4 =? 0) && negb (y mod 100 =? 0)) || (y mod 400 =? 0).

Definition daysInMonth (y m : Z) : Z :=
  if m =? 2 then (if isLeap y then 29 else 28)
  else if (m =? 4) || (m =? 6) || (m =? 9) || (m =? 11) then 30
  else 31.

(** Days from 1970-01-01 to the given day of the proleptic Gregorian
    calendar. *)
Definition daysFromCivil (y m d : Z) : Z :=
  let y := if m <=? 2 then y - 1 else y in
  let era := y / 400 in
  let yoe := y - era * 400 in
  let doy := (153 * (if 2 <? m then m - 3 else m + 9) + 2) / 5 + d - 1 in
  let doe := yoe * 365 + yoe / 4 - yoe / 100 + doy in
  era * 146097 + doe - 719468.

(** The inverse: year, month and day of a day count. *)
Definition civilFromDays (z : Z) : Z * Z * Z :=
  let z := z + 719468 in
  let era := z / 146097 in
  let doe := z - era * 146097 in
  let yoe := (doe - doe / 1460 + doe / 36524 - doe / 146096) / 365 in
  let y := yoe + era * 400 in
  let doy := doe - (365 * yoe + yoe / 4 - yoe / 100) in
  let mp := (5 * doy + 2) / 153 in
  let d := doy - (153 * mp + 2) / 5 + 1 in
  let m := if mp <? 10 then mp + 3 else mp - 9 in
  (if m <=? 2 then y + 1 else y, m, d).

Definition toMs (c : civil) : Z :=
  (((daysFromCivil (year c) (month c) (day c) * 24 + hour c) * 60
     + minute c) * 60 + second c) * 1000 + millisecond c.

Definition ofMs (ms : Z) : civil :=
  let days := ms / 86400000 in
  let rest := ms mod 86400000 in
  let '(y, m, d) := civilFromDays days in
  {| year := y; month := m; day := d;
     hour := rest / 3600000;
     minute := (rest / 60000) mod 60;
     second := (rest / 1000) mod 60;
     millisecond := rest mod 1000 |}.

Definition valid (c : civil) : bool :=
  (1 <=? month c) && (month c <=? 12) &&
  (1 <=? day c) && (day c <=? daysInMonth (year c) (month c)) &&
  (0 <=? hour c) && (hour c <=? 23) &&
  (0 <=? minute c) && (minute c <=? 59) &&
  (0 <=? second c) && (second c <=? 59).

(** The same day and time of day [k] months later. *)
Definition addMonths (k : Z) (c : civil) : civil :=
  let m0 := month c - 1 + k in
  {| year := year c + m0 / 12; month := m0 mod 12 + 1; day := day c;
     hour := hour c; minute := minute c; second := second c;
     millisecond := millisecond c |}.

Definition digit (a : ascii) : option Z :=
  let n := Z.of_N (Ascii.N_of_ascii a) in
  if (48 <=? n) && (n <=? 57) then Some (n - 48) else None.

Fixpoint number_of (ds : list ascii) (acc : Z) : option Z :=
  match ds with
  | [] => Some acc
  | a :: ds => d ← digit a; number_of ds (acc * 10 + d)
  end.

Definition isChar (a : ascii) (s : string) : bool := bool_decide (String a EmptyString = s).

(** Reads [YYYY-MM-DDTHH:MM:SSZ]. *)
Definition parse (s : string) : option civil :=
  match String.list_ascii_of_string s with
  | [y1; y2; y3; y4; a; m1; m2; b; d1; d2; t; h1; h2; c; n1; n2; d; s1; s2; z] =>
      if isChar a "-" && isChar b "-" && isChar t "T" && isChar c ":" && isChar d ":" && isChar z "Z" then
        y ← number_of [y1; y2; y3; y4] 0;
        m ← number_of [m1; m2] 0;
        d ← number_of [d1; d2] 0;
        h ← number_of [h1; h2] 0;
        n ← number_of [n1; n2] 0;
        s ← number_of [s1; s2] 0;
        let c := {| year := y; month := m; day := d;
                    hour := h; minute := n; second := s; millisecond := 0 |} in
        if valid c then Some c else None
      else None
  | _ => None
  end.

Definition digitChar (d : Z) : ascii := Ascii.ascii_of_N (Z.to_N (48 + d mod 10)).

(** The last [n] decimal digits of [z]. *)
Fixpoint digits (n : nat) (z : Z) : string :=
  match n with
  | O => ""
  | S n => digits n (z / 10) +:+ String (digitChar z) ""
  end.

(** [Date.prototype.toISOString] on a valid time value. *)
Definition format (c : civil) : string :=
  (if (0 <=? year c) && (year c <=? 9999) then digits 4 (year c)
   else (if year c <? 0 then "-" else "+") +:+ digits 6 (Z.abs (year c)))
  +:+ "-" +:+ digits 2 (month c) +:+ "-" +:+ digits 2 (day c)
  +:+ "T" +:+ digits 2 (hour c) +:+ ":" +:+ digits 2 (minute c)
  +:+ ":" +:+ digits 2 (second c) +:+ "." +:+ digits 3 (millisecond c) +:+ "Z".

End Calendar.

(** [moment(s)] for the timestamps of this file; other layouts are taken as
    not parsed. *)
Definition moment (s : string) : Date :=
  match Calendar.parse s with
  | Some c => DateMs (Calendar.toMs c)
  | None => InvalidDate
  end.


(** [Date.prototype.toJSON]: the ISO string, [null] for an invalid date. *)
Definition toJSON (d : Date) : option string :=
  match d with
  | InvalidDate => None
  | DateMs ms => Some (Calendar.format (Calendar.ofMs ms))
  end.


(** [TimeClip]: a time value that is not finite, or that is more than
    8.64e15 milliseconds away from the epoch, leaves an invalid date. *)
Definition TimeClip (t : number) : Date :=
  match t with
  | Fin ms => if Z.abs ms <=? 8640000000000000 then DateMs ms else InvalidDate
  | _ => InvalidDate
  end.

(** [m.subtract(n, unit)]: only minutes are subtracted in this file.  The
    amount is turned into milliseconds; when that is falsy (zero or NaN)
    the date is left as it is, otherwise its time is set to
    [valueOf() + milliseconds * -1], computed on doubles and clipped. *)
Inductive unit_of_time : Type := minutes.

Definition subtract (m : Date) (n : number) (u : unit_of_time) : Date :=
  match m with
  | InvalidDate => InvalidDate
  | DateMs ms =>
      let milliseconds := Num.mul n (Fin 60000) in
      match milliseconds with
      | NaN | Fin 0 => DateMs ms
      | _ => TimeClip (Num.add (Fin ms) (Num.mul milliseconds (Fin (-1))))
      end
  end.

(** [m.toDate()] *)
Definition toDate (m : Date) : Date := m.

(** ** Date spans *)

Record span : Type := { from : Date; to : string }.

#[global] Instance span_eq_dec : EqDecision span.
Proof. solve_decision. Defined.

Definition monthlySpans (warmupMinutes : number) : list span := [
  (* 2017yr *)
  {| from := toDate (subtract (moment "2017-09-21T00:00:00Z") warmupMinutes minutes);
     to := "2017-10-21T00:00:00Z" |};
  {| from := toDate (subtract (moment "2017-10-21T00:00:00Z") warmupMinutes minutes);
     to := "2017-11-21T00:00:00Z" |};
  {| from := toDate (subtract (moment "2017-11-21T00:00:00Z") warmupMinutes minutes);
     to := "2017-12-21T00:00:00Z" |};
  (* 2018yr *)
  {| from := toDate (subtract (moment "2017-12-21T00:00:00Z") warmupMinutes minutes);
     to := "2018-01-21T00:00:00Z" |};
  {| from := toDate (subtract (moment "2018-01-21T00:00:00Z") warmupMinutes minutes);
     to := "2018-02-21T00:00:00Z" |};
  {| from := toDate (subtract (moment "2018-02-21T00:00:00Z") warmupMinutes minutes);
     to := "2018-03-21T00:00:00Z" |};
  {| from := toDate (subtract (moment "2018-03-21T00:00:00Z") warmupMinutes minutes);
     to := "2018-04-21T00:00:00Z" |};
  {| from := toDate (subtract (moment "2018-04-21T00:00:00Z") warmupMinutes minutes);
     to := "2018-05-21T00:00:00Z" |};
  {| from := toDate (subtract (moment "2018-05-21T00:00:00Z") warmupMinutes minutes);
     to := "2018-06-21T00:00:00Z" |};
  {| from := toDate (subtract (moment "2018-06-21T00:00:00Z") warmupMinutes minutes);
     to := "2018-07-21T00:00:00Z" |};
  {| from := toDate (subtract (moment "2018-07-21T00:00:00Z") warmupMinutes minutes);
     to := "2018-08-21T00:00:00Z" |};
  {| from := toDate (subtract (moment "2018-08-21T00:00:00Z") warmupMinutes minutes);
     to := "2018-09-21T00:00:00Z" |};
  {| from := toDate (subtract (moment "2018-09-21T00:00:00Z") warmupMinutes minutes);
     to := "2018-10-21T00:00:00Z" |};
  {| from := toDate (subtract (moment "2018-10-21T00:00:00Z") warmupMinutes minutes);
     to := "2018-11-21T00:00:00Z" |};
  {| from := toDate (subtract (moment "2018-11-21T00:00:00Z") warmupMinutes minutes);
     to := "2018-12-21T00:00:00Z" |};
  (* 2019 yr *)
  {| from := toDate (subtract (moment "2018-12-21T00:00:00Z") warmupMinutes minutes);
     to := "2019-01-21T00:00:00Z" |};
  {| from := toDate (subtract (moment "2019-01-21T00:00:00Z") warmupMinutes minutes);
     to := "2019-02-21T00:00:00Z" |};
  {| from := toDate (subtract (moment "2019-02-21T00:00:00Z") warmupMinutes minutes);
     to := "2019-03-21T00:00:00Z" |};
  {| from := toDate (subtract (moment "2019-03-21T00:00:00Z") warmupMinutes minutes);
     to := "2019-04-21T00:00:00Z" |};
  {| from := toDate (subtract (moment "2019-04-21T00:00:00Z") warmupMinutes minutes);
     to := "2019-05-21T00:00:00Z" |};
  {| from := toDate (subtract (moment "2019-05-21T00:00:00Z") warmupMinutes minutes);
     to := "2019-06-21T00:00:00Z" |};
  {| from := toDate (subtract (moment "2019-06-21T00:00:00Z") warmupMinutes minutes);
     to := "2019-07-21T00:00:00Z" |};
  {| from := toDate (subtract (moment "2019-07-21T00:00:00Z") warmupMinutes minutes);
     to := "2019-08-21T00:00:00Z" |};
  {| from := toDate (subtract (moment "2019-08-21T00:00:00Z") warmupMinutes minutes);
     to := "2019-09-21T00:00:00Z" |};
  {| from := toDate (subtract (moment "2019-09-21T00:00:00Z") warmupMinutes minutes);
     to := "2019-10-21T00:00:00Z" |};
  {| from := toDate (subtract (moment "2019-10-21T00:00:00Z") warmupMinutes minutes);
     to := "2019-11-21T00:00:00Z" |};
  {| from := toDate (subtract (moment "2019-11-21T00:00:00Z") warmupMinutes minutes);
     to := "2019-12-21T00:00:00Z" |};
  (* 2020 yr *)
  {| from := toDate (subtract (moment "2019-12-21T00:00:00Z") warmupMinutes minutes);
     to := "2020-01-21T00:00:00Z" |};
  {| from := toDate (subtract (moment "2020-01-21T00:00:00Z") warmupMinutes minutes);
     to := "2020-02-21T00:00:00Z" |};
  {| from := toDate (subtract (moment "2020-02-21T00:00:00Z") warmupMinutes minutes);
     to := "2020-03-21T00:00:00Z" |};
  {| from := toDate (subtract (moment "2020-03-21T00:00:00Z") warmupMinutes minutes);
     to := "2020-04-21T00:00:00Z" |};
  {| from := toDate (subtract (moment "2020-04-21T00:00:00Z") warmupMinutes minutes);
     to := "2020-05-21T00:00:00Z" |};
  {| from := toDate (subtract (moment "2020-05-21T00:00:00Z") warmupMinutes minutes);
     to := "2020-06-21T00:00:00Z" |};
  {| from := toDate (subtract (moment "2020-06-21T00:00:00Z") warmupMinutes minutes);
     to := "2020-07-21T00:00:00Z" |};
  {| from := toDate (subtract (moment "2020-07-21T00:00:00Z") warmupMinutes minutes);
     to := "2020-08-21T00:00:00Z" |};
  {| from := toDate (subtract (moment "2020-08-21T00:00:00Z") warmupMinutes minutes);
     to := "2020-09-21T00:00:00Z" |};
  {| from := toDate (subtract (moment "2020-09-21T00:00:00Z") warmupMinutes minutes);
     to := "2020-10-21T00:00:00Z" |};
  {| from := toDate (subtract (moment "2020-10-21T00:00:00Z") warmupMinutes minutes);
     to := "2020-11-21T00:00:00Z" |};
  {| from := toDate (subtract (moment "2020-11-21T00:00:00Z") warmupMinutes minutes);
     to := "2020-12-21T00:00:00Z" |};
  (* 2021 yr *)
  {| from := toDate (subtract (moment "2020-12-21T00:00:00Z") warmupMinutes minutes);
     to := "2021-01-21T00:00:00Z" |};
  {| from := toDate (subtract (moment "2021-01-21T00:00:00Z") warmupMinutes minutes);
     to := "2021-02-21T00:00:00Z" |}
].

Definition quarterlySpans (warmupMinutes : number) : list span := [
  (* 2017yr *)
  {| from := toDate (subtract (moment "2017-10-01T00:00:00Z") warmupMinutes minutes);
     to := "2018-01-01T00:00:00Z" |};
  (* 2018yr *)
  {| from := toDate (subtract (moment "2018-01-01T00:00:00Z") warmupMinutes minutes);
     to := "2018-04-01T00:00:00Z" |};
  {| from := toDate (subtract (moment "2018-04-01T00:00:00Z") warmupMinutes minutes);
     to := "2018-07-01T00:00:00Z" |};
  {| from := toDate (subtract (moment "2018-07-01T00:00:00Z") warmupMinutes minutes);
     to := "2018-10-01T00:00:00Z" |};
  {| from := toDate (subtract (moment "2018-10-01T00:00:00Z") warmupMinutes minutes);
     to := "2019-01-01T00:00:00Z" |};
  (* 2019 yr *)
  {| from := toDate (subtract (moment "2019-01-01T00:00:00Z") warmupMinutes minutes);
     to := "2019-04-01T00:00:00Z" |};
  {| from := toDate (subtract (moment "2019-04-01T00:00:00Z") warmupMinutes minutes);
     to := "2019-07-01T00:00:00Z" |};
  {| from := toDate (subtract (moment "2019-07-01T00:00:00Z") warmupMinutes minutes);
     to := "2019-10-01T00:00:00Z" |};
  {| from := toDate (subtract (moment "2019-10-01T00:00:00Z") warmupMinutes minutes);
     to := "2020-01-01T00:00:00Z" |};
  (* 2020 yr *)
  {| from := toDate (subtract (moment "2020-01-01T00:00:00Z") warmupMinutes minutes);
     to := "2020-04-01T00:00:00Z" |};
  {| from := toDate (subtract (moment "2020-04-01T00:00:00Z") warmupMinutes minutes);
     to := "2020-07-01T00:00:00Z" |};
  {| from := toDate (subtract (moment "2020-07-01T00:00:00Z") warmupMinutes minutes);
     to := "2020-10-01T00:00:00Z" |};
  {| from := toDate (subtract (moment "2020-10-01T00:00:00Z") warmupMinutes minutes);
     to := "2021-01-01T00:00:00Z" |}
].

Definition yearlySpans (warmupMinutes : number) : list span := [
  {| from := toDate (subtract (moment "2018-01-01T00:00:00Z") warmupMinutes minutes);
     to := "2019-01-01T00:00:00Z" |};
  {| from := toDate (subtract (moment "2019-01-01T00:00:00Z") warmupMinutes minutes);
     to := "2020-01-01T00:00:00Z" |};
  {| from := toDate (subtract (moment "2020-01-01T00:00:00Z") warmupMinutes minutes);
     to := "2021-01-01T00:00:00Z" |}
].

(** ** Configuration

    The merged configuration, restricted to the properties the route reads
    or writes; [others] stands for the remaining top-level properties.  An
    absent object is [None], an absent primitive is [VUndef]. *)

Module Config.

Record tradingAdvisor_t : Type := { historySize : value; candleSize : value }.

Record batchBacktest_t : Type := { batchSize : option string }.

Record batch_t : Type := {
  synchronous : value;
  noBigData : value;
  batchPeriodProfitThreshold : value
}.

Record data_t : Type := { roundtrips : value; stratCandles : value }.

Record backtestResultExporter_t : Type := { data : option data_t }.

(** What [backtest.daterange] holds: nothing, a string such as ['scan'], a
    plain object of its own with [from] ([None] for [null]) and [to], or a
    reference to one of the span objects made by the span tables. *)
Inductive daterange_t : Type :=
  | NoRange
  | Scan (s : string)
  | Range (from : option string) (to : string)
  | SpanRef (l : nat).

Record backtest_t : Type := { daterange : daterange_t }.

Record t : Type := {
  mode : option string;
  batchBacktest : option batchBacktest_t;
  tradingAdvisor : option tradingAdvisor_t;
  batch : option batch_t;
  backtestResultExporter : option backtestResultExporter_t;
  backtest : option backtest_t;
  others : obj
}.

(** The configuration after [config.mode = m]. *)
Definition with_mode (m : string) (c : t) : t :=
  {| mode := Some m;
     batchBacktest := batchBacktest c;
     tradingAdvisor := tradingAdvisor c;
     batch := batch c;
     backtestResultExporter := backtestResultExporter c;
     backtest := backtest c;
     others := others c |}.

(** The configuration after [roundtrips] and [stratCandles] of
    [config.backtestResultExporter.data] are set to [false]. *)
Definition without_bigData (c : t) : t :=
  {| mode := mode c;
     batchBacktest := batchBacktest c;
     tradingAdvisor := tradingAdvisor c;
     batch := batch c;
     backtestResultExporter :=
       Some {| data := Some {| roundtrips := VBool false;
                               stratCandles := VBool false |} |};
     backtest := backtest c;
     others := others c |}.

(** The configuration after [config.backtest.daterange = d]. *)
Definition with_daterange (d : daterange_t) (c : t) : t :=
  {| mode := mode c;
     batchBacktest := batchBacktest c;
     tradingAdvisor := tradingAdvisor c;
     batch := batch c;
     backtestResultExporter := backtestResultExporter c;
     backtest := Some {| daterange := d |};
     others := others c |}.

End Config.

(** [getDateMonthSpansForYear(config)]: [dateSpans] stays [undefined]
    ([None]) when no branch assigns it. *)
Definition getDateMonthSpansForYear (config : Config.t) : result (option (list span)) :=
  let batchSize := Config.batchBacktest config ≫= Config.batchSize in
  advisor ← deref (Config.tradingAdvisor config);
  let warmupMinutes :=
    toNumber (jsMul (Config.historySize advisor) (Config.candleSize advisor)) in
  if bool_decide (batchSize = None ∨ batchSize = Some "" ∨ batchSize = Some "1 month")
  then Ok (Some (monthlySpans warmupMinutes))
  else if bool_decide (batchSize = Some "1 quarter")
  then Ok (Some (quarterlySpans warmupMinutes))
  else if bool_decide (batchSize = Some "1 year")
  then Ok (Some (yearlySpans warmupMinutes))
  else Ok None.

(** ** The store

    Configuration objects and span objects are mutable and can be reached
    from several places, so both live in a store and are named by their
    position in it.  The nested objects of a configuration ([batch],
    [backtest], ...) are only ever reached through their configuration and
    are kept inside it.  [dispatched] records, in order, which configuration
    object each call of the pipeline received. *)

Record world : Type := {
  spanObjs : list span;
  configObjs : list Config.t;
  dispatched : list nat
}.

Definition emptyWorld : world :=
  {| spanObjs := []; configObjs := []; dispatched := [] |}.

(** What the pipeline can read through the configuration it is given: the
    configuration and, when its [backtest.daterange] is a span object, that
    span. *)
Record request : Type := { req_config : Config.t; req_span : option span }.

Definition spanOf (w : world) (c : Config.t) : option span :=
  match Config.daterange <$> Config.backtest c with
  | Some (Config.SpanRef s) => spanObjs w !! s
  | _ => None
  end.

Definition resolve (w : world) (l : nat) : option request :=
  c ← configObjs w !! l;
  Some {| req_config := c; req_span := spanOf w c |}.

(** Computations on the store that may throw. *)
Record M (A : Type) : Type := Run { run : world → result A * world }.
Arguments Run {A} _.
Arguments run {A} _ _.

#[global] Instance M_ret : MRet M := λ A a, Run (λ w, (Ok a, w)).
#[global] Instance M_bind : MBind M := λ A B f m, Run (λ w,
  match run m w with
  | (Ok a, w') => run (f a) w'
  | (Throw e, w') => (Throw e, w')
  end).

Definition lift {A} (r : result A) : M A := Run (λ w, (r, w)).

Definition newConfig (c : Config.t) : M nat := Run (λ w,
  (Ok (length (configObjs w)),
   {| spanObjs := spanObjs w; configObjs := configObjs w ++ [c];
      dispatched := dispatched w |})).

Definition readConfig (l : nat) : M Config.t :=
  Run (λ w, (deref (configObjs w !! l), w)).

Definition writeConfig (l : nat) (c : Config.t) : M () := Run (λ w,
  (Ok (),
   {| spanObjs := spanObjs w; configObjs := <[l := c]> (configObjs w);
      dispatched := dispatched w |})).

(** The array literal of a span table: one fresh object per row. *)
Definition newSpans (ss : list span) : M (list nat) := Run (λ w,
  (Ok (seq (length (spanObjs w)) (length ss)),
   {| spanObjs := spanObjs w ++ ss; configObjs := configObjs w;
      dispatched := dispatched w |})).

(** [config.mode = mode] *)
Definition setMode (config : nat) (mode : string) : M () :=
  c ← readConfig config;
  writeConfig config (Config.with_mode mode c).

(** [config.backtestResultExporter.data.roundtrips = false;
     config.backtestResultExporter.data.stratCandles = false]: a TypeError
    when the exporter or its [data] is [undefined]. *)
Definition dropBigData (config : nat) : M () :=
  c ← readConfig config;
  exporter ← lift (deref (Config.backtestResultExporter c));
  _ ← lift (deref (Config.data exporter));
  writeConfig config (Config.without_bigData c).

(** [config.backtest.daterange = d]: a TypeError when [config.backtest] is
    [undefined]. *)
Definition setDaterange (config : nat) (d : Config.daterange_t) : M () :=
  c ← readConfig config;
  _ ← lift (deref (Config.backtest c));
  writeConfig config (Config.with_daterange d c).

(** ** JSON round trip

    [JSON.parse(JSON.stringify(x))]: a property holding [undefined] is
    dropped, NaN and the infinities come back as [null], a [Date] comes back
    as its ISO string, and the outcome shares no object with [x]. *)

Definition jsonValue (v : value) : value :=
  match v with
  | VNum (Fin z) => VNum (Fin z)
  | VNum _ => VNull
  | v => v
  end.

Definition jsonObj (o : obj) : obj :=
  jsonValue <$> filter (λ kv, kv.2 ≠ VUndef) o.

Definition jsonDaterange (spans : list span) (d : Config.daterange_t) : Config.daterange_t :=
  match d with
  | Config.SpanRef l =>
      match spans !! l with
      | Some s => Config.Range (toJSON (from s)) (to s)
      | None => Config.NoRange
      end
  | d => d
  end.

Definition jsonConfig (spans : list span) (c : Config.t) : Config.t :=
  {| Config.mode := Config.mode c;
     Config.batchBacktest := Config.batchBacktest c;
     Config.tradingAdvisor :=
       (λ a, {| Config.historySize := jsonValue (Config.historySize a);
                Config.candleSize := jsonValue (Config.candleSize a) |})
       <$> Config.tradingAdvisor c;
     Config.batch :=
       (λ b, {| Config.synchronous := jsonValue (Config.synchronous b);
                Config.noBigData := jsonValue (Config.noBigData b);
                Config.batchPeriodProfitThreshold :=
                  jsonValue (Config.batchPeriodProfitThreshold b) |})
       <$> Config.batch c;
     Config.backtestResultExporter :=
       (λ e, {| Config.data :=
                  (λ d, {| Config.roundtrips := jsonValue (Config.roundtrips d);
                           Config.stratCandles := jsonValue (Config.stratCandles d) |})
                  <$> Config.data e |})
       <$> Config.backtestResultExporter c;
     Config.backtest :=
       (λ b, {| Config.daterange := jsonDaterange spans (Config.daterange b) |})
       <$> Config.backtest c;
     Config.others := jsonObj (Config.others c) |}.

(** [JSON.parse(JSON.stringify(config))] as a fresh object in the store. *)
Definition jsonClone (config : nat) : M nat :=
  c ← readConfig config;
  spans ← Run (λ w, (Ok (spanObjs w), w));
  newConfig (jsonConfig spans c).

(** ** The response *)

Module Response.
Record t : Type := {
  backtests : list report;
  performanceReport : option obj;
  batchReport : option obj;
  fakeReport : FakeReport.t
}.
End Response.

(** Lines 74-79: the response built from the collected [backtests]. *)
Definition buildResponse (backtests : list report)
    (batchPeriodProfitThreshold : value) : result Response.t :=
  '(backtests, performanceReport) ←
    getTotalPerformanceReport backtests batchPeriodProfitThreshold;
  batchReport ← getBatchBacktestReport backtests;
  stats ← mapM (λ b, stats <$> deref (tradingAdvisor b)) backtests;
  Ok {| Response.backtests := backtests;
        Response.performanceReport := performanceReport;
        Response.batchReport := batchReport;
        Response.fakeReport := getFakeReport (omap id stats) |}.

(** [config.batch && config.batch.p] *)
Definition batchOption (c : Config.t) (p : Config.batch_t → value) : value :=
  match Config.batch c with
  | Some b => p b
  | None => VUndef
  end.

(** Lines 36-55 of the route: the configuration object, the spans, the
    threshold and the [noBigData] switch. *)
Definition prepare (mode : string) (merged : Config.t)
    : M (nat * option (list nat) * value) :=
  config ← newConfig merged;
  _ ← setMode config mode;
  c ← readConfig config;
  tables ← lift (getDateMonthSpansForYear c);
  dateSpans ← match tables with
               | Some ss => ls ← newSpans ss; mret (Some ls)
               | None => mret None
               end;
  let batchPeriodProfitThreshold :=
    jsOr (batchOption c Config.batchPeriodProfitThreshold) (VNum (Fin 0)) in
  _ ← (if truthy (batchOption c Config.noBigData)
       then dropBigData config
       else mret ());
  mret (config, dateSpans, batchPeriodProfitThreshold).

(** ** Calling the pipeline

    [pipelineRunner(mode, config)] returns a promise; its outcome is what
    the pipeline, a function of the mode and of what it reads through
    [config], makes of the request. *)

Section Route.

Variable pipelineRunner : string → request → result report.

Definition invoke (mode : string) (config : nat) : M (result report) := Run (λ w,
  match resolve w config with
  | Some req =>
      (Ok (pipelineRunner mode req),
       {| spanObjs := spanObjs w; configObjs := configObjs w;
          dispatched := dispatched w ++ [config] |})
  | None => (Throw TypeError, w)
  end).

(** [await p] *)
Definition await {A} (p : result A) : M A := lift p.

(** [Promise.all(ps)]: the array of the outcomes when every promise is
    fulfilled, otherwise the rejection that comes first.  [settle] lists
    the promises in the order in which they settle; promises it leaves
    out settle afterwards, in array order. *)
Definition Promise_all {A} (settle : list nat) (ps : list (result A)) : result (list A) :=
  let rejection i :=
    match ps !! i with
    | Some (Throw e) => Some e
    | _ => None
    end in
  match omap rejection settle with
  | e :: _ => Throw e
  | [] => mapM id ps
  end.

(** The loop of lines 60-65. *)
Fixpoint sequential (mode : string) (config : nat) (dateSpans : list nat)
    (backtests : list report) : M (list report) :=
  match dateSpans with
  | [] => mret backtests
  | dateSpanCur :: dateSpans =>
      _ ← setDaterange config (Config.SpanRef dateSpanCur);
      p ← invoke mode config;
      resultCur ← await p;
      sequential mode config dateSpans (backtests ++ [resultCur])
  end.

(** The [map] of lines 67-71: the promises, in the order of the spans. *)
Fixpoint concurrent (mode : string) (config : nat) (dateSpans : list nat)
    : M (list (result report)) :=
  match dateSpans with
  | [] => mret []
  | dateSpan :: dateSpans =>
      configCur ← jsonClone config;
      _ ← setDaterange configCur (Config.SpanRef dateSpan);
      p ← invoke mode configCur;
      ps ← concurrent mode config dateSpans;
      mret (p :: ps)
  end.


(** Lines 57-72: the sequential loop when [config.batch.synchronous] is
    truthy, the concurrent map otherwise.  [dateSpans] is [None] when the
    span selector returned [undefined]: reading its [length], or calling
    its [map], throws. *)
Definition execute (settle : list nat) (mode : string) (config : nat)
    (dateSpans : option (list nat)) : M (list report) :=
  c ← readConfig config;
  if truthy (batchOption c Config.synchronous)
  then
    dateSpans ← lift (deref dateSpans);
    sequential mode config dateSpans []
  else
    dateSpans ← lift (deref dateSpans);
    ps ← concurrent mode config dateSpans;
    await (Promise_all settle ps).

(** The route.  [merged] is what [_.merge(config, base, req)] leaves in
    the fresh [config]: the base configuration and lodash are not part of
    these sources. *)
Definition module_exports (settle : list nat) (merged : Config.t) : M Response.t :=
  let mode := "backtest" in
  '(config, dateSpans, batchPeriodProfitThreshold) ← prepare mode merged;
  backtests ← execute settle mode config dateSpans;
  lift (buildResponse backtests batchPeriodProfitThreshold).

End Route.

(** * Vocabulary of the statements *)

Definition has_perf (b : report) : Prop := is_Some (performanceReport b).
Definition field (b : report) (k : string) : value :=
  get (default ∅ (performanceReport b)) k.
Definition has_field (k : string) (b : report) (z : Z) : Prop :=
  has_perf b ∧ field b k = VNum (Fin z).
Fixpoint minimum (ps : list Z) : Z :=
  match ps with
  | [] => 0
  | p :: ps' => match ps' with [] => p | _ => Z.min p (minimum ps') end
  end.
Fixpoint maximum (ps : list Z) : Z :=
  match ps with
  | [] => 0
  | p :: ps' => match ps' with [] => p | _ => Z.max p (maximum ps') end
  end.
Definition sum (zs : list Z) : Z := foldr Z.add 0 zs.
(** The magnitudes of [zs] added up.  While this is at most 2^53, adding
    the numbers one after the other never rounds. *)
Definition magnitude (zs : list Z) : Z := sum (map Z.abs zs).
Definition summed : list string :=
  ["losses"; "profit"; "relativeProfit"; "trades"; "yearlyProfit"].
(** What a report would add to the sum under [k] if a missing field counted
    as zero. *)
Definition contributes (k : string) (b : report) (z : Z) : Prop :=
  has_perf b ∧ (field b k = VNum (Fin z) ∨ field b k = VUndef ∧ z = 0).

Definition missing_field_counts_as_zero : Prop :=
  ∀ (bs : list report) (t : value) (k : string) (zs : list Z),
    bs ≠ [] → k ∈ summed → Forall2 (contributes k) bs zs →
    ∃ bs' ret,
      getTotalPerformanceReport bs t = Ok (bs', Some ret) ∧
      get ret k = VNum (Fin (sum zs)).

(** The ten properties written by [Object.assign]. *)
Definition assigned (e1 e2 s1 s2 s3 mn mx pp pl pt : value) : obj :=
  literal [
    ("endPrice", e1); ("endTime", e2);
    ("startBalance", s1); ("startPrice", s2); ("startTime", s3);
    ("minProfit", mn); ("maxProfit", mx);
    ("periodsProfit", pp); ("periodsLoss", pl); ("periodsTotal", pt) ].

Definition threshold (t : value) : value :=
  match t with VUndef => VNum (Fin 0) | _ => t end.

Definition example_reports : list report :=
  map (λ p, {| performanceReport := Some (literal [
                 ("losses", VNum (Fin 1)); ("profit", VNum (Fin p));
                 ("relativeProfit", VNum (Fin (2 * p))); ("trades", VNum (Fin 7));
                 ("yearlyProfit", VNum (Fin (12 * p))) ]);
               tradingAdvisor := None |})
      [-5; 10; 0; 20].

(** A report that holds no [losses], and one that holds every summed
    field. *)
Definition report_without_losses : report :=
  {| performanceReport := Some (literal [
       ("profit", VNum (Fin 2)); ("relativeProfit", VNum (Fin 4));
       ("trades", VNum (Fin 1)); ("yearlyProfit", VNum (Fin 24)) ]);
     tradingAdvisor := None |}.

Definition report_with_losses : report :=
  {| performanceReport := Some (literal [
       ("losses", VNum (Fin 3)); ("profit", VNum (Fin 1));
       ("relativeProfit", VNum (Fin 2)); ("trades", VNum (Fin 5));
       ("yearlyProfit", VNum (Fin 12)) ]);
     tradingAdvisor := None |}.

(** What the function returned under the key [k], if it returned an
    object. *)
Definition returned (k : string) (r : result (list report * option obj)) : option value :=
  match r with
  | Ok (_, Some ret) => Some (get ret k)
  | _ => None
  end.

(** A nominal range [a, b), in milliseconds, that is [k] calendar months
    long. *)
Definition calendar_range (k : Z) (r : Z * Z) : Prop :=
  r.1 < r.2 ∧ Calendar.ofMs r.2 = Calendar.addMonths k (Calendar.ofMs r.1).

(** A span table whose nominal ranges are [k] months long, in increasing
    order and without overlap, and whose spans start the warm-up earlier,
    at every warm-up [w] that is [admissible]. *)
Definition well_formed_table (admissible : Z → Prop) (k : Z)
    (table : number → list span) : Prop :=
  ∃ ranges : list (Z * Z),
    ranges ≠ [] ∧
    Forall (calendar_range k) ranges ∧
    StronglySorted (λ r r', r.2 ≤ r'.1) ranges ∧
    Forall2 (λ s r, from s = DateMs r.1 ∧ moment (to s) = DateMs r.2)
      (table (Fin 0)) ranges ∧
    ∀ w : Z, admissible w →
      Forall2 (λ s r, from s = DateMs (r.1 - w * 60000) ∧ moment (to s) = DateMs r.2)
        (table (Fin w)) ranges ∧
      StronglySorted
        (λ s s', ∃ a a', from s = DateMs a ∧ from s' = DateMs a' ∧ a < a')
        (table (Fin w)).

(** The warm-up, in minutes, that is as long as a [Date] can be away from
    the epoch: 8.64e15 milliseconds. *)
Definition max_warmup : Z := 144000000000.

(** C7 as stated: the three tables are well formed at every non-negative
    warm-up. *)
Definition well_formed_at_every_warmup : Prop :=
  well_formed_table (λ w, 0 ≤ w) 1 monthlySpans ∧
  well_formed_table (λ w, 0 ≤ w) 3 quarterlySpans ∧
  well_formed_table (λ w, 0 ≤ w) 12 yearlySpans.

(** The request of the partition whose span object is [s], for a
    configuration [c] and the span objects [spans]. *)
Definition requestFor (spans : list span) (c : Config.t) (s : nat) : request :=
  {| req_config := Config.with_daterange (Config.SpanRef s) c;
     req_span := spans !! s |}.

(** Two outcomes agree: the same value, or a failure on both sides. *)
Definition same_outcome {A} (r1 r2 : result A) : Prop :=
  match r1, r2 with
  | Ok a, Ok b => a = b
  | Throw _, Throw _ => True
  | _, _ => False
  end.

(** The configuration with [batch.synchronous] set to [v]. *)
Definition setSynchronous (v : value) (c : Config.t) : Config.t :=
  {| Config.mode := Config.mode c;
     Config.batchBacktest := Config.batchBacktest c;
     Config.tradingAdvisor := Config.tradingAdvisor c;
     Config.batch :=
       Some {| Config.synchronous := v;
               Config.noBigData := batchOption c Config.noBigData;
               Config.batchPeriodProfitThreshold :=
                 batchOption c Config.batchPeriodProfitThreshold |};
     Config.backtestResultExporter := Config.backtestResultExporter c;
     Config.backtest := Config.backtest c;
     Config.others := Config.others c |}.

(** A configuration that the JSON round trip leaves as it is. *)
Definition plain (c : Config.t) : Prop := ∀ spans, jsonConfig spans c = c.

(** A pipeline whose outcome does not depend on [batch.synchronous]. *)
Definition ignores_synchronous (pipelineRunner : string → request → result report) : Prop :=
  ∀ mode c sp v,
    pipelineRunner mode {| req_config := setSynchronous v c; req_span := sp |}
    = pipelineRunner mode {| req_config := c; req_span := sp |}.

(** The state of the store when the route starts dispatching. *)
Definition dispatching (ss : list span) (c : Config.t) : world :=
  {| spanObjs := ss; configObjs := [c]; dispatched := [] |}.

(** The configuration object as lines 46-55 leave it. *)
Definition configured (mode : string) (merged : Config.t) : Config.t :=
  let c := Config.with_mode mode merged in
  if truthy (batchOption c Config.noBigData) then Config.without_bigData c else c.

(** The pipeline fails with [e] on the span [s] and succeeds on every other
    span of [ss]. *)
Definition fails_only_on (pipelineRunner : string → request → result report)
    (ss : list span) (s : span) (e : error) : Prop :=
  (∀ mode req, req_span req = Some s → pipelineRunner mode req = Throw e) ∧
  (∀ mode req s', s' ∈ ss → s' ≠ s → req_span req = Some s' →
     ∃ r, pipelineRunner mode req = Ok r).

(** The route gets as far as dispatching the spans [ss]. *)
Definition dispatches (merged : Config.t) (ss : list span) : Prop :=
  getDateMonthSpansForYear merged = Ok (Some ss) ∧
  (truthy (batchOption merged Config.noBigData) →
     is_Some (Config.backtestResultExporter merged ≫= Config.data)) ∧
  is_Some (Config.backtest merged).

(** C6 as stated: the error of an aborted batch tells which partition
    failed. *)
Definition abort_names_partition : Prop :=
  ∃ index_of : error → option nat,
    ∀ pipelineRunner settle merged ss i s e,
      dispatches merged ss → ss !! i = Some s →
      fails_only_on pipelineRunner ss s e →
      ∃ err,
        (run (module_exports pipelineRunner settle merged) emptyWorld).1 = Throw err ∧
        index_of err = Some i.

(** [request.backtest.daterange.to = x], written through the configuration
    object [l]: the write lands in the span object when the daterange is one,
    in the configuration's own plain object otherwise. *)
Definition writeDaterangeTo (l : nat) (x : string) : M () :=
  c ← readConfig l;
  bt ← lift (deref (Config.backtest c));
  match Config.daterange bt with
  | Config.SpanRef s =>
      Run (λ w,
        (Ok (),
         {| spanObjs := alter (λ sp, {| from := from sp; to := x |}) s (spanObjs w);
            configObjs := configObjs w;
            dispatched := dispatched w |}))
  | Config.Range f _ => writeConfig l (Config.with_daterange (Config.Range f x) c)
  | Config.Scan _ => mret ()
  | Config.NoRange => lift (Throw TypeError)
  end.

(** Writing the daterange of the request of one partition, by assignment or
    in place, is not seen through the request of another partition. *)
Definition independent_requests (w : world) : Prop :=
  ∀ i j li lj,
    i ≠ j → dispatched w !! i = Some li → dispatched w !! j = Some lj →
    li ≠ lj ∧
    (∀ d, resolve (run (setDaterange li d) w).2 lj = resolve w lj) ∧
    (∀ x, resolve (run (writeDaterangeTo li x) w).2 lj = resolve w lj).

(** The request of partition [i] is scoped to the span [i]. *)
Definition own_spans (w : world) : Prop :=
  ∀ i li,
    dispatched w !! i = Some li →
    ∃ req s, resolve w li = Some req ∧ spanObjs w !! i = Some s ∧ req_span req = Some s.

(** C9 as stated, for both execution modes. *)
Definition requests_always_independent : Prop :=
  ∀ (pipelineRunner : string → request → result report) settle merged,
    let w := (run (module_exports pipelineRunner settle merged) emptyWorld).2 in
    independent_requests w ∧ own_spans w.

(** ** Sample inputs *)

(** A request body for one of the span tables: history of 10 candles of 60
    minutes, so a warm-up of 600 minutes. *)
Definition example_config (synchronous : bool) (batchSize : string) : Config.t :=
  {| Config.mode := None;
     Config.batchBacktest := Some {| Config.batchSize := Some batchSize |};
     Config.tradingAdvisor :=
       Some {| Config.historySize := VNum (Fin 10);
               Config.candleSize := VNum (Fin 60) |};
     Config.batch :=
       Some {| Config.synchronous := VBool synchronous;
               Config.noBigData := VUndef;
               Config.batchPeriodProfitThreshold := VUndef |};
     Config.backtestResultExporter := None;
     Config.backtest := Some {| Config.daterange := Config.Scan "scan" |};
     Config.others := ∅ |}.

(** The report a stub pipeline makes for a span. *)
Definition stub_report (s : span) : report :=
  {| performanceReport :=
       Some (literal [
         ("losses", VNum (Fin 1));
         ("profit", VNum (Fin (Z.of_nat (String.length (to s)))));
         ("relativeProfit", VNum (Fin 2));
         ("trades", VNum (Fin 3));
         ("yearlyProfit", VNum (Fin 4)) ]);
     tradingAdvisor :=
       Some {| stats := Some (literal [("profits", VNum (Fin 3));
                                      ("profitTot", VNum (Fin 20))]) |} |}.

(** A stub pipeline that succeeds on every span. *)
Definition stub (mode : string) (req : request) : result report :=
  match req_span req with
  | Some s => Ok (stub_report s)
  | None => Throw (EngineError "no span")
  end.

(** A stub pipeline that fails with [e] on the span [bad] and on no other. *)
Definition failing_on (bad : span) (e : error) (mode : string) (req : request)
    : result report :=
  match req_span req with
  | Some s => if bool_decide (s = bad) then Throw e else Ok (stub_report s)
  | None => Throw (EngineError "no span")
  end.

Definition boom : error := EngineError "boom".

(** The second and third rows of the yearly table at a warm-up of 600
    minutes. *)
Definition year_2019 : span :=
  {| from := DateMs 1546264800000; to := "2020-01-01T00:00:00Z" |}.
Definition year_2020 : span :=
  {| from := DateMs 1577800800000; to := "2021-01-01T00:00:00Z" |}.

(** ** Further vocabulary *)

(** The names of the ten properties written by [Object.assign]. *)
Definition derived : list string :=
  ["endPrice"; "endTime"; "startBalance"; "startPrice"; "startTime";
   "minProfit"; "maxProfit"; "periodsProfit"; "periodsLoss"; "periodsTotal"].

(** A report whose profit is a number: not missing and not NaN. *)
Definition numeric_profit (b : report) : Prop :=
  toNumber (field b "profit") ≠ NaN.

(** A report that carries a [tradingAdvisor]. *)
Definition has_advisor (b : report) : Prop := is_Some (tradingAdvisor b).

(** [b.tradingAdvisor.stats] of a report that carries a [tradingAdvisor]. *)
Definition statsOf (b : report) : option obj := tradingAdvisor b ≫= stats.

(** Consecutive spans: each starts the warm-up before the previous one
    ends. *)
Definition contiguous (w : number) (spans : list span) : Prop :=
  ∀ i s s',
    spans !! i = Some s → spans !! S i = Some s' →
    from s' = subtract (moment (to s)) w minutes.

(** What a request made by the route looks like: its mode is [backtest],
    its daterange is one of the span objects of the table, and its
    [roundtrips] and [stratCandles] are [false] when [batch.noBigData] is
    switched on in [merged]. *)
Definition route_request (merged : Config.t) (req : request) : Prop :=
  Config.mode (req_config req) = Some "backtest" ∧
  (∃ s, Config.daterange <$> Config.backtest (req_config req)
        = Some (Config.SpanRef s)) ∧
  is_Some (req_span req) ∧
  (truthy (batchOption merged Config.noBigData) = true →
   Config.backtestResultExporter (req_config req)
   = Some {| Config.data :=
               Some {| Config.roundtrips := VBool false;
                       Config.stratCandles := VBool false |} |}).

(** ** Further sample inputs *)

(** Three periods with their boundary values. *)
Definition period_report (startBalance startPrice startTime endPrice endTime profit : Z)
    : report :=
  {| performanceReport := Some (literal [
       ("endPrice", VNum (Fin endPrice)); ("endTime", VNum (Fin endTime));
       ("losses", VNum (Fin 1)); ("profit", VNum (Fin profit));
       ("relativeProfit", VNum (Fin 2)); ("startBalance", VNum (Fin startBalance));
       ("startPrice", VNum (Fin startPrice)); ("startTime", VNum (Fin startTime));
       ("trades", VNum (Fin 3)); ("yearlyProfit", VNum (Fin 4)) ]);
     tradingAdvisor := None |}.

Definition first_period : report := period_report 1000 50 1 55 2 100.
Definition middle_period : report := period_report 1100 55 2 45 3 (-200).
Definition last_period : report := period_report 900 45 3 60 4 300.

(** A report whose profit is missing. *)
Definition report_without_profit : report :=
  {| performanceReport := Some (literal [
       ("losses", VNum (Fin 0)); ("relativeProfit", VNum (Fin 0));
       ("trades", VNum (Fin 0)); ("yearlyProfit", VNum (Fin 0)) ]);
     tradingAdvisor := None |}.

(** A request body without [tradingAdvisor]. *)
Definition config_without_advisor : Config.t :=
  {| Config.mode := None;
     Config.batchBacktest := None;
     Config.tradingAdvisor := None;
     Config.batch := None;
     Config.backtestResultExporter := None;
     Config.backtest := Some {| Config.daterange := Config.Scan "scan" |};
     Config.others := ∅ |}.

(** A stub pipeline that fails on 2019 with [boom] and on 2020 with another
    error. *)
Definition bang : error := EngineError "bang".

Definition failing_twice (mode : string) (req : request) : result report :=
  match req_span req with
  | Some s =>
      if bool_decide (s = year_2019) then Throw boom
      else if bool_decide (s = year_2020) then Throw bang
      else Ok (stub_report s)
  | None => Throw (EngineError "no span")
  end.

(** A stub pipeline that refuses any configuration whose mode is not
    [backtest]. *)
Definition strict_stub (mode : string) (req : request) : result report :=
  if bool_decide (Config.mode (req_config req) = Some "backtest")
  then stub mode req
  else Throw boom.

(** * Properties *)

Section ResultMonad.
Context {A B : Type}.
Implicit Types (f : A → result B) (e : error).

Lemma bind_Ok f (a : A) : Ok a ≫= f = f a.
Proof. reflexivity. Qed.
Lemma bind_Throw f e : Throw e ≫= f = Throw e.
Proof. reflexivity. Qed.
Lemma fmap_Ok (g : A → B) (a : A) : g <$> Ok a = Ok (g a).
Proof. reflexivity. Qed.
Lemma fmap_Throw (g : A → B) e : g <$> (Throw e : result A) = Throw e.
Proof. reflexivity. Qed.
Lemma mapM_nil f : mapM f [] = Ok [].
Proof. reflexivity. Qed.
Lemma mapM_cons f (x : A) (l : list A) :
  mapM f (x :: l) = y ← f x; k ← mapM f l; Ok (y :: k).
Proof. reflexivity. Qed.
End ResultMonad.

Section Aggregator.

Implicit Types (bs : list report) (b : report) (t v : value) (k : string).

Lemma mapM_profitOf_Ok bs :
  Forall has_perf bs → mapM profitOf bs = Ok (map (λ b, field b "profit") bs).
Proof.
  induction 1 as [|b bs [pf Hpf] _ IH]; [done|].
  rewrite mapM_cons, IH. cbn [map]. unfold profitOf, field. by rewrite Hpf.
Qed.

Lemma mapM_profitOf_Throw bs :
  ¬ Forall has_perf bs → mapM profitOf bs = Throw TypeError.
Proof.
  induction bs as [|b bs IH]; intros Hn.
  - destruct Hn. constructor.
  - rewrite mapM_cons.
    destruct (performanceReport b) as [pf|] eqn:Hpf.
    + rewrite IH; [unfold profitOf; by rewrite Hpf|].
      intros HF. apply Hn. constructor; [by exists pf|done].
    + unfold profitOf. by rewrite Hpf.
Qed.

Lemma filterR_profitOf (f : value → bool) bs :
  Forall has_perf bs →
  filterR (λ b, p ← profitOf b; Ok (f p)) bs
  = Ok (filter (λ b, f (field b "profit")) bs).
Proof.
  induction 1 as [|b bs [pf Hpf] _ IH]; [done|].
  cbn [filterR]. rewrite IH, filter_cons. unfold profitOf, field.
  rewrite Hpf. cbn [deref default]. rewrite !bind_Ok.
  case_decide as Hd; cbn in Hd; by destruct (f (get pf "profit")).
Qed.

(** Reading a property after [Object.assign]. *)
Lemma get_assign_source (target source : obj) k v :
  source !! k = Some v → get (Object_assign target source) k = v.
Proof.
  intros H. unfold get, Object_assign. by rewrite (lookup_union_Some_l _ _ _ _ H).
Qed.

Lemma get_assign_target (target source : obj) k :
  source !! k = None → get (Object_assign target source) k = get target k.
Proof.
  intros H. unfold get, Object_assign. by rewrite lookup_union_r.
Qed.

Lemma last_cons_Some b bs : ∃ b', last (b :: bs) = Some b' ∧ b' ∈ b :: bs.
Proof.
  destruct (last (b :: bs)) as [b'|] eqn:H.
  - exists b'. split; [done|]. by apply last_Some_elem_of.
  - by apply last_None in H.
Qed.

Lemma sumReports_has_perf a b : has_perf (sumReports a b).
Proof. by eexists. Qed.

Lemma foldl_sumReports_has_perf a bs :
  has_perf a → has_perf (foldl sumReports a bs).
Proof.
  revert a. induction bs as [|b bs IH]; intros a Ha; [done|].
  cbn [foldl]. apply IH, sumReports_has_perf.
Qed.

Lemma summed_cases (P : string → Prop) :
  P "losses" → P "profit" → P "relativeProfit" → P "trades" → P "yearlyProfit" →
  ∀ k, k ∈ summed → P k.
Proof.
  intros ????? k Hk. unfold summed in Hk.
  repeat (apply elem_of_cons in Hk as [->|Hk]; [done|]).
  by apply elem_of_nil in Hk.
Qed.

Lemma field_sumReports a b k :
  k ∈ summed → field (sumReports a b) k = jsAdd (field a k) (field b k).
Proof.
  revert k. unfold field, sumReports. cbn [performanceReport default].
  generalize (default ∅ (performanceReport a)) (default ∅ (performanceReport b)).
  intros pa pb.
  apply summed_cases; cbv beta;
    match goal with
    | |- context [literal [(_, ?v1); (_, ?v2); (_, ?v3); (_, ?v4); (_, ?v5)]] =>
        generalize v1 v2 v3 v4 v5; intros; vm_compute; reflexivity
    end.
Qed.

Lemma field_foldl_sumReports a bs k :
  k ∈ summed →
  field (foldl sumReports a bs) k
  = foldl (λ acc b, jsAdd acc (field b k)) (field a k) bs.
Proof.
  intros Hk. revert a. induction bs as [|b bs IH]; intros a; [done|].
  cbn [foldl]. by rewrite IH, field_sumReports.
Qed.

Lemma assigned_lookup e1 e2 s1 s2 s3 mn mx pp pl pt :
  let a := assigned e1 e2 s1 s2 s3 mn mx pp pl pt in
  a !! "minProfit" = Some mn ∧ a !! "maxProfit" = Some mx ∧
  a !! "periodsProfit" = Some pp ∧ a !! "periodsLoss" = Some pl ∧
  a !! "periodsTotal" = Some pt ∧
  ∀ k, k ∈ summed → a !! k = None.
Proof.
  repeat split; try (vm_compute; reflexivity).
  apply summed_cases; vm_compute; reflexivity.
Qed.

(** On reports that all carry a performance report, the function returns
    the accumulated sums with the ten derived properties written in. *)
Lemma getTotal_Ok b bs t :
  Forall has_perf (b :: bs) →
  ∃ target e1 e2 s1 s2 s3 ret,
    performanceReport (foldl sumReports b bs) = Some target ∧
    ret = Object_assign target (assigned e1 e2 s1 s2 s3
        (Math_min (map (λ b, field b "profit") (b :: bs)))
        (Math_max (map (λ b, field b "profit") (b :: bs)))
        (len (filter (λ b, jsGe (field b "profit") (threshold t)) (b :: bs)))
        (len (filter (λ b, jsLt (field b "profit") (threshold t)) (b :: bs)))
        (len (b :: bs))) ∧
    getTotalPerformanceReport (b :: bs) t
    = Ok (match bs with
          | [] => [ {| performanceReport := Some ret;
                       tradingAdvisor := tradingAdvisor b |} ]
          | _ => b :: bs
          end, Some ret).
Proof.
  intros Hall.
  assert (has_perf b) as Hb by (by inversion Hall).
  destruct (foldl_sumReports_has_perf b bs Hb) as [target Ht].
  destruct Hb as [pf Hpf].
  destruct (last_cons_Some b bs) as (bl & Hl & Hin).
  assert (has_perf bl) as [pl Hpl] by (by eapply Forall_forall in Hall).
  unfold getTotalPerformanceReport. fold (threshold t).
  rewrite bool_decide_true by (cbn; lia).
  cbn [reduce1]. rewrite bind_Ok. cbv zeta.
  rewrite Hl. cbn [head mbind option_bind]. rewrite Hpl, Hpf.
  cbn [deref]. rewrite !fmap_Ok, !bind_Ok.
  rewrite mapM_profitOf_Ok by done. rewrite !fmap_Ok, !bind_Ok.
  rewrite !filterR_profitOf by done. rewrite !fmap_Ok, !bind_Ok.
  rewrite Ht. cbn [deref]. rewrite bind_Ok.
  eexists target, _, _, _, _, _, _. split; [done|]. split; [reflexivity|].
  by destruct bs.
Qed.

Lemma getTotal_Throw bs t :
  bs ≠ [] → ¬ Forall has_perf bs →
  getTotalPerformanceReport bs t = Throw TypeError.
Proof.
  intros Hne Hn. unfold getTotalPerformanceReport.
  rewrite bool_decide_true by (destruct bs; [done|cbn; lia]).
  destruct (reduce1 sumReports bs) as [red|e] eqn:Hred;
    [|by destruct bs]. rewrite bind_Ok. cbv zeta.
  destruct (deref (last bs ≫= performanceReport)) as [l|[]] eqn:Hl;
    [|done|by destruct (last bs ≫= performanceReport)].
  rewrite !fmap_Ok, !bind_Ok.
  destruct (deref (head bs ≫= performanceReport)) as [f|[]] eqn:Hf;
    [|done|by destruct (head bs ≫= performanceReport)].
  rewrite !fmap_Ok, !bind_Ok.
  by rewrite mapM_profitOf_Throw.
Qed.

Lemma getBatch_Ok b bs :
  Forall has_perf (b :: bs) →
  getBatchBacktestReport (b :: bs)
  = Ok (Some (literal [
      ("minProfit", Math_min (map (λ b, field b "profit") (b :: bs)));
      ("maxProfit", Math_max (map (λ b, field b "profit") (b :: bs))) ])).
Proof.
  intros Hall. unfold getBatchBacktestReport.
  rewrite mapM_profitOf_Ok by done. rewrite bind_Ok.
  by rewrite bool_decide_true by (cbn; lia).
Qed.

Lemma getBatch_Throw bs :
  ¬ Forall has_perf bs → getBatchBacktestReport bs = Throw TypeError.
Proof.
  intros Hn. unfold getBatchBacktestReport. by rewrite mapM_profitOf_Throw.
Qed.

Lemma minimum_spec (ps : list Z) :
  ps ≠ [] → minimum ps ∈ ps ∧ Forall (Z.le (minimum ps)) ps.
Proof.
  induction ps as [|p [|q ps] IH]; intros Hne; [done| |].
  - cbn. split; [apply list_elem_of_here|]. repeat constructor. lia.
  - destruct (IH ltac:(done)) as [Hin Hle].
    change (minimum (p :: q :: ps)) with (Z.min p (minimum (q :: ps))).
    split.
    + destruct (Z.min_spec p (minimum (q :: ps))) as [[_ E]|[_ E]]; rewrite E;
        [apply list_elem_of_here|by apply list_elem_of_further].
    + constructor; [lia|]. eapply Forall_impl; [exact Hle|]. cbn. lia.
Qed.

Lemma maximum_spec (ps : list Z) :
  ps ≠ [] → maximum ps ∈ ps ∧ Forall (Z.ge (maximum ps)) ps.
Proof.
  induction ps as [|p [|q ps] IH]; intros Hne; [done| |].
  - cbn. split; [apply list_elem_of_here|]. repeat constructor. lia.
  - destruct (IH ltac:(done)) as [Hin Hle].
    change (maximum (p :: q :: ps)) with (Z.max p (maximum (q :: ps))).
    split.
    + destruct (Z.max_spec p (maximum (q :: ps))) as [[_ E]|[_ E]]; rewrite E;
        [by apply list_elem_of_further|apply list_elem_of_here].
    + constructor; [lia|]. eapply Forall_impl; [exact Hle|]. cbn. lia.
Qed.

Lemma Num_min_Fin (x y : Z) : Num.min (Fin x) (Fin y) = Fin (Z.min x y).
Proof.
  unfold Num.min, Num.ltb. destruct (Z.ltb_spec y x); f_equal; lia.
Qed.

Lemma Num_max_Fin (x y : Z) : Num.max (Fin x) (Fin y) = Fin (Z.max x y).
Proof.
  unfold Num.max, Num.ltb. destruct (Z.ltb_spec x y); f_equal; lia.
Qed.

Lemma Math_min_Fin (ps : list Z) :
  ps ≠ [] → Math_min (map (λ p, VNum (Fin p)) ps) = VNum (Fin (minimum ps)).
Proof.
  unfold Math_min. intros Hne. f_equal.
  induction ps as [|p [|q ps] IH]; [done|done|].
  change (minimum (p :: q :: ps)) with (Z.min p (minimum (q :: ps))).
  rewrite <- Num_min_Fin, <- IH by done. reflexivity.
Qed.

Lemma Math_max_Fin (ps : list Z) :
  ps ≠ [] → Math_max (map (λ p, VNum (Fin p)) ps) = VNum (Fin (maximum ps)).
Proof.
  unfold Math_max. intros Hne. f_equal.
  induction ps as [|p [|q ps] IH]; [done|done|].
  change (maximum (p :: q :: ps)) with (Z.max p (maximum (q :: ps))).
  rewrite <- Num_max_Fin, <- IH by done. reflexivity.
Qed.

Lemma has_field_map k bs (zs : list Z) :
  Forall2 (has_field k) bs zs →
  Forall has_perf bs ∧ map (λ b, field b k) bs = map (λ z, VNum (Fin z)) zs.
Proof.
  induction 1 as [|b z bs zs [Hp Hf] _ [IH1 IH2]]; [done|].
  split; [by constructor|]. cbn. by rewrite Hf, IH2.
Qed.

Lemma length_filter_Forall2 {A B} (R : A → B → Prop)
    (P : A → Prop) (Q : B → Prop) `{!∀ x, Decision (P x), !∀ y, Decision (Q y)}
    (l : list A) (k : list B) :
  Forall2 R l k → (∀ x y, R x y → P x ↔ Q y) →
  length (filter P l) = length (filter Q k).
Proof.
  intros HF HR. induction HF as [|x y l k Hxy _ IH]; [done|].
  rewrite !filter_cons. specialize (HR _ _ Hxy).
  repeat case_decide; cbn; first [lia | tauto].
Qed.

Lemma jsGe_Fin (p t : Z) : jsGe (VNum (Fin p)) (VNum (Fin t)) ↔ t ≤ p.
Proof.
  unfold jsGe, Num.geb, Num.ltb. cbn.
  destruct (Z.ltb_spec p t); cbn; split; (lia || done || tauto).
Qed.

Lemma jsLt_Fin (p t : Z) : jsLt (VNum (Fin p)) (VNum (Fin t)) ↔ p < t.
Proof.
  unfold jsLt, Num.ltb. cbn.
  destruct (Z.ltb_spec p t); cbn; split; (lia || done || tauto).
Qed.

Lemma jsAdd_NaN_l v : jsAdd (VNum NaN) v = VNum NaN.
Proof. reflexivity. Qed.

Lemma jsAdd_Undef_l v : jsAdd VUndef v = VNum NaN.
Proof. reflexivity. Qed.

Lemma jsAdd_Undef_r v : jsAdd v VUndef = VNum NaN.
Proof. unfold jsAdd. by destruct (toNumber v). Qed.

Lemma foldl_jsAdd_NaN k bs :
  foldl (λ acc b, jsAdd acc (field b k)) (VNum NaN) bs = VNum NaN.
Proof. induction bs as [|b bs IH]; [done|]. cbn [foldl]. by rewrite jsAdd_NaN_l. Qed.

Lemma foldl_jsAdd_Undef k v bs :
  Exists (λ b, field b k = VUndef) bs →
  foldl (λ acc b, jsAdd acc (field b k)) v bs = VNum NaN.
Proof.
  intros HE. revert v. induction HE as [b bs Hb|b bs _ IH]; intros v; cbn [foldl].
  - by rewrite Hb, jsAdd_Undef_r, foldl_jsAdd_NaN.
  - apply IH.
Qed.

Lemma round_safe (z : Z) : Z.abs z ≤ 2 ^ 53 → Num.round z = Fin z.
Proof.
  intros Hz. unfold Num.round. cbv zeta.
  destruct (Z.leb_spec (Z.abs z) (2 ^ 53)); [done|lia].
Qed.

Lemma jsAdd_Fin (a z : Z) :
  Z.abs (a + z) ≤ 2 ^ 53 → jsAdd (VNum (Fin a)) (VNum (Fin z)) = VNum (Fin (a + z)).
Proof.
  intros Hz. unfold jsAdd. cbn [toNumber Num.add]. by rewrite round_safe.
Qed.

Lemma magnitude_cons (z : Z) (zs : list Z) :
  magnitude (z :: zs) = Z.abs z + magnitude zs.
Proof. reflexivity. Qed.

Lemma magnitude_nonneg (zs : list Z) : 0 ≤ magnitude zs.
Proof.
  induction zs as [|z zs IH]; [done|]. rewrite magnitude_cons. lia.
Qed.

Lemma foldl_jsAdd_Fin k (a : Z) bs (zs : list Z) :
  Forall2 (has_field k) bs zs →
  Z.abs a + magnitude zs ≤ 2 ^ 53 →
  foldl (λ acc b, jsAdd acc (field b k)) (VNum (Fin a)) bs = VNum (Fin (a + sum zs)).
Proof.
  intros HF. revert a.
  induction HF as [|b z bs zs [_ Hb] _ IH]; intros a Ha; cbn [foldl].
  - change (sum []) with 0. by rewrite Z.add_0_r.
  - rewrite magnitude_cons in Ha. pose proof (magnitude_nonneg zs).
    rewrite Hb, jsAdd_Fin by lia.
    change (sum (z :: zs)) with (z + sum zs). rewrite IH by lia.
    by rewrite Z.add_assoc.
Qed.

(** The value the function returns under a summed key is the one the
    reduction accumulated. *)
Lemma getTotal_summed b bs t k :
  Forall has_perf (b :: bs) → k ∈ summed →
  ∃ bs' ret,
    getTotalPerformanceReport (b :: bs) t = Ok (bs', Some ret) ∧
    get ret k = foldl (λ acc b, jsAdd acc (field b k)) (field b k) bs.
Proof.
  intros Hall Hk.
  destruct (getTotal_Ok b bs t Hall)
    as (target & e1 & e2 & s1 & s2 & s3 & ret & Ht & -> & ->).
  eexists _, _. split; [reflexivity|].
  rewrite get_assign_target by (by apply assigned_lookup).
  rewrite <- field_foldl_sumReports by done. unfold field. by rewrite Ht.
Qed.

End Aggregator.

(** Claim C1.  For a non-empty list of reports whose
    [performanceReport.profit] values are the numbers [ps], and a threshold
    [t], [getTotalPerformanceReport] returns a report in which
    [periodsProfit] counts the profits that are at least [t], [periodsLoss]
    those below [t], [periodsTotal] is the length of the list, and
    [minProfit] and [maxProfit] are the least and the greatest profit. *)
Theorem total_report_counters_and_extremes
    (bs : list report) (ps : list Z) (t : Z) :
  bs ≠ [] →
  Forall2 (has_field "profit") bs ps →
  ∃ bs' ret,
    getTotalPerformanceReport bs (VNum (Fin t)) = Ok (bs', Some ret) ∧
    get ret "periodsProfit" = VNum (Fin (Z.of_nat (length (filter (λ p, t ≤ p) ps)))) ∧
    get ret "periodsLoss" = VNum (Fin (Z.of_nat (length (filter (λ p, p < t) ps)))) ∧
    get ret "periodsTotal" = VNum (Fin (Z.of_nat (length bs))) ∧
    get ret "minProfit" = VNum (Fin (minimum ps)) ∧
    get ret "maxProfit" = VNum (Fin (maximum ps)) ∧
    (minimum ps ∈ ps ∧ Forall (Z.le (minimum ps)) ps) ∧
    (maximum ps ∈ ps ∧ Forall (Z.ge (maximum ps)) ps).
Proof.
  intros Hne HF.
  assert (ps ≠ []) as Hps by (intros ->; by inversion HF).
  destruct (has_field_map _ _ _ HF) as [Hall Hmap].
  destruct bs as [|b bs]; [done|].
  destruct (getTotal_Ok b bs (VNum (Fin t)) Hall)
    as (target & e1 & e2 & s1 & s2 & s3 & ret & _ & -> & ->).
  eexists _, _. split; [reflexivity|].
  match goal with
  | |- context [assigned ?a1 ?a2 ?a3 ?a4 ?a5 ?a6 ?a7 ?a8 ?a9 ?a10] =>
      destruct (assigned_lookup a1 a2 a3 a4 a5 a6 a7 a8 a9 a10)
        as (Hmn & Hmx & Hpp & Hpl & Hpt & _)
  end.
  rewrite (get_assign_source _ _ _ _ Hpp), (get_assign_source _ _ _ _ Hpl),
    (get_assign_source _ _ _ _ Hpt), (get_assign_source _ _ _ _ Hmn),
    (get_assign_source _ _ _ _ Hmx).
  rewrite Hmap, Math_min_Fin, Math_max_Fin by done.
  unfold len, threshold.
  rewrite (length_filter_Forall2 (has_field "profit") _ (λ p, t ≤ p) _ _ HF).
  2:{ intros x y [_ ->]. apply jsGe_Fin. }
  rewrite (length_filter_Forall2 (has_field "profit") _ (λ p, p < t) _ _ HF).
  2:{ intros x y [_ ->]. apply jsLt_Fin. }
  repeat split; try reflexivity; by (apply minimum_spec || apply maximum_spec).
Qed.

(** The profits of the sample reports. *)
Lemma example_reports_profit : Forall2 (has_field "profit") example_reports [-5; 10; 0; 20].
Proof. repeat constructor; by eexists. Defined.

(** Claim C1 on the profits -5, 10, 0, 20 with threshold 0: three periods of
    profit, one of loss, four in total, extremes -5 and 20. *)
Lemma total_report_counters_and_extremes_example :
  ∃ bs' ret,
    getTotalPerformanceReport example_reports (VNum (Fin 0)) = Ok (bs', Some ret) ∧
    get ret "periodsProfit" = VNum (Fin 3) ∧
    get ret "periodsLoss" = VNum (Fin 1) ∧
    get ret "periodsTotal" = VNum (Fin 4) ∧
    get ret "minProfit" = VNum (Fin (-5)) ∧
    get ret "maxProfit" = VNum (Fin 20).
Proof.
  destruct (total_report_counters_and_extremes example_reports [-5; 10; 0; 20] 0)
    as (bs' & ret & H1 & H2 & H3 & H4 & H5 & H6 & _).
  - discriminate.
  - exact example_reports_profit.
  - exists bs', ret. repeat split; assumption.
Defined.

(** Claim C2.  On an empty list both [getTotalPerformanceReport] and
    [getBatchBacktestReport] return [undefined], whatever the threshold: no
    object of zeros is built. *)
Theorem aggregators_on_empty_list (t : value) :
  getTotalPerformanceReport [] t = Ok ([], None) ∧
  getBatchBacktestReport [] = Ok None.
Proof. split; reflexivity. Qed.

Example missing_losses_sum_is_NaN :
  let r := getTotalPerformanceReport
             [report_with_losses; report_without_losses] (VNum (Fin 0)) in
  returned "losses" r = Some (VNum NaN) ∧ returned "trades" r = Some (VNum (Fin 6)).
Proof. split; vm_compute; reflexivity. Qed.

(** Beyond 2^53 the additions round: 2^53 and 1 add up to 2^53, and the
    largest double added to itself gives Infinity. *)
Example sums_round :
  jsAdd (VNum (Fin 9007199254740992)) (VNum (Fin 1)) = VNum (Fin 9007199254740992) ∧
  jsAdd (VNum (Fin 9007199254740992)) (VNum (Fin 3)) = VNum (Fin 9007199254740996) ∧
  jsAdd (VNum (Fin ((2 ^ 53 - 1) * 2 ^ 971))) (VNum (Fin ((2 ^ 53 - 1) * 2 ^ 971)))
  = VNum PosInf.
Proof. repeat split; vm_compute; reflexivity. Qed.

Example large_trades_sum_rounds :
  returned "trades"
    (getTotalPerformanceReport
       [ {| performanceReport := Some (literal [("trades", VNum (Fin 9007199254740992))]);
            tradingAdvisor := None |};
         {| performanceReport := Some (literal [("trades", VNum (Fin 1))]);
            tradingAdvisor := None |} ]
       VUndef)
  = Some (VNum (Fin 9007199254740992)).
Proof. vm_compute. reflexivity. Qed.

(** Claim C3 fails as stated: of two reports the second has no [losses];
    the sum of [losses] comes out as NaN, not as the 3 of the first. *)
Lemma missing_field_does_not_count_as_zero : ¬ missing_field_counts_as_zero.
Proof.
  intros H.
  destruct (H [report_with_losses; report_without_losses] (VNum (Fin 0)) "losses" [3; 0])
    as (bs' & ret & Hrun & Hget).
  - discriminate.
  - unfold summed. apply list_elem_of_here.
  - constructor; [split; [by eexists|left; vm_compute; reflexivity]|].
    constructor; [|constructor].
    split; [by eexists|right; split; vm_compute; reflexivity].
  - pose proof (proj1 missing_losses_sum_is_NaN) as E. cbv zeta in E.
    rewrite Hrun in E. cbn [returned] in E. rewrite Hget in E. discriminate.
Qed.

(** Claim C3, amended.  On a non-empty list of reports that all carry a
    performance report, each of [losses], [profit], [relativeProfit],
    [trades] and [yearlyProfit] of the result is that field of the reports
    added up from left to right by the addition of numbers.  When every
    report holds a whole number there and the magnitudes of these numbers
    add up to 2^53 at most, this is their ordinary sum; with two reports or
    more, a field that some report lacks sums to NaN: a missing field does
    not count as zero. *)
Theorem total_report_sums (bs : list report) (t : value) (k : string) :
  bs ≠ [] → Forall has_perf bs → k ∈ summed →
  ∃ bs' ret,
    getTotalPerformanceReport bs t = Ok (bs', Some ret) ∧
    (∀ b bs0, bs = b :: bs0 →
       get ret k = foldl (λ acc b, jsAdd acc (field b k)) (field b k) bs0) ∧
    (∀ zs, Forall2 (has_field k) bs zs → magnitude zs ≤ 2 ^ 53 →
       get ret k = VNum (Fin (sum zs))) ∧
    ((1 < length bs)%nat → Exists (λ b, field b k = VUndef) bs →
      get ret k = VNum NaN).
Proof.
  intros Hne Hall Hk. destruct bs as [|b bs]; [done|].
  destruct (getTotal_summed b bs t k Hall Hk) as (bs' & ret & Hrun & Hget).
  exists bs', ret. split; [done|]. split.
  { intros b0 bs0 Heq. by injection Heq as <- <-. }
  rewrite Hget. split.
  - intros zs HF Hm. inversion HF as [|? z ? zs' [_ Hb] HF']; subst.
    rewrite Hb. rewrite magnitude_cons in Hm. by apply foldl_jsAdd_Fin.
  - intros Hlen HE. destruct bs as [|b1 bs]; [cbn in Hlen; lia|].
    apply Exists_cons in HE as [Hb|HE].
    + cbn [foldl]. by rewrite Hb, jsAdd_Undef_l, foldl_jsAdd_NaN.
    + by apply foldl_jsAdd_Undef.
Qed.

(** Claim C3, amended, on the sample reports: the yearly profits -60, 120, 0
    and 240 sum to 300. *)
Lemma total_report_sums_example :
  ∃ bs' ret,
    getTotalPerformanceReport example_reports VUndef = Ok (bs', Some ret) ∧
    get ret "yearlyProfit" = VNum (Fin 300).
Proof.
  destruct (total_report_sums example_reports VUndef "yearlyProfit")
    as (bs' & ret & Hrun & _ & Hsum & _).
  - discriminate.
  - repeat constructor; by eexists.
  - unfold summed. do 4 apply list_elem_of_further. apply list_elem_of_here.
  - exists bs', ret. split; [exact Hrun|].
    apply (Hsum [-60; 120; 0; 240]).
    + repeat constructor; by eexists.
    + by apply (bool_decide_unpack _).
Defined.

(** Claim C4.  If a report of a non-empty list has no [performanceReport],
    [getTotalPerformanceReport] throws a TypeError: it returns neither sums
    of NaN nor any other result. *)
Theorem total_report_fails_without_performanceReport (bs : list report) (t : value) :
  bs ≠ [] → Exists (λ b, performanceReport b = None) bs →
  getTotalPerformanceReport bs t = Throw TypeError.
Proof.
  intros Hne HE. apply getTotal_Throw; [done|].
  intros Hall. apply Exists_exists in HE as (b & Hin & Hb).
  eapply Forall_forall in Hall as [pf Hpf]; [|exact Hin]. congruence.
Qed.

(** Claim C4 on nine reports of which the fifth has no performance
    report. *)
Lemma total_report_fails_without_performanceReport_example :
  getTotalPerformanceReport
    (example_reports ++ [ {| performanceReport := None; tradingAdvisor := None |} ]
       ++ example_reports) (VNum (Fin 0))
  = Throw TypeError.
Proof.
  apply total_report_fails_without_performanceReport.
  - discriminate.
  - do 4 apply Exists_cons_tl. apply Exists_cons_hd. reflexivity.
Defined.

(** Claim C10.  On a non-empty list of reports that all carry a performance
    report, [getBatchBacktestReport] returns exactly the [minProfit] and
    [maxProfit] of [getTotalPerformanceReport] on the same list (also on the
    list as that call leaves it), and both are [Math.min] and [Math.max] of
    the [profit] fields; when a report has no performance report both
    functions throw a TypeError. *)
Theorem batch_report_projects_total_report (bs : list report) (t : value) :
  bs ≠ [] →
  (Forall has_perf bs →
    ∃ bs' ret batch,
      getTotalPerformanceReport bs t = Ok (bs', Some ret) ∧
      getBatchBacktestReport bs = Ok (Some batch) ∧
      getBatchBacktestReport bs' = Ok (Some batch) ∧
      batch = literal [("minProfit", get ret "minProfit");
                       ("maxProfit", get ret "maxProfit")] ∧
      get batch "minProfit" = get ret "minProfit" ∧
      get batch "maxProfit" = get ret "maxProfit" ∧
      get ret "minProfit" = Math_min (map (λ b, field b "profit") bs) ∧
      get ret "maxProfit" = Math_max (map (λ b, field b "profit") bs)) ∧
  (¬ Forall has_perf bs →
    getTotalPerformanceReport bs t = Throw TypeError ∧
    getBatchBacktestReport bs = Throw TypeError).
Proof.
  intros Hne. split.
  - intros Hall. destruct bs as [|b bs]; [done|].
    destruct (getTotal_Ok b bs t Hall)
      as (target & e1 & e2 & s1 & s2 & s3 & ret & Ht & Hret & ->).
    match type of Hret with
    | _ = Object_assign _ (assigned ?a1 ?a2 ?a3 ?a4 ?a5 ?a6 ?a7 ?a8 ?a9 ?a10) =>
        destruct (assigned_lookup a1 a2 a3 a4 a5 a6 a7 a8 a9 a10)
          as (Hmn & Hmx & _ & _ & _ & Hsum)
    end.
    assert (get ret "minProfit" = Math_min (map (λ b, field b "profit") (b :: bs)))
      as Emn by (subst ret; by apply get_assign_source).
    assert (get ret "maxProfit" = Math_max (map (λ b, field b "profit") (b :: bs)))
      as Emx by (subst ret; by apply get_assign_source).
    eexists _, ret, _. split; [reflexivity|].
    rewrite getBatch_Ok by done. rewrite <- Emn, <- Emx.
    split; [reflexivity|]. split; [|by repeat split].
    destruct bs as [|b1 bs]; [|by rewrite getBatch_Ok, <- Emn, <- Emx].
    rewrite getBatch_Ok by (repeat constructor; by eexists).
    assert (get ret "profit" = field b "profit") as Hp.
    { subst ret. rewrite get_assign_target
        by (apply Hsum; unfold summed; apply list_elem_of_further, list_elem_of_here).
      cbn in Ht. unfold field. by rewrite Ht. }
    rewrite Emn, Emx. cbn [map].
    change (field {| performanceReport := Some ret;
                     tradingAdvisor := tradingAdvisor b |} "profit")
      with (get ret "profit").
    by rewrite Hp.
  - intros Hn. split; [by apply getTotal_Throw|by apply getBatch_Throw].
Qed.

Section Spans.

Lemma subtract_moment (s : string) (c w : Z) :
  moment s = DateMs c →
  0 ≤ c ≤ 8640000000000000 →
  0 ≤ w ≤ max_warmup →
  toDate (subtract (moment s) (Fin w) minutes) = DateMs (c - w * 60000).
Proof.
  intros -> Hc Hw. unfold max_warmup in Hw. unfold toDate, subtract. cbv zeta.
  assert (2 ^ 53 = 9007199254740992) as E by reflexivity.
  cbn [Num.mul]. rewrite round_safe by lia.
  destruct (w * 60000) as [|p|p] eqn:Hp; [f_equal; lia| |lia].
  cbn [Num.mul]. rewrite round_safe by lia.
  cbn [Num.add]. rewrite round_safe by lia.
  unfold TimeClip.
  destruct (Z.leb_spec (Z.abs (c + Z.pos p * -1)) 8640000000000000); [f_equal; lia|lia].
Qed.

Lemma chronological (w : Z) (ss : list span) (ranges : list (Z * Z)) :
  Forall (λ r, r.1 < r.2) ranges →
  StronglySorted (λ r r', r.2 ≤ r'.1) ranges →
  Forall2 (λ s r, from s = DateMs (r.1 - w * 60000) ∧ moment (to s) = DateMs r.2)
    ss ranges →
  StronglySorted
    (λ s s', ∃ a a', from s = DateMs a ∧ from s' = DateMs a' ∧ a < a') ss.
Proof.
  intros Hv Hs HF. revert Hv Hs.
  induction HF as [|s r ss ranges [Hs _] HF IH]; intros Hv Hsort; [constructor|].
  apply StronglySorted_inv in Hsort as [Hsort Hall].
  apply Forall_cons in Hv as [Hr Hv].
  constructor; [by apply IH|].
  clear IH Hsort. induction HF as [|s' r' ss ranges [Hs' _] HF IH]; [constructor|].
  apply Forall_cons in Hall as [Hrr' Hall]. apply Forall_cons in Hv as [Hr' Hv].
  constructor; [|by apply IH].
  exists (r.1 - w * 60000), (r'.1 - w * 60000). repeat split; [done|done|lia].
Qed.

Ltac rows :=
  repeat first
    [ apply Forall2_nil_2
    | apply Forall2_cons_2;
      [ split; [apply subtract_moment;
                  [vm_compute; reflexivity | cbn [fst]; lia | assumption]
               | vm_compute; reflexivity] | ] ].

Ltac table_ok spans :=
  let rs := eval vm_compute in
    (map (λ s,
            (match from s with DateMs a => a | InvalidDate => 0 end,
             match moment (to s) with DateMs b => b | InvalidDate => 0 end))
         (spans (Fin 0))) in
  exists rs;
  assert (Forall (λ r : Z * Z, r.1 < r.2) rs) as Hlt
    by (repeat constructor);
  assert (StronglySorted (λ r r' : Z * Z, r.2 ≤ r'.1) rs) as Hsorted
    by (repeat constructor; cbn; lia);
  split; [discriminate|];
  split; [repeat (constructor; [split; [reflexivity|vm_compute; reflexivity]|]);
          constructor|];
  split; [exact Hsorted|];
  assert (∀ w, 0 ≤ w ≤ max_warmup →
               Forall2 (λ s r, from s = DateMs (r.1 - w * 60000)
                               ∧ moment (to s) = DateMs r.2) (spans (Fin w)) rs)
    as Hrows by (intros w Hw; unfold spans; rows);
  assert (0 ≤ 0 ≤ max_warmup) as H0 by (unfold max_warmup; lia);
  split; [eapply Forall2_impl; [exact (Hrows 0 H0)|];
          intros s r [Hs Hr]; split; [|exact Hr]; rewrite Hs; f_equal; lia|];
  intros w Hw; split;
    [exact (Hrows w Hw)|exact (chronological w _ _ Hlt Hsorted (Hrows w Hw))].

Lemma yearly_table : well_formed_table (λ w, 0 ≤ w ≤ max_warmup) 12 yearlySpans.
Proof. table_ok yearlySpans. Qed.
Lemma quarterly_table : well_formed_table (λ w, 0 ≤ w ≤ max_warmup) 3 quarterlySpans.
Proof. table_ok quarterlySpans. Qed.
Lemma monthly_table : well_formed_table (λ w, 0 ≤ w ≤ max_warmup) 1 monthlySpans.
Proof. table_ok monthlySpans. Qed.

(** At a warm-up of 145 000 000 000 minutes the first span of the yearly
    table has no valid start. *)
Example yearly_start_out_of_range :
  from <$> head (yearlySpans (Fin 145000000000)) = Some InvalidDate.
Proof. vm_compute. reflexivity. Qed.
End Spans.

Section RouteLemmas.

Variable pipelineRunner : string → request → result report.

Lemma run_bind {A B} (m : M A) (f : A → M B) (w : world) :
  run (m ≫= f) w
  = match run m w with
    | (Ok a, w') => run (f a) w'
    | (Throw e, w') => (Throw e, w')
    end.
Proof. reflexivity. Qed.

Lemma run_setDaterange config d w c bt :
  configObjs w !! config = Some c → Config.backtest c = Some bt →
  run (setDaterange config d) w
  = (Ok (),
     {| spanObjs := spanObjs w;
        configObjs := <[config := Config.with_daterange d c]> (configObjs w);
        dispatched := dispatched w |}).
Proof.
  intros Hc Hbt. unfold setDaterange. rewrite !run_bind. cbn [run readConfig].
  rewrite Hc. cbn [deref]. rewrite Hbt. reflexivity.
Qed.

Lemma run_setDaterange_Throw config d w c :
  configObjs w !! config = Some c → Config.backtest c = None →
  run (setDaterange config d) w = (Throw TypeError, w).
Proof.
  intros Hc Hbt. unfold setDaterange. rewrite !run_bind. cbn [run readConfig].
  rewrite Hc. cbn [deref]. rewrite Hbt. reflexivity.
Qed.

Lemma run_invoke mode config w c :
  configObjs w !! config = Some c →
  run (invoke pipelineRunner mode config) w
  = (Ok (pipelineRunner mode {| req_config := c; req_span := spanOf w c |}),
     {| spanObjs := spanObjs w; configObjs := configObjs w;
        dispatched := dispatched w ++ [config] |}).
Proof. intros Hc. unfold invoke, resolve. cbn [run]. by rewrite Hc. Qed.

Lemma with_daterange_twice d d' c :
  Config.with_daterange d (Config.with_daterange d' c) = Config.with_daterange d c.
Proof. reflexivity. Qed.

(** The sequential loop returns the outcomes in the order of the spans and
    stops at the first failure. *)
Lemma sequential_outcome mode config dateSpans backtests w c bt :
  configObjs w !! config = Some c → Config.backtest c = Some bt →
  (run (sequential pipelineRunner mode config dateSpans backtests) w).1
  = (λ l, backtests ++ l)
    <$> mapM (λ s, pipelineRunner mode (requestFor (spanObjs w) c s)) dateSpans.
Proof.
  revert backtests w c bt.
  induction dateSpans as [|s dateSpans IH]; intros backtests w c bt Hc Hbt.
  - cbn. by rewrite app_nil_r.
  - cbn [sequential]. rewrite run_bind, (run_setDaterange _ _ _ _ _ Hc Hbt).
    assert (config < length (configObjs w))%nat as Hlt by (by eapply lookup_lt_Some).
    rewrite run_bind, (run_invoke _ _ _ (Config.with_daterange (Config.SpanRef s) c))
      by (cbn; by apply list_lookup_insert_eq).
    rewrite run_bind. cbn [await lift run]. rewrite mapM_cons.
    change (spanOf _ _) with (spanObjs w !! s).
    change {| req_config := _; req_span := _ |} with (requestFor (spanObjs w) c s).
    destruct (pipelineRunner mode (requestFor (spanObjs w) c s)) as [r|e]; [|done].
    rewrite bind_Ok.
    erewrite IH; [|cbn; by apply list_lookup_insert_eq|reflexivity].
    cbn [spanObjs]. unfold requestFor. 
    destruct (mapM _ dateSpans) as [l|e]; [|done].
    cbn. by rewrite <- app_assoc.
Qed.

Lemma insert_last {A} (l : list A) (x y : A) :
  <[length l := y]> (l ++ [x]) = l ++ [y].
Proof.
  rewrite <- (Nat.add_0_r (length l)) at 1. by rewrite insert_app_r.
Qed.

Lemma jsonConfig_backtest spans c :
  Config.backtest c = None ↔ Config.backtest (jsonConfig spans c) = None.
Proof. cbn. by destruct (Config.backtest c). Qed.

Lemma run_jsonClone config w c :
  configObjs w !! config = Some c →
  run (jsonClone config) w
  = (Ok (length (configObjs w)),
     {| spanObjs := spanObjs w;
        configObjs := configObjs w ++ [jsonConfig (spanObjs w) c];
        dispatched := dispatched w |}).
Proof.
  intros Hc. unfold jsonClone. rewrite !run_bind. cbn [run readConfig].
  rewrite Hc. reflexivity.
Qed.

(** The concurrent map clones the configuration once per span, hands each
    clone to the pipeline and returns the promises in the order of the
    spans. *)
Lemma concurrent_run mode config dateSpans w c bt :
  configObjs w !! config = Some c → Config.backtest c = Some bt →
  run (concurrent pipelineRunner mode config dateSpans) w
  = (Ok (map (λ s, pipelineRunner mode
                     (requestFor (spanObjs w) (jsonConfig (spanObjs w) c) s))
             dateSpans),
     {| spanObjs := spanObjs w;
        configObjs :=
          configObjs w
          ++ map (λ s, Config.with_daterange (Config.SpanRef s)
                         (jsonConfig (spanObjs w) c)) dateSpans;
        dispatched :=
          dispatched w ++ seq (length (configObjs w)) (length dateSpans) |}).
Proof.
  intros Hc Hbt. revert w Hc.
  induction dateSpans as [|s dateSpans IH]; intros w Hc.
  - cbn. rewrite !app_nil_r. by destruct w.
  - cbn [concurrent]. rewrite run_bind, (run_jsonClone _ _ _ Hc).
    set (jc := jsonConfig (spanObjs w) c).
    assert (∃ bt', Config.backtest jc = Some bt') as [bt' Hbt'].
    { subst jc. cbn. rewrite Hbt. by eexists. }
    rewrite run_bind.
    erewrite run_setDaterange;
      [|cbn; by apply list_lookup_middle|exact Hbt'].
    cbn [spanObjs configObjs dispatched].
    rewrite insert_last.
    rewrite run_bind.
    erewrite run_invoke by (cbn; by apply list_lookup_middle).
    cbn [spanObjs configObjs dispatched].
    rewrite run_bind, IH by (cbn; by apply lookup_app_l_Some).
    cbn [spanObjs configObjs dispatched run mret M_ret map length seq].
    rewrite <- !app_assoc, length_app. cbn [length app].
    rewrite Nat.add_1_r. reflexivity.
Qed.

Lemma sequential_no_backtest mode config s dateSpans backtests w c :
  configObjs w !! config = Some c → Config.backtest c = None →
  run (sequential pipelineRunner mode config (s :: dateSpans) backtests) w
  = (Throw TypeError, w).
Proof.
  intros Hc Hbt. cbn [sequential].
  by rewrite run_bind, (run_setDaterange_Throw _ _ _ _ Hc Hbt).
Qed.

Lemma concurrent_no_backtest mode config s dateSpans w c :
  configObjs w !! config = Some c → Config.backtest c = None →
  ∃ w', run (concurrent pipelineRunner mode config (s :: dateSpans)) w
        = (Throw TypeError, w') ∧ dispatched w' = dispatched w.
Proof.
  intros Hc Hbt. cbn [concurrent].
  rewrite run_bind, (run_jsonClone _ _ _ Hc), run_bind.
  erewrite run_setDaterange_Throw;
    [|cbn; by apply list_lookup_middle|by apply jsonConfig_backtest].
  by eexists.
Qed.

Lemma mapM_id_map {A B} (f : A → result B) (l : list A) :
  mapM id (map f l) = mapM f l.
Proof.
  induction l as [|x l IH]; [done|].
  cbn [map]. rewrite !mapM_cons, IH. reflexivity.
Qed.

Lemma mapM_Throw_lookup {A} (ps : list (result A)) i e :
  ps !! i = Some (Throw e) → ∃ e', mapM id ps = Throw e'.
Proof.
  revert i. induction ps as [|p ps IH]; intros i Hi; [done|].
  rewrite mapM_cons. destruct p as [a|e0]; [|by eexists].
  destruct i as [|i]; [done|]. destruct (IH i Hi) as [e' ->]. by eexists.
Qed.

(** [Promise.all] fails exactly when awaiting the promises one after the
    other fails. *)
Lemma Promise_all_same {A} (settle : list nat) (ps : list (result A)) :
  same_outcome (mapM id ps) (Promise_all settle ps).
Proof.
  unfold Promise_all.
  destruct (omap _ settle) as [|e l] eqn:Hr.
  - by destruct (mapM id ps).
  - assert (e ∈ e :: l) as Hin by apply list_elem_of_here.
    rewrite <- Hr in Hin. apply list_elem_of_omap in Hin as (i & _ & Hi).
    destruct (ps !! i) as [[a|e']|] eqn:Hp; try done.
    by destruct (mapM_Throw_lookup ps i e' Hp) as [e'' ->].
Qed.

Lemma Promise_all_nil {A} (settle : list nat) :
  Promise_all settle ([] : list (result A)) = Ok [].
Proof.
  unfold Promise_all.
  assert (omap (λ i, match ([] : list (result A)) !! i with
                     | Some (Throw e) => Some e
                     | _ => None
                     end) settle = []) as ->; [|done].
  induction settle as [|i settle IH]; [done|]. cbn. by rewrite IH.
Qed.

Lemma same_outcome_refl {A} (r : result A) : same_outcome r r.
Proof. by destruct r. Qed.

Lemma same_outcome_bind {A B} (f : A → result B) (r1 r2 : result A) :
  same_outcome r1 r2 → same_outcome (r1 ≫= f) (r2 ≫= f).
Proof.
  destruct r1, r2; cbn; try done. intros ->. apply same_outcome_refl.
Qed.

Lemma run_prepare mode merged :
  let c := Config.with_mode mode merged in
  let thr := jsOr (batchOption c Config.batchPeriodProfitThreshold) (VNum (Fin 0)) in
  run (prepare mode merged) emptyWorld
  = match getDateMonthSpansForYear c with
    | Throw e => (Throw e, dispatching [] c)
    | Ok tables =>
        let ss := default [] tables in
        let refs := (λ ss, seq 0 (length ss)) <$> tables in
        if truthy (batchOption c Config.noBigData) then
          match Config.backtestResultExporter c ≫= Config.data with
          | Some _ => (Ok (0%nat, refs, thr), dispatching ss (Config.without_bigData c))
          | None => (Throw TypeError, dispatching ss c)
          end
        else (Ok (0%nat, refs, thr), dispatching ss c)
    end.
Proof.
  intros c thr. unfold prepare. rewrite !run_bind.
  cbn [run newConfig setMode readConfig writeConfig mbind M_bind emptyWorld
       configObjs spanObjs dispatched app length lookup list_lookup deref
       list_insert insert lift].
  fold c.
  destruct (getDateMonthSpansForYear c) as [[ss|]|e]; [| |done].
  - cbn [run newSpans mbind M_bind mret M_ret spanObjs configObjs dispatched
         app length].
    fold thr. destruct (truthy (batchOption c Config.noBigData)); [|done].
    unfold dropBigData.
    cbn [run readConfig writeConfig lift mbind M_bind configObjs spanObjs
         dispatched lookup list_lookup deref].
    destruct (Config.backtestResultExporter c) as [ex|]; [|done].
    cbn [deref mbind option_bind]. by destruct (Config.data ex).
  - cbn [run mbind M_bind mret M_ret]. fold thr.
    destruct (truthy (batchOption c Config.noBigData)); [|done].
    unfold dropBigData.
    cbn [run readConfig writeConfig lift mbind M_bind configObjs spanObjs
         dispatched lookup list_lookup deref].
    destruct (Config.backtestResultExporter c) as [ex|]; [|done].
    cbn [deref mbind option_bind]. by destruct (Config.data ex).
Qed.

Lemma run_execute settle mode ss c refs :
  (run (execute pipelineRunner settle mode 0 refs) (dispatching ss c)).1
  = match refs with
    | None => Throw TypeError
    | Some [] => Ok []
    | Some refs =>
        match Config.backtest c with
        | None => Throw TypeError
        | Some _ =>
            if truthy (batchOption c Config.synchronous)
            then mapM (λ s, pipelineRunner mode (requestFor ss c s)) refs
            else Promise_all settle
                   (map (λ s, pipelineRunner mode
                                (requestFor ss (jsonConfig ss c) s)) refs)
        end
    end.
Proof.
  unfold execute. rewrite run_bind.
  cbn [run readConfig dispatching configObjs lookup list_lookup deref].
  destruct (truthy (batchOption c Config.synchronous)).
  - rewrite run_bind. destruct refs as [refs|]; [|done].
    cbn [run lift deref].
    destruct (Config.backtest c) as [bt|] eqn:Hbt.
    + erewrite sequential_outcome by done. cbn [app spanObjs].
      destruct refs; [done|]. by destruct (mapM _ _).
    + destruct refs as [|s refs]; [done|].
      by erewrite sequential_no_backtest.
  - rewrite run_bind. destruct refs as [refs|]; [|done].
    cbn [run lift deref]. rewrite run_bind.
    destruct (Config.backtest c) as [bt|] eqn:Hbt.
    + erewrite concurrent_run by done. cbn [run await lift fst spanObjs].
      destruct refs; [|done]. cbn [map]. by rewrite Promise_all_nil.
    + destruct refs as [|s refs]; [cbn; by rewrite Promise_all_nil|].
      by edestruct concurrent_no_backtest as (w' & -> & _).
Qed.

Lemma run_module_exports settle merged :
  (run (module_exports pipelineRunner settle merged) emptyWorld).1
  = '(config, refs, thr) ← (run (prepare "backtest" merged) emptyWorld).1;
    backtests ← (run (execute pipelineRunner settle "backtest" config refs)
                   (run (prepare "backtest" merged) emptyWorld).2).1;
    buildResponse backtests thr.
Proof.
  unfold module_exports. cbv zeta. rewrite run_bind.
  destruct (run (prepare "backtest" merged) emptyWorld) as [[[[config refs] thr]|e] w];
    [|done].
  cbn [fst snd]. rewrite bind_Ok, run_bind.
  destruct (run (execute _ _ _ _ _) w) as [[backtests|e] w']; done.
Qed.

Lemma plain_configured mode c v :
  plain c → plain (configured mode (setSynchronous (VBool v) c)).
Proof.
  intros Hp spans. specialize (Hp spans).
  pose proof (f_equal Config.tradingAdvisor Hp) as Hta.
  pose proof (f_equal Config.batch Hp) as Hb.
  pose proof (f_equal Config.backtestResultExporter Hp) as Hex.
  pose proof (f_equal Config.backtest Hp) as Hbk.
  pose proof (f_equal Config.others Hp) as Ho.
  cbn in Hta, Hb, Hex, Hbk, Ho.
  assert (∀ p, p = Config.noBigData ∨ p = Config.batchPeriodProfitThreshold →
               jsonValue (batchOption c p) = batchOption c p) as Hopt.
  { intros p Hpp. unfold batchOption.
    destruct (Config.batch c) as [bt|]; [|done].
    injection Hb as Hb. rewrite <- Hb at 2. by destruct Hpp as [-> | ->]. }
  unfold configured.
  destruct (truthy _); unfold jsonConfig; cbn;
    rewrite Hta, Hbk, Ho, ?Hex, !Hopt by auto; reflexivity.
Qed.

(** The outcome of the route, stage by stage. *)
Lemma route_outcome settle merged :
  (run (module_exports pipelineRunner settle merged) emptyWorld).1
  = tables ← getDateMonthSpansForYear merged;
    _ ← (if truthy (batchOption merged Config.noBigData)
         then (λ _, ()) <$> deref (Config.backtestResultExporter merged ≫= Config.data)
         else Ok ());
    backtests ←
      (run (execute pipelineRunner settle "backtest" 0
              ((λ ss, seq 0 (length ss)) <$> tables))
           (dispatching (default [] tables) (configured "backtest" merged))).1;
    buildResponse backtests
      (jsOr (batchOption merged Config.batchPeriodProfitThreshold) (VNum (Fin 0))).
Proof.
  rewrite run_module_exports, run_prepare. cbv zeta. unfold configured.
  change (getDateMonthSpansForYear (Config.with_mode "backtest" merged))
    with (getDateMonthSpansForYear merged).
  change (batchOption (Config.with_mode "backtest" merged)) with (batchOption merged).
  change (Config.backtestResultExporter (Config.with_mode "backtest" merged))
    with (Config.backtestResultExporter merged).
  destruct (getDateMonthSpansForYear merged) as [tables|e]; [|done].
  rewrite bind_Ok.
  destruct (truthy (batchOption merged Config.noBigData)); [|done].
  destruct (Config.backtestResultExporter merged ≫= Config.data); done.
Qed.

Lemma run_bind_world {A B} (m : M A) (f : A → M B) (w : world) :
  (run (m ≫= f) w).2
  = match run m w with
    | (Ok a, w') => (run (f a) w').2
    | (Throw e, w') => w'
    end.
Proof. rewrite run_bind. by destruct (run m w) as [[a|e] w']. Qed.

(** The store the concurrent path leaves behind: the configuration object
    of the route followed by one clone per span, each dispatched once. *)
Lemma final_world_concurrent settle merged :
  truthy (batchOption merged Config.synchronous) = false →
  let w := (run (module_exports pipelineRunner settle merged) emptyWorld).2 in
  dispatched w = [] ∨
  ∃ ss c,
    w = {| spanObjs := ss;
           configObjs :=
             c :: map (λ s, Config.with_daterange (Config.SpanRef s)
                              (jsonConfig ss c)) (seq 0 (length ss));
           dispatched := seq 1 (length ss) |}.
Proof.
  intros Hflag. cbv zeta. unfold module_exports. cbv zeta.
  rewrite run_bind_world, run_prepare. cbv zeta.
  change (batchOption (Config.with_mode "backtest" merged)) with (batchOption merged).
  set (c0 := Config.with_mode "backtest" merged).
  assert (∀ c tables thr,
    batchOption c Config.synchronous = batchOption merged Config.synchronous →
    let w := (run ('(config, dateSpans, thr) ← mret (0%nat, (λ ss, seq 0 (length ss)) <$> tables, thr);
                   backtests ← execute pipelineRunner settle "backtest" config dateSpans;
                   lift (buildResponse backtests thr))
                  (dispatching (default [] tables) c)).2 in
    dispatched w = [] ∨
    ∃ ss c,
      w = {| spanObjs := ss;
             configObjs :=
               c :: map (λ s, Config.with_daterange (Config.SpanRef s)
                                (jsonConfig ss c)) (seq 0 (length ss));
             dispatched := seq 1 (length ss) |}) as Hexec.
  { intros c tables thr Hc. cbv zeta.
    rewrite run_bind_world. cbn [run mret M_ret].
    rewrite run_bind_world. unfold execute. rewrite run_bind.
    cbn [run readConfig dispatching configObjs lookup list_lookup deref].
    rewrite Hc, Hflag. rewrite run_bind.
    destruct tables as [ss|]; [|by left].
    cbn [fmap option_fmap option_map default run lift deref].
    rewrite run_bind.
    destruct (Config.backtest c) as [bt|] eqn:Hbt.
    - erewrite concurrent_run by done.
      cbn [run await lift spanObjs configObjs dispatched app length].
      right. exists ss, c. rewrite length_seq.
      by destruct (Promise_all settle _).
    - destruct (seq 0 (length ss)) as [|r refs]; [left|].
      + cbn. by destruct (Promise_all settle _).
      + edestruct concurrent_no_backtest as (w' & -> & Hd); [done..|].
        left. by rewrite Hd. }
  destruct (getDateMonthSpansForYear c0) as [tables|e]; [|by left].
  cbv zeta.
  destruct (truthy (batchOption merged Config.noBigData)).
  - destruct (Config.backtestResultExporter c0 ≫= Config.data); [|by left].
    by apply Hexec.
  - by apply Hexec.
Qed.

Lemma run_writeDaterangeTo_span l x w c s :
  configObjs w !! l = Some c →
  Config.backtest c = Some {| Config.daterange := Config.SpanRef s |} →
  run (writeDaterangeTo l x) w
  = (Ok (),
     {| spanObjs := alter (λ sp, {| from := from sp; to := x |}) s (spanObjs w);
        configObjs := configObjs w;
        dispatched := dispatched w |}).
Proof.
  intros Hc Hbt. unfold writeDaterangeTo. rewrite run_bind.
  cbn [run readConfig]. rewrite Hc. cbn [deref]. rewrite run_bind.
  cbn [run lift]. rewrite Hbt. reflexivity.
Qed.

Lemma clone_lookup {A} (g : nat → A) (c : A) (n i : nat) :
  (i < n)%nat → (c :: map g (seq 0 n)) !! S i = Some (g i).
Proof.
  intros Hi. change ((c :: map g (seq 0 n)) !! S i) with ((g <$> seq 0 n) !! i).
  by rewrite list_lookup_fmap, lookup_seq_lt.
Qed.

Lemma dispatched_lookup (n i li : nat) :
  seq 1 n !! i = Some li → li = S i ∧ (i < n)%nat.
Proof. intros H. by apply lookup_seq in H. Qed.

(** In the store the concurrent path leaves behind, every partition has a
    configuration object and a span object of its own. *)
Lemma clones_independent ss c :
  let w := {| spanObjs := ss;
              configObjs :=
                c :: map (λ s, Config.with_daterange (Config.SpanRef s)
                                 (jsonConfig ss c)) (seq 0 (length ss));
              dispatched := seq 1 (length ss) |} in
  independent_requests w ∧ own_spans w.
Proof.
  intros w. subst w. split.
  - intros i j li lj Hij Hi Hj.
    apply dispatched_lookup in Hi as [-> Hi]. apply dispatched_lookup in Hj as [-> Hj].
    split; [congruence|].
    pose proof (clone_lookup
      (λ s, Config.with_daterange (Config.SpanRef s) (jsonConfig ss c)) c _ i Hi)
      as Hci.
    split.
    + intros d. erewrite run_setDaterange; [|exact Hci|reflexivity].
      unfold resolve. cbn [snd configObjs spanObjs].
      rewrite list_lookup_insert_ne by congruence. reflexivity.
    + intros x. erewrite run_writeDaterangeTo_span; [|exact Hci|reflexivity].
      unfold resolve. cbn [snd configObjs spanObjs].
      rewrite (clone_lookup _ c _ j Hj). cbn [mbind option_bind].
      unfold spanOf.
      cbn [Config.backtest Config.with_daterange Config.daterange fmap option_fmap
           option_map spanObjs].
      rewrite list_lookup_alter_ne by congruence. reflexivity.
  - intros i li Hi. apply dispatched_lookup in Hi as [-> Hi].
    destruct (lookup_lt_is_Some_2 ss i Hi) as [s Hs].
    eexists _, s. unfold resolve. cbn [configObjs].
    rewrite (clone_lookup _ c _ i Hi). cbn [mbind option_bind].
    split; [reflexivity|]. split; [exact Hs|exact Hs].
Qed.

End RouteLemmas.

Section Failure.

Context {A B : Type} (f : A → result B) (e : error).

Lemma mapM_fails_with (l : list A) :
  (∀ x, x ∈ l → f x = Throw e ∨ ∃ r, f x = Ok r) →
  (∃ x, x ∈ l ∧ f x = Throw e) →
  mapM f l = Throw e.
Proof.
  induction l as [|x l IH]; intros Hall (y & Hy & Hfy).
  - by apply elem_of_nil in Hy.
  - rewrite mapM_cons.
    destruct (Hall x (list_elem_of_here _ _)) as [->|[r Hr]]; [done|].
    rewrite Hr, bind_Ok. rewrite IH; [done| |].
    + intros z Hz. apply Hall. by apply list_elem_of_further.
    + apply elem_of_cons in Hy as [->|Hy]; [congruence|eauto].
Qed.

Lemma Promise_all_fails_with (settle : list nat) (l : list A) :
  (∀ x, x ∈ l → f x = Throw e ∨ ∃ r, f x = Ok r) →
  (∃ x, x ∈ l ∧ f x = Throw e) →
  Promise_all settle (map f l) = Throw e.
Proof.
  intros Hall Hex. unfold Promise_all.
  destruct (omap _ settle) as [|e' es] eqn:Hr.
  - rewrite mapM_id_map. by apply mapM_fails_with.
  - assert (e' ∈ e' :: es) as Hin by apply list_elem_of_here.
    rewrite <- Hr in Hin. apply list_elem_of_omap in Hin as (i & _ & Hi).
    destruct (map f l !! i) as [[r|e'']|] eqn:Hp; try done.
    injection Hi as ->.
    rewrite list_lookup_fmap in Hp.
    destruct (l !! i) as [x|] eqn:Hx; [|done]. injection Hp as Hp.
    destruct (Hall x) as [Hfx|[r Hfx]];
      [by eapply list_elem_of_lookup_2|congruence|congruence].
Qed.

End Failure.

Lemma route_modes_agree
    (pipelineRunner : string → request → result report)
    (settle : list nat) (merged : Config.t) :
  plain merged →
  ignores_synchronous pipelineRunner →
  same_outcome
    (run (module_exports pipelineRunner settle
            (setSynchronous (VBool true) merged)) emptyWorld).1
    (run (module_exports pipelineRunner settle
            (setSynchronous (VBool false) merged)) emptyWorld).1.
Proof.
  intros Hplain Hign. rewrite !route_outcome.
  change (getDateMonthSpansForYear (setSynchronous _ merged))
    with (getDateMonthSpansForYear merged).
  change (batchOption (setSynchronous _ merged) Config.noBigData)
    with (batchOption merged Config.noBigData).
  change (batchOption (setSynchronous _ merged) Config.batchPeriodProfitThreshold)
    with (batchOption merged Config.batchPeriodProfitThreshold).
  change (Config.backtestResultExporter (setSynchronous _ merged))
    with (Config.backtestResultExporter merged).
  destruct (getDateMonthSpansForYear merged) as [tables|e]; [|done].
  rewrite !bind_Ok.
  match goal with
  | |- same_outcome (?check ≫= _) _ => destruct check as [?|e]; [|done]
  end.
  rewrite !bind_Ok. apply same_outcome_bind.
  rewrite !run_execute.
  destruct tables as [ss|]; [|done]. cbn [fmap option_fmap option_map default].
  destruct (seq 0 (length ss)) as [|r refs]; [done|]. generalize (r :: refs) as rs.
  intros rs.
  rewrite (plain_configured "backtest" merged false Hplain).
  set (cS := configured "backtest" (setSynchronous (VBool true) merged)).
  set (cA := configured "backtest" (setSynchronous (VBool false) merged)).
  assert (Config.backtest cS = Config.backtest merged) as ->
    by (unfold cS, configured; by destruct (truthy _)).
  assert (Config.backtest cA = Config.backtest merged) as ->
    by (unfold cA, configured; by destruct (truthy _)).
  destruct (Config.backtest merged); [|done].
  assert (batchOption cS Config.synchronous = VBool true) as ->
    by (unfold cS, configured; by destruct (truthy _)).
  assert (batchOption cA Config.synchronous = VBool false) as ->
    by (unfold cA, configured; by destruct (truthy _)).
  cbn [truthy].
  assert (∀ s, pipelineRunner "backtest" (requestFor ss cS s)
               = pipelineRunner "backtest" (requestFor ss cA s)) as Hreq.
  { intros s. unfold requestFor, cS, cA, configured.
    change (batchOption (Config.with_mode "backtest" (setSynchronous _ merged))
              Config.noBigData)
      with (batchOption merged Config.noBigData).
    destruct (truthy _).
    - etrans; [|symmetry]; apply (Hign _ (Config.with_daterange (Config.SpanRef s)
        (Config.without_bigData (Config.with_mode "backtest" merged)))).
    - etrans; [|symmetry]; apply (Hign _ (Config.with_daterange (Config.SpanRef s)
        (Config.with_mode "backtest" merged))). }
  rewrite <- mapM_id_map, (map_ext _ _ Hreq). apply Promise_all_same.
Qed.

Lemma paths_agree
    (pipelineRunner : string → request → result report)
    (settle : list nat) (mode : string) (w : world) (config : nat)
    (c : Config.t) (dateSpans : list nat) :
  configObjs w !! config = Some c →
  plain c →
  same_outcome
    (run (sequential pipelineRunner mode config dateSpans []) w).1
    (run (ps ← concurrent pipelineRunner mode config dateSpans;
          await (Promise_all settle ps)) w).1.
Proof.
  intros Hc Hplain. rewrite run_bind.
  destruct (Config.backtest c) as [bt|] eqn:Hbt.
  - erewrite sequential_outcome, concurrent_run by done.
    cbn [run await lift fst app]. rewrite Hplain, <- mapM_id_map.
    pose proof (Promise_all_same settle
      (map (λ s, pipelineRunner mode (requestFor (spanObjs w) c s)) dateSpans)) as H.
    destruct (mapM id _), (Promise_all settle _); done.
  - destruct dateSpans as [|s dateSpans].
    + cbn. by rewrite Promise_all_nil.
    + erewrite sequential_no_backtest by done.
      by edestruct concurrent_no_backtest as (w' & -> & _).
Qed.

(** Claim C5.  For a pipeline that is a function of its request, and a
    configuration that is plain JSON data, the sequential loop and the
    concurrent map, run on the same store and spans, collect the same list
    of backtests or fail both; and the route answers with the same response
    ([backtests], [performanceReport], [batchReport], [fakeReport]) whether
    [batch.synchronous] is true or false, for a pipeline that does not read
    that flag. *)
Theorem execution_modes_agree
    (pipelineRunner : string → request → result report) (settle : list nat) :
  (∀ mode w config c dateSpans,
     configObjs w !! config = Some c →
     plain c →
     same_outcome
       (run (sequential pipelineRunner mode config dateSpans []) w).1
       (run (ps ← concurrent pipelineRunner mode config dateSpans;
             await (Promise_all settle ps)) w).1) ∧
  (∀ merged,
     plain merged →
     ignores_synchronous pipelineRunner →
     same_outcome
       (run (module_exports pipelineRunner settle
               (setSynchronous (VBool true) merged)) emptyWorld).1
       (run (module_exports pipelineRunner settle
               (setSynchronous (VBool false) merged)) emptyWorld).1).
Proof.
  split.
  - intros mode w config c dateSpans Hc Hplain. by eapply paths_agree.
  - intros merged Hplain Hign. by apply route_modes_agree.
Qed.

(** Claim C6, amended.  If the pipeline fails with [e] on the span of
    partition [i] and on no other span, the route fails with [e] itself, in
    sequential and in concurrent mode and whatever the order in which the
    promises settle: the error of the pipeline is passed on unchanged, and
    no response, hence no aggregate report, is produced. *)
Theorem batch_aborts_with_engine_error
    (pipelineRunner : string → request → result report)
    (settle : list nat) (merged : Config.t)
    (ss : list span) (i : nat) (s : span) (e : error) :
  dispatches merged ss →
  ss !! i = Some s →
  fails_only_on pipelineRunner ss s e →
  (run (module_exports pipelineRunner settle merged) emptyWorld).1 = Throw e.
Proof.
  intros (Hspans & Hbig & [bt Hbt]) Hi [Hfail Hok].
  rewrite route_outcome, Hspans, bind_Ok.
  assert ((if truthy (batchOption merged Config.noBigData)
           then (λ _, ()) <$> deref (Config.backtestResultExporter merged ≫= Config.data)
           else Ok ()) = Ok ()) as ->.
  { destruct (truthy _); [|done]. by destruct Hbig as [d ->]. }
  rewrite bind_Ok, run_execute. cbn [fmap option_fmap option_map default].
  assert (Config.backtest (configured "backtest" merged) = Some bt) as ->
    by (unfold configured; by destruct (truthy _)).
  assert (i < length ss)%nat as Hlt by (by eapply lookup_lt_Some).
  assert (∀ (c : Config.t) (j : nat), j ∈ seq 0 (length ss) →
            pipelineRunner "backtest" (requestFor ss c j) = Throw e
            ∨ ∃ r, pipelineRunner "backtest" (requestFor ss c j) = Ok r) as Hall.
  { intros c j Hj. apply elem_of_seq in Hj as [_ Hj].
    destruct (lookup_lt_is_Some_2 ss j) as [s' Hs']; [cbn in Hj; lia|].
    destruct (decide (s' = s)) as [->|Hne].
    - left. by apply Hfail.
    - right. eapply Hok; [|exact Hne|exact Hs']. by eapply list_elem_of_lookup_2. }
  assert (∀ c : Config.t, ∃ j, j ∈ seq 0 (length ss)
            ∧ pipelineRunner "backtest" (requestFor ss c j) = Throw e) as Hex.
  { intros c. exists i. split; [apply elem_of_seq; cbn; lia|by apply Hfail]. }
  destruct (seq 0 (length ss)) as [|r refs] eqn:Hseq.
  { destruct (Hex merged) as (j & Hj & _). by apply elem_of_nil in Hj. }
  destruct (truthy (batchOption _ Config.synchronous)).
  - by rewrite (mapM_fails_with _ e _ (Hall _) (Hex _)).
  - by rewrite (Promise_all_fails_with _ e _ _ (Hall _) (Hex _)).
Qed.

(** Claim C9, amended.  In concurrent mode (a falsy [batch.synchronous])
    every call of the pipeline receives a clone of its own, scoped to its own
    span: writing the daterange of one request, by assignment or in place,
    leaves the request of every other partition as it was. *)
Theorem concurrent_requests_are_independent
    (pipelineRunner : string → request → result report)
    (settle : list nat) (merged : Config.t) :
  truthy (batchOption merged Config.synchronous) = false →
  let w := (run (module_exports pipelineRunner settle merged) emptyWorld).2 in
  independent_requests w ∧ own_spans w.
Proof.
  intros Hflag w.
  destruct (final_world_concurrent pipelineRunner settle merged Hflag)
    as [Hnil|(ss & c & Hw)]; fold w in Hnil || fold w in Hw.
  - split.
    + intros i j li lj _ Hi. by rewrite Hnil in Hi.
    + intros i li Hi. by rewrite Hnil in Hi.
  - rewrite Hw. apply clones_independent.
Qed.

(** ** The route on sample inputs *)

Example yearly_rows :
  yearlySpans (Fin 600) !! 1%nat = Some year_2019 ∧
  yearlySpans (Fin 600) !! 2%nat = Some year_2020.
Proof. split; vm_compute; reflexivity. Qed.

Lemma example_dispatches (b : bool) :
  dispatches (example_config b "1 year") (yearlySpans (Fin 600)).
Proof.
  split; [vm_compute; reflexivity|]. split; [intros []|by eexists].
Qed.

Lemma failing_on_spec (ss : list span) (bad : span) (e : error) :
  fails_only_on (failing_on bad e) ss bad e.
Proof.
  split.
  - intros mode req Hreq. unfold failing_on. rewrite Hreq.
    by rewrite bool_decide_true.
  - intros mode req s' _ Hne Hreq. unfold failing_on. rewrite Hreq.
    rewrite bool_decide_false by done. by eexists.
Qed.

Lemma example_config_plain (b : bool) (batchSize : string) :
  plain (example_config b batchSize).
Proof. intros spans. unfold jsonConfig, example_config. cbn. f_equal. Qed.

Lemma stub_ignores_synchronous : ignores_synchronous stub.
Proof. intros mode c sp v. reflexivity. Qed.

Example sequential_abort_2019 :
  (run (module_exports (failing_on year_2019 boom) [] (example_config true "1 year"))
     emptyWorld).1 = Throw boom.
Proof. vm_compute. reflexivity. Qed.

Example sequential_abort_2020 :
  (run (module_exports (failing_on year_2020 boom) [] (example_config true "1 year"))
     emptyWorld).1 = Throw boom.
Proof. vm_compute. reflexivity. Qed.

Example concurrent_abort_2019 :
  (run (module_exports (failing_on year_2019 boom) [2; 1; 0]%nat
          (example_config false "1 year")) emptyWorld).1 = Throw boom.
Proof. vm_compute. reflexivity. Qed.

(** In sequential mode the three calls receive the one configuration object,
    whose daterange ends up being the last span. *)
Example sequential_shares_config :
  let w := (run (module_exports stub [] (example_config true "1 year")) emptyWorld).2 in
  dispatched w = [0; 0; 0]%nat ∧
  (req_span <$> resolve w 0%nat) = Some (Some year_2020) ∧
  (req_span <$> resolve (run (setDaterange 0 Config.NoRange) w).2 0%nat) = Some None.
Proof. repeat split; vm_compute; reflexivity. Qed.

(** Claim C6 fails as stated: a pipeline failing on the second span and one
    failing on the third, both with the same error, abort the batch with
    that very error; nothing in it tells the partitions apart. *)
Lemma abort_does_not_name_partition : ¬ abort_names_partition.
Proof.
  intros [index_of H].
  destruct (H (failing_on year_2019 boom) [] (example_config true "1 year")
              (yearlySpans (Fin 600)) 1%nat year_2019 boom)
    as (err1 & Hrun1 & Hidx1);
    [apply example_dispatches|apply yearly_rows|apply failing_on_spec|].
  destruct (H (failing_on year_2020 boom) [] (example_config true "1 year")
              (yearlySpans (Fin 600)) 2%nat year_2020 boom)
    as (err2 & Hrun2 & Hidx2);
    [apply example_dispatches|apply yearly_rows|apply failing_on_spec|].
  rewrite sequential_abort_2019 in Hrun1. rewrite sequential_abort_2020 in Hrun2.
  injection Hrun1 as <-. injection Hrun2 as <-. congruence.
Qed.

(** Claim C6, amended, on the yearly table with the third span failing, in
    both modes. *)
Lemma batch_aborts_with_engine_error_example :
  (run (module_exports (failing_on year_2020 boom) [1; 0; 2]%nat
          (example_config false "1 year")) emptyWorld).1 = Throw boom
  ∧ (run (module_exports (failing_on year_2020 boom) []
          (example_config true "1 year")) emptyWorld).1 = Throw boom.
Proof.
  split.
  - apply (batch_aborts_with_engine_error _ _ _ (yearlySpans (Fin 600)) 2 year_2020);
      [apply example_dispatches|apply yearly_rows|apply failing_on_spec].
  - apply (batch_aborts_with_engine_error _ _ _ (yearlySpans (Fin 600)) 2 year_2020);
      [apply example_dispatches|apply yearly_rows|apply failing_on_spec].
Defined.

(** Claim C5 on the quarterly table, with a stub pipeline and promises
    settling out of order. *)
Lemma execution_modes_agree_example :
  same_outcome
    (run (module_exports stub [2; 0; 1]%nat
            (setSynchronous (VBool true) (example_config false "1 quarter")))
       emptyWorld).1
    (run (module_exports stub [2; 0; 1]%nat
            (setSynchronous (VBool false) (example_config false "1 quarter")))
       emptyWorld).1.
Proof.
  apply (proj2 (execution_modes_agree stub [2; 0; 1]%nat)).
  - intros spans. reflexivity.
  - intros mode c sp v. reflexivity.
Defined.

Example execution_modes_agree_quarterly :
  (λ r, (length (Response.backtests r),
         (λ o, get o "periodsTotal") <$> Response.performanceReport r,
         FakeReport.trades (Response.fakeReport r)))
  <$> (run (module_exports stub [2; 0; 1]%nat (example_config true "1 quarter"))
         emptyWorld).1
  = Ok (13%nat, Some (VNum (Fin 13)), VNum (Fin 39)).
Proof. vm_compute. reflexivity. Qed.

(** Claim C9 fails as stated: in sequential mode the three calls of the
    yearly batch receive the same configuration object, so assigning the
    daterange of the first request changes what the second reads. *)
Lemma sequential_requests_are_shared : ¬ requests_always_independent.
Proof.
  intros H.
  destruct (H stub [] (example_config true "1 year")) as [Hind _].
  destruct (Hind 0 1 0 0)%nat as (_ & Hset & _);
    [done|vm_compute; reflexivity|vm_compute; reflexivity|].
  specialize (Hset Config.NoRange).
  apply (f_equal (fmap req_span)) in Hset.
  destruct sequential_shares_config as (_ & Hbefore & Hafter).
  rewrite Hbefore, Hafter in Hset. discriminate.
Qed.

(** Claim C9, amended, on the yearly table. *)
Lemma concurrent_requests_are_independent_example :
  let w := (run (module_exports stub [] (example_config false "1 year")) emptyWorld).2 in
  independent_requests w ∧ own_spans w.
Proof.
  apply (concurrent_requests_are_independent stub [] (example_config false "1 year")).
  reflexivity.
Defined.

Example concurrent_clones :
  let w := (run (module_exports stub [] (example_config false "1 year")) emptyWorld).2 in
  dispatched w = [1; 2; 3]%nat ∧
  (req_span <$> resolve w 2%nat) = Some (Some year_2019).
Proof. split; vm_compute; reflexivity. Qed.

(** Claim C8.  With a trading advisor present, [getDateMonthSpansForYear]
    returns the monthly spans when [batchSize] is absent; for a [batchSize]
    other than the empty string, ['1 month'], ['1 quarter'] and ['1 year'] it
    returns [undefined], not the monthly spans, and the route then throws a
    TypeError. *)
Theorem unrecognized_batchSize_gives_no_spans
    (config : Config.t) (advisor : Config.tradingAdvisor_t) :
  Config.tradingAdvisor config = Some advisor →
  let warmupMinutes :=
    toNumber (jsMul (Config.historySize advisor) (Config.candleSize advisor)) in
  let batchSize := Config.batchBacktest config ≫= Config.batchSize in
  (batchSize = None →
     getDateMonthSpansForYear config = Ok (Some (monthlySpans warmupMinutes))) ∧
  (∀ size,
     batchSize = Some size →
     size ∉ [""; "1 month"; "1 quarter"; "1 year"] →
     getDateMonthSpansForYear config = Ok None ∧
     ∀ pipelineRunner settle,
       (run (module_exports pipelineRunner settle config) emptyWorld).1
       = Throw TypeError).
Proof.
  intros Hadv warmupMinutes batchSize. split.
  - intros Hnone. unfold getDateMonthSpansForYear. fold batchSize.
    rewrite Hadv, Hnone. cbn [deref]. rewrite bind_Ok.
    by rewrite bool_decide_true by auto.
  - intros size Hsize Hnot.
    assert (getDateMonthSpansForYear config = Ok None) as Hnone.
    { unfold getDateMonthSpansForYear. fold batchSize.
      rewrite Hadv, Hsize. cbn [deref]. rewrite bind_Ok.
      rewrite bool_decide_false.
      2:{ intros [?|[[= ->]|[= ->]]]; [done|..]; apply Hnot; set_solver. }
      rewrite bool_decide_false by (intros [= ->]; apply Hnot; set_solver).
      by rewrite bool_decide_false by (intros [= ->]; apply Hnot; set_solver). }
    split; [exact Hnone|]. intros pipelineRunner settle.
    rewrite route_outcome, Hnone, bind_Ok.
    destruct (truthy _).
    + destruct (Config.backtestResultExporter config ≫= Config.data); [|done].
      cbn [deref fmap result_fmap]. rewrite bind_Ok, run_execute. done.
    + rewrite bind_Ok, run_execute. done.
Qed.

(** Claim C8 on the batch size ['1 week']. *)
Lemma unrecognized_batchSize_example :
  getDateMonthSpansForYear (example_config true "1 week") = Ok None ∧
  ∀ pipelineRunner settle,
    (run (module_exports pipelineRunner settle (example_config true "1 week"))
       emptyWorld).1 = Throw TypeError.
Proof.
  eapply (proj2 (unrecognized_batchSize_gives_no_spans
                   (example_config true "1 week") _ eq_refl)).
  - reflexivity.
  - intros Hin. repeat (apply elem_of_cons in Hin as [Hin|Hin]; [discriminate|]).
    by apply elem_of_nil in Hin.
Defined.

(** Claim C7 fails as stated: not every non-negative warm-up leaves valid
    dates.  At 145 000 000 000 minutes the first span of the yearly table
    would start more than 8.64e15 milliseconds before the epoch, and its
    [from] is an invalid date. *)
Lemma huge_warmup_gives_invalid_dates : ¬ well_formed_at_every_warmup.
Proof.
  intros (_ & _ & ranges & _ & _ & _ & _ & Hw).
  destruct (Hw 145000000000) as [Hrows _]; [lia|].
  pose proof yearly_start_out_of_range as E.
  destruct (yearlySpans (Fin 145000000000)) as [|s ss]; [done|].
  cbn in E. injection E as E.
  apply Forall2_cons_inv_l in Hrows as (r & ranges' & [Hs _] & _).
  rewrite E in Hs. discriminate.
Qed.

(** Claim C7, amended.  For each of the monthly, quarterly and yearly
    tables there are nominal ranges of one, three and twelve calendar
    months, each ending no later than every later one begins, such that at
    every warm-up [w] from 0 to 144 000 000 000 minutes each span begins [w]
    minutes before its nominal start (at the nominal start itself when [w]
    is zero), ends at its nominal end, and begins before every later
    span. *)
Theorem span_tables_are_well_formed :
  well_formed_table (λ w, 0 ≤ w ≤ max_warmup) 1 monthlySpans ∧
  well_formed_table (λ w, 0 ≤ w ≤ max_warmup) 3 quarterlySpans ∧
  well_formed_table (λ w, 0 ≤ w ≤ max_warmup) 12 yearlySpans.
Proof. auto using monthly_table, quarterly_table, yearly_table. Qed.

(** Claim C7, amended, on the yearly table at a warm-up of 600 minutes:
    every span starts ten hours before its year, and the spans start one
    after the other. *)
Lemma span_tables_are_well_formed_example :
  ∃ ranges : list (Z * Z),
    Forall (calendar_range 12) ranges ∧
    Forall2 (λ s r, from s = DateMs (r.1 - 600 * 60000) ∧ moment (to s) = DateMs r.2)
      (yearlySpans (Fin 600)) ranges ∧
    StronglySorted
      (λ s s', ∃ a a', from s = DateMs a ∧ from s' = DateMs a' ∧ a < a')
      (yearlySpans (Fin 600)).
Proof.
  destruct (proj2 (proj2 span_tables_are_well_formed))
    as (ranges & _ & Hcal & _ & _ & Hw).
  destruct (Hw 600) as [Hrows Hsorted]; [unfold max_warmup; lia|].
  exists ranges. repeat split; assumption.
Defined.

(** Claim C10 on the sample reports. *)
Lemma batch_report_projects_total_report_example :
  ∃ bs' ret batch,
    getTotalPerformanceReport example_reports VUndef = Ok (bs', Some ret) ∧
    getBatchBacktestReport example_reports = Ok (Some batch) ∧
    get batch "minProfit" = get ret "minProfit" ∧
    get batch "maxProfit" = get ret "maxProfit".
Proof.
  destruct (batch_report_projects_total_report example_reports VUndef) as [H _];
    [discriminate|].
  destruct H as (bs' & ret & batch & H1 & H2 & _ & _ & H3 & H4 & _).
  - repeat constructor; by eexists.
  - by exists bs', ret, batch.
Defined.

(** * Further properties of the aggregators *)

Section AggregatorMore.

Implicit Types (bs : list report) (b : report) (t v : value) (k : string).

Lemma assigned_lookup_boundary e1 e2 s1 s2 s3 mn mx pp pl pt :
  let a := assigned e1 e2 s1 s2 s3 mn mx pp pl pt in
  a !! "endPrice" = Some e1 ∧ a !! "endTime" = Some e2 ∧
  a !! "startBalance" = Some s1 ∧ a !! "startPrice" = Some s2 ∧
  a !! "startTime" = Some s3.
Proof. repeat split; vm_compute; reflexivity. Qed.

Lemma assigned_dom e1 e2 s1 s2 s3 mn mx pp pl pt :
  dom (assigned e1 e2 s1 s2 s3 mn mx pp pl pt) = list_to_set derived.
Proof. unfold assigned, literal. by rewrite dom_list_to_map_L. Qed.

Lemma assigned_lookup_other e1 e2 s1 s2 s3 mn mx pp pl pt k :
  k ∉ derived → assigned e1 e2 s1 s2 s3 mn mx pp pl pt !! k = None.
Proof.
  intros Hk. apply not_elem_of_dom. rewrite assigned_dom.
  by rewrite elem_of_list_to_set.
Qed.

(** The outcome on reports that all carry a performance report, with every
    written property spelled out. *)
Lemma getTotal_explicit b bs bl t :
  Forall has_perf (b :: bs) →
  last (b :: bs) = Some bl →
  ∃ target ret,
    performanceReport (foldl sumReports b bs) = Some target ∧
    ret = Object_assign target (assigned
        (field bl "endPrice") (field bl "endTime")
        (field b "startBalance") (field b "startPrice") (field b "startTime")
        (Math_min (map (λ b, field b "profit") (b :: bs)))
        (Math_max (map (λ b, field b "profit") (b :: bs)))
        (len (filter (λ b, jsGe (field b "profit") (threshold t)) (b :: bs)))
        (len (filter (λ b, jsLt (field b "profit") (threshold t)) (b :: bs)))
        (len (b :: bs))) ∧
    getTotalPerformanceReport (b :: bs) t
    = Ok (match bs with
          | [] => [ {| performanceReport := Some ret;
                       tradingAdvisor := tradingAdvisor b |} ]
          | _ => b :: bs
          end, Some ret).
Proof.
  intros Hall Hl.
  assert (has_perf b) as Hb by (by inversion Hall).
  destruct (foldl_sumReports_has_perf b bs Hb) as [target Ht].
  destruct Hb as [pf Hpf].
  assert (has_perf bl) as [pl Hpl].
  { eapply Forall_forall in Hall; [exact Hall|]. by apply last_Some_elem_of. }
  unfold getTotalPerformanceReport. fold (threshold t).
  rewrite bool_decide_true by (cbn; lia).
  cbn [reduce1]. rewrite bind_Ok. cbv zeta.
  rewrite Hl. cbn [head mbind option_bind]. rewrite Hpl, Hpf.
  cbn [deref]. rewrite !fmap_Ok, !bind_Ok.
  rewrite mapM_profitOf_Ok by done. rewrite !fmap_Ok, !bind_Ok.
  rewrite !filterR_profitOf by done. rewrite !fmap_Ok, !bind_Ok.
  rewrite Ht. cbn [deref]. rewrite bind_Ok.
  eexists target, _. split; [done|]. split; [reflexivity|].
  unfold field. rewrite Hpl, Hpf. by destruct bs.
Qed.

End AggregatorMore.

(** Extra X1.  On a non-empty list of reports that all carry a performance
    report, the result takes [startBalance], [startPrice] and [startTime]
    from the first report and [endPrice] and [endTime] from the last one. *)
Theorem total_report_boundary_fields
    (bs : list report) (t : value) (first last_ : report) :
  Forall has_perf bs →
  head bs = Some first →
  last bs = Some last_ →
  ∃ bs' ret,
    getTotalPerformanceReport bs t = Ok (bs', Some ret) ∧
    get ret "startBalance" = field first "startBalance" ∧
    get ret "startPrice" = field first "startPrice" ∧
    get ret "startTime" = field first "startTime" ∧
    get ret "endPrice" = field last_ "endPrice" ∧
    get ret "endTime" = field last_ "endTime".
Proof.
  intros Hall Hhd Hl. destruct bs as [|b bs]; [done|]. injection Hhd as ->.
  destruct (getTotal_explicit first bs last_ t Hall Hl)
    as (target & ret & _ & Hret & ->).
  eexists _, ret. split; [reflexivity|]. subst ret.
  match goal with
  | |- context [assigned ?a1 ?a2 ?a3 ?a4 ?a5 ?a6 ?a7 ?a8 ?a9 ?a10] =>
      destruct (assigned_lookup_boundary a1 a2 a3 a4 a5 a6 a7 a8 a9 a10)
        as (H1 & H2 & H3 & H4 & H5)
  end.
  rewrite (get_assign_source _ _ _ _ H1), (get_assign_source _ _ _ _ H2),
    (get_assign_source _ _ _ _ H3), (get_assign_source _ _ _ _ H4),
    (get_assign_source _ _ _ _ H5).
  repeat split; reflexivity.
Qed.

Section NumberOrder.

Implicit Types (a b c : number).

Lemma Num_min_swap a b c : Num.min a (Num.min b c) = Num.min b (Num.min a c).
Proof.
  destruct a as [| |x|], b as [| |y|], c as [| |z|]; cbn; try reflexivity;
    repeat (match goal with
            | |- context [?p <? ?q] => destruct (Z.ltb_spec p q); cbn
            end);
    try reflexivity; try (f_equal; lia).
Qed.

Lemma Num_max_swap a b c : Num.max a (Num.max b c) = Num.max b (Num.max a c).
Proof.
  destruct a as [| |x|], b as [| |y|], c as [| |z|]; cbn; try reflexivity;
    repeat (match goal with
            | |- context [?p <? ?q] => destruct (Z.ltb_spec p q); cbn
            end);
    try reflexivity; try (f_equal; lia).
Qed.

Lemma Math_min_Permutation (l l' : list value) :
  l ≡ₚ l' → Math_min l = Math_min l'.
Proof.
  unfold Math_min. intros Hp. f_equal.
  induction Hp as [|v l l' _ IH|v w l|l l' l'' _ IH1 _ IH2]; cbn.
  - reflexivity.
  - by rewrite IH.
  - apply Num_min_swap.
  - by rewrite IH1.
Qed.

Lemma Math_max_Permutation (l l' : list value) :
  l ≡ₚ l' → Math_max l = Math_max l'.
Proof.
  unfold Math_max. intros Hp. f_equal.
  induction Hp as [|v l l' _ IH|v w l|l l' l'' _ IH1 _ IH2]; cbn.
  - reflexivity.
  - by rewrite IH.
  - apply Num_max_swap.
  - by rewrite IH1.
Qed.

(** Of two numbers exactly one of [a >= b] and [a < b] holds; with a NaN
    neither does. *)
Lemma geb_ltb a b :
  a ≠ NaN → b ≠ NaN → Num.geb a b = negb (Num.ltb a b).
Proof. by destruct a, b. Qed.

Lemma geb_NaN_l b : Num.geb NaN b = false.
Proof. reflexivity. Qed.
Lemma ltb_NaN_l b : Num.ltb NaN b = false.
Proof. reflexivity. Qed.
Lemma geb_NaN_r a : Num.geb a NaN = false.
Proof. by destruct a. Qed.
Lemma ltb_NaN_r a : Num.ltb a NaN = false.
Proof. by destruct a. Qed.

Lemma Num_min_NaN_r a : Num.min a NaN = NaN.
Proof. by destruct a. Qed.
Lemma Num_max_NaN_r a : Num.max a NaN = NaN.
Proof. by destruct a. Qed.

End NumberOrder.

Section AggregatorOrder.

Implicit Types (bs : list report) (b : report) (t v : value) (k : string).

Lemma has_perf_Permutation bs bs' :
  bs ≡ₚ bs' → Forall has_perf bs → Forall has_perf bs'.
Proof. intros Hp. by rewrite Hp. Qed.

End AggregatorOrder.

(** Extra X2.  The period counters and the profit extremes do not depend on
    the order of the reports: on two lists that are permutations of one
    another the function returns the same [periodsProfit], [periodsLoss],
    [periodsTotal], [minProfit] and [maxProfit]. *)
Theorem total_report_order_independent
    (bs bs' : list report) (t : value) :
  bs ≠ [] →
  bs ≡ₚ bs' →
  Forall has_perf bs →
  ∃ l ret l' ret',
    getTotalPerformanceReport bs t = Ok (l, Some ret) ∧
    getTotalPerformanceReport bs' t = Ok (l', Some ret') ∧
    get ret "periodsProfit" = get ret' "periodsProfit" ∧
    get ret "periodsLoss" = get ret' "periodsLoss" ∧
    get ret "periodsTotal" = get ret' "periodsTotal" ∧
    get ret "minProfit" = get ret' "minProfit" ∧
    get ret "maxProfit" = get ret' "maxProfit".
Proof.
  intros Hne Hp Hall.
  assert (Forall has_perf bs') as Hall' by (by eapply has_perf_Permutation).
  destruct bs as [|b bs]; [done|].
  destruct bs' as [|b' bs']; [by apply Permutation_nil_r in Hp|].
  destruct (getTotal_Ok b bs t Hall)
    as (target & e1 & e2 & s1 & s2 & s3 & ret & _ & Hret & ->).
  destruct (getTotal_Ok b' bs' t Hall')
    as (target' & e1' & e2' & s1' & s2' & s3' & ret' & _ & Hret' & ->).
  eexists _, ret, _, ret'. split; [reflexivity|]. split; [reflexivity|].
  subst ret ret'.
  repeat match goal with
  | |- context [assigned ?a1 ?a2 ?a3 ?a4 ?a5 ?a6 ?a7 ?a8 ?a9 ?a10] =>
      lazymatch goal with
      | H : assigned a1 a2 a3 a4 a5 a6 a7 a8 a9 a10 !! "minProfit" = _ |- _ => fail
      | _ => destruct (assigned_lookup a1 a2 a3 a4 a5 a6 a7 a8 a9 a10)
               as (? & ? & ? & ? & ? & _)
      end
  end.
  repeat (erewrite !get_assign_source by eassumption).
  rewrite (Math_min_Permutation _ _ (fmap_Permutation _ _ _ Hp)).
  rewrite (Math_max_Permutation _ _ (fmap_Permutation _ _ _ Hp)).
  unfold len.
  rewrite (Permutation_length (filter_Permutation _ _ _ Hp)).
  rewrite (Permutation_length (filter_Permutation _ _ _ Hp)).
  rewrite (Permutation_length Hp).
  repeat split; reflexivity.
Qed.

Section AggregatorCounts.

Implicit Types (bs : list report) (b : report) (t v : value) (k : string).

Lemma profit_cases (t : value) b :
  toNumber t ≠ NaN →
  (jsGe (field b "profit") t ∧ ¬ jsLt (field b "profit") t ∧ numeric_profit b)
  ∨ (¬ jsGe (field b "profit") t ∧ jsLt (field b "profit") t ∧ numeric_profit b)
  ∨ (¬ jsGe (field b "profit") t ∧ ¬ jsLt (field b "profit") t ∧ ¬ numeric_profit b).
Proof.
  intros Ht. unfold numeric_profit, jsGe, jsLt.
  destruct (decide (toNumber (field b "profit") = NaN)) as [Hn|Hn].
  - right. right. rewrite Hn. cbn. tauto.
  - rewrite (geb_ltb _ _ Hn Ht).
    destruct (Num.ltb (toNumber (field b "profit")) (toNumber t)); cbn; tauto.
Qed.

Lemma counts_split (t : value) bs :
  toNumber t ≠ NaN →
  (length (filter (λ b, jsGe (field b "profit") t) bs)
   + length (filter (λ b, jsLt (field b "profit") t) bs)
   + length (filter (λ b, ¬ numeric_profit b) bs))%nat
  = length bs.
Proof.
  intros Ht. induction bs as [|b bs IH]; [done|].
  rewrite !filter_cons.
  destruct (profit_cases t b Ht) as [(?&?&?)|[(?&?&?)|(?&?&?)]];
    repeat case_decide; try tauto; cbn [length]; lia.
Qed.

Lemma counts_NaN_threshold (t : value) bs :
  toNumber t = NaN →
  filter (λ b, jsGe (field b "profit") t) bs = [] ∧
  filter (λ b, jsLt (field b "profit") t) bs = [].
Proof.
  intros Ht. unfold jsGe, jsLt. rewrite Ht.
  split; induction bs as [|b bs IH]; try done; rewrite filter_cons;
    rewrite ?geb_NaN_r, ?ltb_NaN_r; by case_decide.
Qed.

Lemma Math_min_NaN (l : list value) :
  Exists (λ v, toNumber v = NaN) l → Math_min l = VNum NaN.
Proof.
  unfold Math_min. intros HE. f_equal.
  induction HE as [v l Hv|v l _ IH]; cbn.
  - by rewrite Hv.
  - by rewrite IH, Num_min_NaN_r.
Qed.

Lemma Math_max_NaN (l : list value) :
  Exists (λ v, toNumber v = NaN) l → Math_max l = VNum NaN.
Proof.
  unfold Math_max. intros HE. f_equal.
  induction HE as [v l Hv|v l _ IH]; cbn.
  - by rewrite Hv.
  - by rewrite IH, Num_max_NaN_r.
Qed.

(** [Math.min] of numbers, none of them NaN, is one of them and none is
    below it. *)
Lemma Math_min_numbers (v : value) (l : list value) :
  Forall (λ v, toNumber v ≠ NaN) (v :: l) →
  ∃ m, Math_min (v :: l) = VNum m ∧ m ≠ NaN ∧
       m ∈ toNumber <$> (v :: l) ∧
       Forall (λ w, Num.ltb (toNumber w) m = false) (v :: l).
Proof.
  unfold Math_min. revert v. induction l as [|w l IH]; intros v Hall.
  - apply Forall_cons in Hall as [Hv _]. exists (toNumber v).
    cbn. destruct (toNumber v) eqn:E; try done;
      (split; [done|split; [done|split; [rewrite <- E; apply list_elem_of_here|]]]);
      repeat constructor; rewrite E; cbn; try done. apply Z.ltb_irrefl.
  - apply Forall_cons in Hall as [Hv Hall].
    destruct (IH w Hall) as (m & Hm & Hmn & Hin & Hle).
    injection Hm as Hm. cbn [foldr] in *. rewrite Hm.
    exists (Num.min (toNumber v) m).
    assert (Num.min (toNumber v) m = toNumber v ∧ Num.ltb m (toNumber v) = false
            ∨ Num.min (toNumber v) m = m ∧ Num.ltb m (toNumber v) = true) as Hcase.
    { destruct (toNumber v), m; cbn; try done; try tauto.
      destruct (Z.ltb_spec z0 z); tauto. }
    split; [done|].
    destruct Hcase as [[-> Hlt]|[-> Hlt]].
    + split; [done|]. split; [apply list_elem_of_here|].
      constructor.
      * destruct (toNumber v); try done. apply Z.ltb_irrefl.
      * eapply Forall_impl; [exact Hle|]. cbn. intros x Hx.
        destruct (toNumber x), m, (toNumber v); cbn in *; try done.
        destruct (Z.ltb_spec z z1), (Z.ltb_spec z z0), (Z.ltb_spec z0 z1);
          try done; lia.
    + split; [done|]. split; [by apply list_elem_of_further|].
      constructor; [|done].
      destruct (toNumber v), m; cbn in *; try done.
      destruct (Z.ltb_spec z z0), (Z.ltb_spec z0 z); try done; lia.
Qed.

Lemma Math_max_numbers (v : value) (l : list value) :
  Forall (λ v, toNumber v ≠ NaN) (v :: l) →
  ∃ m, Math_max (v :: l) = VNum m ∧ m ≠ NaN ∧
       m ∈ toNumber <$> (v :: l) ∧
       Forall (λ w, Num.ltb m (toNumber w) = false) (v :: l).
Proof.
  unfold Math_max. revert v. induction l as [|w l IH]; intros v Hall.
  - apply Forall_cons in Hall as [Hv _]. exists (toNumber v).
    cbn. destruct (toNumber v) eqn:E; try done;
      (split; [done|split; [done|split; [rewrite <- E; apply list_elem_of_here|]]]);
      repeat constructor; rewrite E; cbn; try done. apply Z.ltb_irrefl.
  - apply Forall_cons in Hall as [Hv Hall].
    destruct (IH w Hall) as (m & Hm & Hmn & Hin & Hle).
    injection Hm as Hm. cbn [foldr] in *. rewrite Hm.
    exists (Num.max (toNumber v) m).
    assert (Num.max (toNumber v) m = toNumber v ∧ Num.ltb (toNumber v) m = false
            ∨ Num.max (toNumber v) m = m ∧ Num.ltb (toNumber v) m = true) as Hcase.
    { destruct (toNumber v), m; cbn; try done; try tauto.
      destruct (Z.ltb_spec z z0); tauto. }
    split; [done|].
    destruct Hcase as [[-> Hlt]|[-> Hlt]].
    + split; [done|]. split; [apply list_elem_of_here|].
      constructor.
      * destruct (toNumber v); try done. apply Z.ltb_irrefl.
      * eapply Forall_impl; [exact Hle|]. cbn. intros x Hx.
        destruct (toNumber x), m, (toNumber v); cbn in *; try done.
        destruct (Z.ltb_spec z1 z), (Z.ltb_spec z0 z), (Z.ltb_spec z1 z0);
          try done; lia.
    + split; [done|]. split; [by apply list_elem_of_further|].
      constructor; [|done].
      destruct (toNumber v), m; cbn in *; try done.
      destruct (Z.ltb_spec z z0), (Z.ltb_spec z0 z); try done; lia.
Qed.

End AggregatorCounts.

Section AggregatorObjects.

Implicit Types (bs : list report) (b : report) (t v : value) (k : string).

Lemma sumReports_dom a b :
  ∃ o, performanceReport (sumReports a b) = Some o ∧ dom o = list_to_set summed.
Proof.
  eexists. split; [reflexivity|]. unfold literal. by rewrite dom_list_to_map_L.
Qed.

Lemma foldl_sumReports_dom a b bs :
  ∃ o, performanceReport (foldl sumReports a (b :: bs)) = Some o
       ∧ dom o = list_to_set summed.
Proof.
  cbn [foldl]. generalize a b. induction bs as [|b' bs IH]; intros a0 b0.
  - apply sumReports_dom.
  - cbn [foldl]. apply IH.
Qed.

End AggregatorObjects.

(** Extra X3.  [periodsProfit], [periodsLoss] and the reports whose profit
    is not a number (missing or NaN) add up to [periodsTotal], the length of
    the list; with a threshold that is NaN both counters are zero. *)
Theorem period_counters_partition (bs : list report) (t : value) :
  bs ≠ [] →
  Forall has_perf bs →
  ∃ bs' ret (p l : nat),
    getTotalPerformanceReport bs t = Ok (bs', Some ret) ∧
    get ret "periodsProfit" = VNum (Fin (Z.of_nat p)) ∧
    get ret "periodsLoss" = VNum (Fin (Z.of_nat l)) ∧
    get ret "periodsTotal" = VNum (Fin (Z.of_nat (length bs))) ∧
    (toNumber (threshold t) ≠ NaN →
       (p + l + length (filter (λ b, ¬ numeric_profit b) bs))%nat = length bs) ∧
    (toNumber (threshold t) = NaN → p = 0%nat ∧ l = 0%nat).
Proof.
  intros Hne Hall. destruct bs as [|b bs]; [done|].
  destruct (getTotal_Ok b bs t Hall)
    as (target & e1 & e2 & s1 & s2 & s3 & ret & _ & Hret & ->).
  match type of Hret with
  | _ = Object_assign _ (assigned ?a1 ?a2 ?a3 ?a4 ?a5 ?a6 ?a7 ?a8 ?a9 ?a10) =>
      destruct (assigned_lookup a1 a2 a3 a4 a5 a6 a7 a8 a9 a10)
        as (_ & _ & Hpp & Hpl & Hpt & _)
  end.
  eexists _, ret, _, _. split; [reflexivity|]. subst ret.
  rewrite (get_assign_source _ _ _ _ Hpp), (get_assign_source _ _ _ _ Hpl),
    (get_assign_source _ _ _ _ Hpt).
  split; [reflexivity|]. split; [reflexivity|]. split; [reflexivity|]. split.
  - intros Ht. by apply counts_split.
  - intros Ht. destruct (counts_NaN_threshold (threshold t) (b :: bs) Ht) as [-> ->].
    done.
Qed.

(** Extra X4.  When the profit of some report is not a number, [minProfit]
    and [maxProfit] are both NaN.  When every profit is a number, they are
    the profits of two of the reports, no profit is below [minProfit] and
    none is above [maxProfit]. *)
Theorem profit_extremes (bs : list report) (t : value) :
  bs ≠ [] →
  Forall has_perf bs →
  ∃ bs' ret,
    getTotalPerformanceReport bs t = Ok (bs', Some ret) ∧
    (Exists (λ b, ¬ numeric_profit b) bs →
       get ret "minProfit" = VNum NaN ∧ get ret "maxProfit" = VNum NaN) ∧
    (Forall numeric_profit bs →
       ∃ lo hi,
         get ret "minProfit" = VNum lo ∧ get ret "maxProfit" = VNum hi ∧
         lo ≠ NaN ∧ hi ≠ NaN ∧
         (∃ b, b ∈ bs ∧ toNumber (field b "profit") = lo) ∧
         (∃ b, b ∈ bs ∧ toNumber (field b "profit") = hi) ∧
         Forall (λ b, Num.ltb (toNumber (field b "profit")) lo = false
                      ∧ Num.ltb hi (toNumber (field b "profit")) = false) bs).
Proof.
  intros Hne Hall. destruct bs as [|b bs]; [done|].
  destruct (getTotal_Ok b bs t Hall)
    as (target & e1 & e2 & s1 & s2 & s3 & ret & _ & Hret & ->).
  match type of Hret with
  | _ = Object_assign _ (assigned ?a1 ?a2 ?a3 ?a4 ?a5 ?a6 ?a7 ?a8 ?a9 ?a10) =>
      destruct (assigned_lookup a1 a2 a3 a4 a5 a6 a7 a8 a9 a10)
        as (Hmn & Hmx & _)
  end.
  eexists _, ret. split; [reflexivity|]. subst ret.
  rewrite (get_assign_source _ _ _ _ Hmn), (get_assign_source _ _ _ _ Hmx).
  set (profits := map (λ b, field b "profit") (b :: bs)).
  split.
  - intros HE.
    assert (Exists (λ v, toNumber v = NaN) profits) as HE'.
    { subst profits. apply Exists_exists in HE as (x & Hx & Hnx).
      apply Exists_exists. exists (field x "profit"). split.
      - apply list_elem_of_fmap. by exists x.
      - unfold numeric_profit in Hnx. by destruct (decide (toNumber (field x "profit") = NaN)). }
    by rewrite Math_min_NaN, Math_max_NaN.
  - intros HF.
    assert (Forall (λ v, toNumber v ≠ NaN) profits) as HF'.
    { subst profits. apply Forall_fmap. exact HF. }
    subst profits. cbn [map] in *.
    destruct (Math_min_numbers _ _ HF') as (lo & -> & Hlo & Hinlo & Hlelo).
    destruct (Math_max_numbers _ _ HF') as (hi & -> & Hhi & Hinhi & Hlehi).
    exists lo, hi. do 4 (split; [done|]).
    change (field b "profit" :: map (λ b, field b "profit") bs)
      with ((λ b, field b "profit") <$> (b :: bs)) in *.
    rewrite <- list_fmap_compose in Hinlo, Hinhi.
    apply list_elem_of_fmap in Hinlo as (x & -> & Hx).
    apply list_elem_of_fmap in Hinhi as (y & -> & Hy).
    split; [by exists x|]. split; [by exists y|].
    apply Forall_fmap in Hlelo, Hlehi.
    apply Forall_forall. intros z Hz. split.
    + by eapply Forall_forall in Hlelo.
    + by eapply Forall_forall in Hlehi.
Qed.

(** Extra X5.  With two reports or more the function leaves the reports as
    they are and returns an object of its own holding exactly the five sums
    and the ten derived properties. *)
Theorem several_reports_are_left_untouched
    (b1 b2 : report) (bs : list report) (t : value) :
  Forall has_perf (b1 :: b2 :: bs) →
  ∃ ret,
    getTotalPerformanceReport (b1 :: b2 :: bs) t = Ok (b1 :: b2 :: bs, Some ret) ∧
    dom ret = list_to_set (summed ++ derived).
Proof.
  intros Hall.
  destruct (getTotal_Ok b1 (b2 :: bs) t Hall)
    as (target & e1 & e2 & s1 & s2 & s3 & ret & Ht & Hret & ->).
  exists ret. split; [reflexivity|].
  destruct (foldl_sumReports_dom b1 b2 bs) as (o & Ho & Hdom).
  rewrite Ho in Ht. injection Ht as ->.
  subst ret. unfold Object_assign.
  rewrite dom_union_L, assigned_dom, Hdom, list_to_set_app_L. apply (comm_L (∪)).
Qed.

(** Extra X6.  With a single report the function writes the ten derived
    properties into the performance report of that very report and returns
    it: the list handed back holds the returned object, every other
    property of the report is kept as it was, and no sum is computed (a
    missing field stays missing). *)
Theorem single_report_is_written_into (b : report) (pf : obj) (t : value) :
  performanceReport b = Some pf →
  ∃ ret,
    getTotalPerformanceReport [b] t
    = Ok ([ {| performanceReport := Some ret; tradingAdvisor := tradingAdvisor b |} ],
          Some ret) ∧
    (∀ k, k ∉ derived → ret !! k = pf !! k) ∧
    dom ret = dom pf ∪ list_to_set derived.
Proof.
  intros Hpf.
  assert (Forall has_perf [b]) as Hall by (repeat constructor; by eexists).
  destruct (getTotal_Ok b [] t Hall)
    as (target & e1 & e2 & s1 & s2 & s3 & ret & Ht & Hret & ->).
  cbn in Ht. rewrite Hpf in Ht. injection Ht as <-.
  exists ret. split; [reflexivity|]. subst ret. unfold Object_assign. split.
  - intros k Hk. by rewrite lookup_union_r by (by apply assigned_lookup_other).
  - rewrite dom_union_L, assigned_dom. apply (comm_L (∪)).
Qed.

(** * The summary of the advisor statistics *)

Section Summary.

Implicit Types (bs : list report) (b : report) (t v : value) (k : string).




Lemma mapM_stats_Ok bs :
  Forall has_advisor bs →
  mapM (λ b, stats <$> deref (tradingAdvisor b)) bs = Ok (map statsOf bs).
Proof.
  induction 1 as [|b bs [a Ha] _ IH]; [done|].
  rewrite mapM_cons, IH. cbn [map]. unfold statsOf. by rewrite Ha.
Qed.

Lemma mapM_stats_Throw bs :
  ¬ Forall has_advisor bs →
  mapM (λ b, stats <$> deref (tradingAdvisor b)) bs = Throw TypeError.
Proof.
  induction bs as [|b bs IH]; intros Hn.
  - destruct Hn. constructor.
  - rewrite mapM_cons. destruct (tradingAdvisor b) as [a|] eqn:Ha; [|done].
    rewrite IH; [done|]. intros HF. apply Hn. constructor; [by exists a|done].
Qed.

Lemma omap_id_map {A B} (f : A → option B) (l : list A) :
  omap id (map f l) = omap f l.
Proof. induction l as [|x l IH]; [done|]. cbn. rewrite IH. by destruct (f x). Qed.

End Summary.


(** Extra X8.  Building the response fails with a TypeError as soon as one
    backtest has no [tradingAdvisor], also when every backtest carries a
    performance report, so that both aggregate reports could be made. *)
Theorem response_needs_tradingAdvisor (bs : list report) (t : value) :
  Exists (λ b, tradingAdvisor b = None) bs →
  buildResponse bs t = Throw TypeError.
Proof.
  intros HE.
  assert (¬ Forall has_advisor bs) as Hn.
  { intros HF. apply Exists_exists in HE as (b & Hb & Hnone).
    eapply Forall_forall in HF as [a Ha]; [|exact Hb]. congruence. }
  unfold buildResponse.
  destruct (decide (Forall has_perf bs)) as [Hall|Hall].
  - destruct bs as [|b bs]; [by apply Exists_nil in HE|].
    destruct (getTotal_Ok b bs t Hall)
      as (target & e1 & e2 & s1 & s2 & s3 & ret & Ht & Hret & ->).
    rewrite bind_Ok.
    assert (∀ l, map tradingAdvisor l = map tradingAdvisor (b :: bs) →
                 (batchReport ← getBatchBacktestReport l;
                  stats ← mapM (λ b, stats <$> deref (tradingAdvisor b)) l;
                  Ok {| Response.backtests := l;
                        Response.performanceReport := Some ret;
                        Response.batchReport := batchReport;
                        Response.fakeReport := getFakeReport (omap id stats) |})
                 = Throw TypeError) as Hl.
    { intros l Hmap.
      destruct (getBatchBacktestReport l) as [batch|[]] eqn:Hbatch; [|done|].
      - rewrite bind_Ok, mapM_stats_Throw; [done|].
        intros HF. apply Hn. apply Forall_forall. intros x Hx.
        apply (list_elem_of_fmap_2 tradingAdvisor) in Hx.
        change (tradingAdvisor <$> b :: bs) with (map tradingAdvisor (b :: bs)) in Hx.
        rewrite <- Hmap in Hx. apply list_elem_of_fmap in Hx as (y & Hy & Hyl).
        eapply Forall_forall in HF as [a Ha]; [|exact Hyl].
        exists a. congruence.
      - exfalso. unfold getBatchBacktestReport in Hbatch.
        destruct (mapM profitOf l) as [ps|e] eqn:Hm.
        + rewrite bind_Ok in Hbatch. by case_bool_decide.
        + destruct (decide (Forall has_perf l)) as [Hp|Hp].
          * by rewrite mapM_profitOf_Ok in Hm.
          * rewrite mapM_profitOf_Throw in Hm by done. by injection Hm as <-. }
    apply Hl. by destruct bs.
  - destruct bs as [|b bs]; [by apply Exists_nil in HE|].
    by rewrite getTotal_Throw.
Qed.

(** The response built from backtests that all carry a performance report
    and a [tradingAdvisor]. *)
Lemma buildResponse_Ok (b : report) (bs : list report) (t : value) :
  Forall has_perf (b :: bs) →
  Forall has_advisor (b :: bs) →
  ∃ bs' ret,
    getTotalPerformanceReport (b :: bs) t = Ok (bs', Some ret) ∧
    buildResponse (b :: bs) t
    = Ok {| Response.backtests := bs';
            Response.performanceReport := Some ret;
            Response.batchReport :=
              Some (literal [
                ("minProfit", Math_min (map (λ b, field b "profit") (b :: bs)));
                ("maxProfit", Math_max (map (λ b, field b "profit") (b :: bs))) ]);
            Response.fakeReport := getFakeReport (omap statsOf (b :: bs)) |}.
Proof.
  intros Hall Hadv.
  destruct (getTotal_Ok b bs t Hall)
    as (target & e1 & e2 & s1 & s2 & s3 & ret & Ht & Hret & Hrun).
  unfold buildResponse. rewrite Hrun, bind_Ok.
  set (bs' := match bs with
              | [] => [ {| performanceReport := Some ret;
                           tradingAdvisor := tradingAdvisor b |} ]
              | _ => b :: bs
              end).
  assert (Forall has_perf bs') as Hall'.
  { subst bs'. destruct bs; [|done]. repeat constructor. by eexists. }
  assert (map statsOf bs' = map statsOf (b :: bs)) as Hstats.
  { subst bs'. by destruct bs. }
  assert (map (λ b, field b "profit") bs' = map (λ b, field b "profit") (b :: bs))
    as Hprofit.
  { subst bs'. destruct bs; [|done]. cbn [map]. f_equal.
    change (field {| performanceReport := Some ret;
                     tradingAdvisor := tradingAdvisor b |} "profit")
      with (get ret "profit").
    match type of Hret with
    | _ = Object_assign _ (assigned ?a1 ?a2 ?a3 ?a4 ?a5 ?a6 ?a7 ?a8 ?a9 ?a10) =>
        destruct (assigned_lookup a1 a2 a3 a4 a5 a6 a7 a8 a9 a10)
          as (_ & _ & _ & _ & _ & Hsum)
    end.
    subst ret. rewrite get_assign_target
      by (apply Hsum; unfold summed; apply list_elem_of_further, list_elem_of_here).
    cbn in Ht. unfold field. by rewrite Ht. }
  assert (Forall has_advisor bs') as Hadv'.
  { subst bs'. destruct bs; [|done]. apply Forall_cons in Hadv as [Hb _].
    repeat constructor. exact Hb. }
  assert (bs' ≠ []) as Hne by (subst bs'; by destruct bs).
  clearbody bs'. destruct bs' as [|b' bs'']; [done|].
  rewrite getBatch_Ok by done. rewrite bind_Ok, mapM_stats_Ok by done.
  rewrite bind_Ok, omap_id_map, Hprofit.
  eexists (b' :: bs''), ret. split; [reflexivity|].
  do 2 f_equal.
  rewrite <- (omap_id_map statsOf (b' :: bs'')), <- (omap_id_map statsOf (b :: bs)).
  by rewrite Hstats.
Qed.

(** Extra X9.  On backtests that all carry a performance report and a
    [tradingAdvisor], the response is built.  It holds the backtests as
    [getTotalPerformanceReport] leaves them (as many as were collected, the
    very same ones when there are two or more), the total report that
    [getTotalPerformanceReport] returns on them, the batch report that
    [getBatchBacktestReport] returns on them, and the summary of
    [getFakeReport] over the statistics of the backtests in their order, the
    backtests whose [stats] is undefined being left out. *)
Theorem response_of_complete_backtests (bs : list report) (t : value) :
  bs ≠ [] →
  Forall has_perf bs →
  Forall has_advisor bs →
  ∃ bs' ret batch,
    getTotalPerformanceReport bs t = Ok (bs', Some ret) ∧
    getBatchBacktestReport bs = Ok (Some batch) ∧
    buildResponse bs t
    = Ok {| Response.backtests := bs';
            Response.performanceReport := Some ret;
            Response.batchReport := Some batch;
            Response.fakeReport := getFakeReport (omap statsOf bs) |} ∧
    length bs' = length bs ∧
    ((2 ≤ length bs)%nat → bs' = bs).
Proof.
  intros Hne Hall Hadv. destruct bs as [|b bs]; [done|].
  destruct (buildResponse_Ok b bs t Hall Hadv) as (bs' & ret & Htot & ->).
  rewrite getBatch_Ok by done.
  exists bs', ret. eexists. split; [exact Htot|]. split; [reflexivity|].
  split; [reflexivity|].
  destruct (getTotal_Ok b bs t Hall)
    as (target & e1 & e2 & s1 & s2 & s3 & ret' & _ & _ & Hrun).
  rewrite Hrun in Htot. apply (f_equal (fmap fst)) in Htot.
  cbn [fmap result_fmap fst] in Htot. injection Htot as <-.
  split; [by destruct bs|].
  intros Hlen. destruct bs; [cbn in Hlen; lia|done].
Qed.

(** * Further properties of the route *)

Section RouteMore.

Variable pipelineRunner : string → request → result report.

(** The sequential loop, when the pipeline succeeds on the spans [pre] and
    fails on the next one: the calls made, and the store left behind. *)
Lemma sequential_run_fail mode config pre s post rs backtests w c bt e :
  configObjs w !! config = Some c → Config.backtest c = Some bt →
  Forall2 (λ s r, pipelineRunner mode (requestFor (spanObjs w) c s) = Ok r) pre rs →
  pipelineRunner mode (requestFor (spanObjs w) c s) = Throw e →
  run (sequential pipelineRunner mode config (pre ++ s :: post) backtests) w
  = (Throw e,
     {| spanObjs := spanObjs w;
        configObjs := <[config := Config.with_daterange (Config.SpanRef s) c]> (configObjs w);
        dispatched := dispatched w ++ replicate (S (length pre)) config |}).
Proof.
  intros Hc Hbt HF Hs. revert rs backtests w c bt Hc Hbt Hs HF.
  induction pre as [|p pre IH]; intros rs backtests w c bt Hc Hbt Hs HF.
  - cbn [app sequential]. rewrite run_bind, (run_setDaterange _ _ _ _ _ Hc Hbt).
    assert (config < length (configObjs w))%nat as Hlt by (by eapply lookup_lt_Some).
    rewrite run_bind,
      (run_invoke _ _ _ _ (Config.with_daterange (Config.SpanRef s) c))
      by (cbn; by apply list_lookup_insert_eq).
    rewrite run_bind. cbn [await lift run].
    change (spanOf _ _) with (spanObjs w !! s).
    change {| req_config := _; req_span := _ |} with (requestFor (spanObjs w) c s).
    by rewrite Hs.
  - apply Forall2_cons_inv_l in HF as (r & rs' & Hp & HF & ->).
    cbn [app sequential]. rewrite run_bind, (run_setDaterange _ _ _ _ _ Hc Hbt).
    assert (config < length (configObjs w))%nat as Hlt by (by eapply lookup_lt_Some).
    rewrite run_bind,
      (run_invoke _ _ _ _ (Config.with_daterange (Config.SpanRef p) c))
      by (cbn; by apply list_lookup_insert_eq).
    rewrite run_bind. cbn [await lift run].
    change (spanOf _ _) with (spanObjs w !! p).
    change {| req_config := _; req_span := _ |} with (requestFor (spanObjs w) c p).
    rewrite Hp.
    erewrite (IH rs' _ _ (Config.with_daterange (Config.SpanRef p) c)
                {| Config.daterange := Config.SpanRef p |});
      [|cbn; by apply list_lookup_insert_eq|reflexivity|exact Hs|exact HF].
    cbn [spanObjs configObjs dispatched length].
    rewrite list_insert_insert_eq, <- app_assoc. reflexivity.
Qed.

(** The sequential loop when the pipeline succeeds on every span. *)
Lemma sequential_run_ok mode config dateSpans rs backtests w c bt :
  configObjs w !! config = Some c → Config.backtest c = Some bt →
  Forall2 (λ s r, pipelineRunner mode (requestFor (spanObjs w) c s) = Ok r) dateSpans rs →
  run (sequential pipelineRunner mode config dateSpans backtests) w
  = (Ok (backtests ++ rs),
     {| spanObjs := spanObjs w;
        configObjs :=
          match last dateSpans with
          | Some s => <[config := Config.with_daterange (Config.SpanRef s) c]> (configObjs w)
          | None => configObjs w
          end;
        dispatched := dispatched w ++ replicate (length dateSpans) config |}).
Proof.
  intros Hc Hbt HF. revert rs backtests w c bt Hc Hbt HF.
  induction dateSpans as [|p dateSpans IH]; intros rs backtests w c bt Hc Hbt HF.
  - apply Forall2_nil_inv_l in HF as ->. cbn. rewrite !app_nil_r. by destruct w.
  - apply Forall2_cons_inv_l in HF as (r & rs' & Hp & HF & ->).
    cbn [sequential]. rewrite run_bind, (run_setDaterange _ _ _ _ _ Hc Hbt).
    assert (config < length (configObjs w))%nat as Hlt by (by eapply lookup_lt_Some).
    rewrite run_bind,
      (run_invoke _ _ _ _ (Config.with_daterange (Config.SpanRef p) c))
      by (cbn; by apply list_lookup_insert_eq).
    rewrite run_bind. cbn [await lift run].
    change (spanOf _ _) with (spanObjs w !! p).
    change {| req_config := _; req_span := _ |} with (requestFor (spanObjs w) c p).
    rewrite Hp.
    erewrite (IH rs' _ _ (Config.with_daterange (Config.SpanRef p) c)
                {| Config.daterange := Config.SpanRef p |});
      [|cbn; by apply list_lookup_insert_eq|reflexivity|exact HF].
    cbn [spanObjs configObjs dispatched length].
    rewrite <- !app_assoc. cbn [app]. f_equal. f_equal.
    destruct dateSpans as [|q dateSpans]; [done|].
    rewrite last_cons_cons.
    destruct (last (q :: dateSpans)) eqn:Hl; [|by apply last_None in Hl].
    by rewrite list_insert_insert_eq.
Qed.

(** The route once the spans [ss] are made: the outcome of [execute] on the
    prepared store goes into [buildResponse]. *)
Lemma run_route_dispatching settle merged ss :
  dispatches merged ss →
  run (module_exports pipelineRunner settle merged) emptyWorld
  = (let x := run (execute pipelineRunner settle "backtest" 0
                     (Some (seq 0 (length ss))))
                  (dispatching ss (configured "backtest" merged)) in
     (x.1 ≫= λ backtests,
        buildResponse backtests
          (jsOr (batchOption merged Config.batchPeriodProfitThreshold) (VNum (Fin 0))),
      x.2)).
Proof.
  intros (Hspans & Hbig & _). unfold module_exports. cbv zeta.
  rewrite run_bind, run_prepare. cbv zeta. unfold configured.
  change (getDateMonthSpansForYear (Config.with_mode "backtest" merged))
    with (getDateMonthSpansForYear merged).
  change (batchOption (Config.with_mode "backtest" merged)) with (batchOption merged).
  change (Config.backtestResultExporter (Config.with_mode "backtest" merged))
    with (Config.backtestResultExporter merged).
  rewrite Hspans. cbn [default fmap option_fmap option_map].
  set (thr := jsOr _ _).
  assert (∀ c, run (backtests ← execute pipelineRunner settle "backtest" 0
                                  (Some (seq 0 (length ss)));
                    lift (buildResponse backtests thr)) (dispatching ss c)
               = ((run (execute pipelineRunner settle "backtest" 0
                          (Some (seq 0 (length ss)))) (dispatching ss c)).1
                  ≫= (λ backtests, buildResponse backtests thr),
                  (run (execute pipelineRunner settle "backtest" 0
                          (Some (seq 0 (length ss)))) (dispatching ss c)).2)) as Hrun.
  { intros c. rewrite run_bind.
    by destruct (run (execute _ _ _ _ _) _) as [[bs|e] w]. }
  destruct (truthy (batchOption merged Config.noBigData)).
  - destruct (Hbig I) as [d ->]. apply Hrun.
  - apply Hrun.
Qed.

Lemma run_execute_sequential settle ss c refs :
  truthy (batchOption c Config.synchronous) = true →
  run (execute pipelineRunner settle "backtest" 0 (Some refs)) (dispatching ss c)
  = run (sequential pipelineRunner "backtest" 0 refs []) (dispatching ss c).
Proof.
  intros Hflag. unfold execute. rewrite run_bind.
  cbn [run readConfig dispatching configObjs lookup list_lookup deref].
  rewrite Hflag. rewrite run_bind. reflexivity.
Qed.

Lemma run_execute_concurrent settle ss c bt refs :
  truthy (batchOption c Config.synchronous) = false →
  Config.backtest c = Some bt →
  run (execute pipelineRunner settle "backtest" 0 (Some refs)) (dispatching ss c)
  = (Promise_all settle
       (map (λ s, pipelineRunner "backtest" (requestFor ss (jsonConfig ss c) s)) refs),
     {| spanObjs := ss;
        configObjs :=
          c :: map (λ s, Config.with_daterange (Config.SpanRef s) (jsonConfig ss c)) refs;
        dispatched := seq 1 (length refs) |}).
Proof.
  intros Hflag Hbt. unfold execute. rewrite run_bind.
  cbn [run readConfig dispatching configObjs lookup list_lookup deref].
  rewrite Hflag. rewrite run_bind. cbn [run lift deref]. rewrite run_bind.
  erewrite concurrent_run by done. by destruct (Promise_all _ _).
Qed.

Lemma configured_backtest mode merged :
  Config.backtest (configured mode merged) = Config.backtest merged.
Proof. unfold configured. by destruct (truthy _). Qed.

Lemma configured_synchronous mode merged :
  batchOption (configured mode merged) Config.synchronous
  = batchOption merged Config.synchronous.
Proof. unfold configured. by destruct (truthy _). Qed.

End RouteMore.

(** * Further properties of the span tables *)

Lemma consecutive_lookup {A} (P : A → A → Prop) (l : list A) :
  Forall (λ p, P p.1 p.2) (zip l (tail l)) →
  ∀ i x y, l !! i = Some x → l !! S i = Some y → P x y.
Proof.
  induction l as [|a l IH]; intros HF i x y Hx Hy; [done|].
  destruct l as [|b l]; [done|].
  cbn [tail zip zip_with] in HF. apply Forall_cons in HF as [Hab HF].
  destruct i as [|i].
  - cbn in Hx, Hy. injection Hx as <-. injection Hy as <-. exact Hab.
  - apply (IH HF i); done.
Qed.

(** Extra X10.  In each of the three tables the spans follow one another
    without a gap: whatever the warm-up is, each span starts exactly the
    warm-up before the end of the span before it. *)
Theorem span_tables_are_contiguous (w : number) :
  contiguous w (monthlySpans w) ∧
  contiguous w (quarterlySpans w) ∧
  contiguous w (yearlySpans w).
Proof.
  pose (P := λ s s' : span, from s' = subtract (moment (to s)) w minutes).
  split; [|split]; intros i s s'; revert i s s'; apply (consecutive_lookup P).
  - unfold monthlySpans. cbn [tail zip zip_with]. repeat constructor.
  - unfold quarterlySpans. cbn [tail zip zip_with]. repeat constructor.
  - unfold yearlySpans. cbn [tail zip zip_with]. repeat constructor.
Qed.

Section RouteFlow.

Variable pipelineRunner : string → request → result report.

Lemma Forall2_of_exists {A B} (P : A → B → Prop) (l : list A) :
  (∀ x, x ∈ l → ∃ y, P x y) → ∃ ys, Forall2 P l ys.
Proof.
  induction l as [|x l IH]; intros H.
  - exists []. constructor.
  - destruct (H x (list_elem_of_here _ _)) as [y Hy].
    destruct IH as [ys Hys].
    { intros z Hz. apply H. by apply list_elem_of_further. }
    exists (y :: ys). by constructor.
Qed.

Lemma seq_split (i n : nat) :
  (i < n)%nat → seq 0 n = seq 0 i ++ i :: seq (S i) (n - S i).
Proof.
  intros Hi. replace n with (i + S (n - S i))%nat at 1 by lia.
  by rewrite seq_app.
Qed.

Lemma mapM_Forall2_Ok {A B} (f : A → result B) (l : list A) (rs : list B) :
  Forall2 (λ x r, f x = Ok r) l rs → mapM f l = Ok rs.
Proof.
  induction 1 as [|x r l rs Hx _ IH]; [done|].
  by rewrite mapM_cons, Hx, bind_Ok, IH.
Qed.

Lemma Promise_all_Ok {A B} (settle : list nat) (f : A → result B)
    (l : list A) (rs : list B) :
  Forall2 (λ x r, f x = Ok r) l rs → Promise_all settle (map f l) = Ok rs.
Proof.
  intros HF. unfold Promise_all.
  destruct (omap _ settle) as [|e es] eqn:Hr.
  - rewrite mapM_id_map. by apply mapM_Forall2_Ok.
  - assert (e ∈ e :: es) as Hin by apply list_elem_of_here.
    rewrite <- Hr in Hin. apply list_elem_of_omap in Hin as (i & _ & Hi).
    rewrite list_lookup_fmap in Hi.
    destruct (l !! i) as [x|] eqn:Hx; [|done]. cbn in Hi.
    destruct (Forall2_lookup_l _ _ _ _ _ HF Hx) as (r & _ & Hfx).
    by rewrite Hfx in Hi.
Qed.

Lemma Promise_all_first {A B} (f : A → result B) (l : list A)
    (pre post : list nat) (i : nat) (x : A) (e : error) :
  (∀ j y, j ∈ pre → l !! j = Some y → ∃ r, f y = Ok r) →
  l !! i = Some x → f x = Throw e →
  Promise_all (pre ++ i :: post) (map f l) = Throw e.
Proof.
  intros Hpre Hx Hfx. unfold Promise_all.
  rewrite omap_app.
  match goal with |- context [omap ?g pre] => assert (omap g pre = []) as -> end.
  { induction pre as [|j pre IH]; [done|].
    cbn [omap list_omap]. rewrite list_lookup_fmap.
    destruct (l !! j) as [y|] eqn:Hy; cbn.
    - destruct (Hpre j y (list_elem_of_here _ _) Hy) as [r ->].
      apply IH. intros j' y' Hj'. apply Hpre. by apply list_elem_of_further.
    - apply IH. intros j' y' Hj'. apply Hpre. by apply list_elem_of_further. }
  cbn [app omap list_omap]. rewrite list_lookup_fmap, Hx. cbn. by rewrite Hfx.
Qed.

Lemma run_route_no_advisor settle merged :
  Config.tradingAdvisor merged = None →
  run (module_exports pipelineRunner settle merged) emptyWorld
  = (Throw TypeError, dispatching [] (Config.with_mode "backtest" merged)).
Proof.
  intros Hta. unfold module_exports. cbv zeta.
  rewrite run_bind, run_prepare. cbv zeta.
  change (getDateMonthSpansForYear (Config.with_mode "backtest" merged))
    with (getDateMonthSpansForYear merged).
  unfold getDateMonthSpansForYear. by rewrite Hta.
Qed.

Lemma run_route_no_exporter_data settle merged :
  truthy (batchOption merged Config.noBigData) = true →
  Config.backtestResultExporter merged ≫= Config.data = None →
  ∃ w, run (module_exports pipelineRunner settle merged) emptyWorld
       = (Throw TypeError, w) ∧ dispatched w = [].
Proof.
  intros Hflag Hdata. unfold module_exports. cbv zeta.
  rewrite run_bind, run_prepare. cbv zeta.
  change (getDateMonthSpansForYear (Config.with_mode "backtest" merged))
    with (getDateMonthSpansForYear merged).
  change (batchOption (Config.with_mode "backtest" merged)) with (batchOption merged).
  change (Config.backtestResultExporter (Config.with_mode "backtest" merged))
    with (Config.backtestResultExporter merged).
  rewrite Hflag, Hdata.
  destruct (getDateMonthSpansForYear merged) as [tables|e] eqn:Hg.
  - by eexists.
  - unfold getDateMonthSpansForYear in Hg.
    destruct (Config.tradingAdvisor merged); cbn in Hg.
    + repeat case_bool_decide; done.
    + injection Hg as <-. by eexists.
Qed.

End RouteFlow.

(** Extra X11.  A request whose merged configuration has no
    [tradingAdvisor], or that switches [batch.noBigData] on without a
    [backtestResultExporter.data] object to write into, is rejected with a
    TypeError before the pipeline is called at all. *)
Theorem route_rejects_before_dispatch pipelineRunner settle merged :
  Config.tradingAdvisor merged = None ∨
  (truthy (batchOption merged Config.noBigData) = true ∧
   Config.backtestResultExporter merged ≫= Config.data = None) →
  ∃ w, run (module_exports pipelineRunner settle merged) emptyWorld
       = (Throw TypeError, w) ∧
       dispatched w = [].
Proof.
  intros [Hta | [Hflag Hdata]].
  - rewrite run_route_no_advisor by done. by eexists.
  - by apply run_route_no_exporter_data.
Qed.

(** Extra X12.  With [batch.synchronous] truthy the route stops at the first
    span on which the pipeline fails: it has called the pipeline once for
    each span up to and including that one, always with the same
    configuration object, never for a later span; the route fails with
    the pipeline's own error, and the configuration object is left
    pointing at the failing span. *)
Theorem sequential_stops_at_first_failure pipelineRunner settle merged ss i e :
  dispatches merged ss →
  truthy (batchOption merged Config.synchronous) = true →
  (i < length ss)%nat →
  (∀ j, (j < i)%nat →
     ∃ r, pipelineRunner "backtest" (requestFor ss (configured "backtest" merged) j) = Ok r) →
  pipelineRunner "backtest" (requestFor ss (configured "backtest" merged) i) = Throw e →
  ∃ w, run (module_exports pipelineRunner settle merged) emptyWorld = (Throw e, w) ∧
       dispatched w = replicate (S i) 0%nat ∧
       resolve w 0 = Some (requestFor ss (configured "backtest" merged) i).
Proof.
  intros Hd Hflag Hi Hpre Hfail.
  rewrite (run_route_dispatching _ _ _ _ Hd). cbv zeta.
  destruct Hd as (_ & _ & [bt Hbt]).
  rewrite run_execute_sequential by (by rewrite configured_synchronous).
  rewrite (seq_split i (length ss) Hi).
  destruct (Forall2_of_exists
              (λ s r, pipelineRunner "backtest"
                        (requestFor ss (configured "backtest" merged) s) = Ok r)
              (seq 0 i)) as [rs Hrs].
  { intros j Hj. apply Hpre. apply elem_of_seq in Hj. lia. }
  erewrite (sequential_run_fail pipelineRunner "backtest" 0 (seq 0 i) i _ rs []
              (dispatching ss (configured "backtest" merged))
              (configured "backtest" merged) bt e);
    [| done | by rewrite configured_backtest | exact Hrs | exact Hfail].
  eexists. split; [reflexivity|]. split.
  - cbn [dispatched dispatching app]. by rewrite length_seq.
  - reflexivity.
Qed.

(** Extra X13.  With [batch.synchronous] falsy the route calls the pipeline
    once for every span whatever the outcomes are, each time with a
    configuration object of its own (a JSON copy pointing at that span);
    the route's own configuration object is never passed to the pipeline
    and is left as it was before the spans were dispatched. *)
Theorem concurrent_dispatches_every_span pipelineRunner settle merged ss :
  dispatches merged ss →
  truthy (batchOption merged Config.synchronous) = false →
  let w := (run (module_exports pipelineRunner settle merged) emptyWorld).2 in
  let c := configured "backtest" merged in
  dispatched w = seq 1 (length ss) ∧
  configObjs w !! 0%nat = Some c ∧
  ∀ i, (i < length ss)%nat →
    configObjs w !! S i
    = Some (Config.with_daterange (Config.SpanRef i) (jsonConfig ss c)).
Proof.
  intros Hd Hflag. cbv zeta.
  rewrite (run_route_dispatching _ _ _ _ Hd). cbv zeta.
  destruct Hd as (_ & _ & [bt Hbt]).
  erewrite run_execute_concurrent;
    [| by rewrite configured_synchronous | by rewrite configured_backtest].
  cbn [snd dispatched configObjs]. rewrite length_seq.
  split; [done|]. split; [done|].
  intros i Hi. rewrite lookup_cons.
  change (map ?f ?l) with (f <$> l).
  rewrite list_lookup_fmap, lookup_seq_lt by done. reflexivity.
Qed.

(** Extra X14.  With [batch.synchronous] falsy the route fails with the
    rejection that settles first: when the pipeline fulfils every span that
    settles before span [i] and rejects span [i] with [e], the route fails
    with [e], whatever happens to the spans that settle later. *)
Theorem concurrent_fails_with_first_rejection
    pipelineRunner merged ss pre i post e :
  dispatches merged ss →
  truthy (batchOption merged Config.synchronous) = false →
  let c := jsonConfig ss (configured "backtest" merged) in
  (∀ j, j ∈ pre → (j < length ss)%nat →
     ∃ r, pipelineRunner "backtest" (requestFor ss c j) = Ok r) →
  (i < length ss)%nat →
  pipelineRunner "backtest" (requestFor ss c i) = Throw e →
  (run (module_exports pipelineRunner (pre ++ i :: post) merged) emptyWorld).1
  = Throw e.
Proof.
  intros Hd Hflag c Hpre Hi Hfail.
  rewrite (run_route_dispatching _ _ _ _ Hd). cbv zeta.
  destruct Hd as (_ & _ & [bt Hbt]).
  erewrite run_execute_concurrent;
    [| by rewrite configured_synchronous | by rewrite configured_backtest].
  cbn [fst].
  erewrite (Promise_all_first _ (seq 0 (length ss)) pre post i i e); [done| | |].
  - intros j y Hj Hy. apply lookup_seq in Hy as [-> Hlt]. by apply Hpre.
  - by rewrite lookup_seq_lt.
  - exact Hfail.
Qed.

Section RouteOutcome.

Variable pipelineRunner : string → request → result report.

(** The backtests collected when the pipeline succeeds on every span, in
    either execution mode. *)
Lemma execute_all_ok settle merged ss rs :
  is_Some (Config.backtest merged) →
  let c := configured "backtest" merged in
  let c' := if truthy (batchOption merged Config.synchronous)
            then c else jsonConfig ss c in
  Forall2 (λ i r, pipelineRunner "backtest" (requestFor ss c' i) = Ok r)
          (seq 0 (length ss)) rs →
  (run (execute pipelineRunner settle "backtest" 0 (Some (seq 0 (length ss))))
       (dispatching ss c)).1
  = Ok rs.
Proof.
  intros [bt Hbt] c c' Hrs.
  subst c'. destruct (truthy (batchOption merged Config.synchronous)) eqn:Hflag.
  - rewrite run_execute_sequential by (by unfold c; rewrite configured_synchronous).
    erewrite (sequential_run_ok pipelineRunner "backtest" 0 _ rs []
                (dispatching ss c) c bt);
      [done | done | by unfold c; rewrite configured_backtest | exact Hrs].
  - erewrite run_execute_concurrent;
      [| by unfold c; rewrite configured_synchronous
       | by unfold c; rewrite configured_backtest].
    cbn [fst]. by erewrite Promise_all_Ok.
Qed.

End RouteOutcome.

(** Extra X15.  When the pipeline succeeds on every span, the route answers
    with the response built from the results in the order of the spans and
    from the threshold [batch.batchPeriodProfitThreshold || 0], in both
    execution modes and whatever the order in which the concurrent calls
    settle. *)
Theorem route_answers_in_span_order pipelineRunner settle merged ss rs :
  dispatches merged ss →
  let c := configured "backtest" merged in
  let c' := if truthy (batchOption merged Config.synchronous)
            then c else jsonConfig ss c in
  Forall2 (λ i r, pipelineRunner "backtest" (requestFor ss c' i) = Ok r)
          (seq 0 (length ss)) rs →
  (run (module_exports pipelineRunner settle merged) emptyWorld).1
  = buildResponse rs
      (jsOr (batchOption merged Config.batchPeriodProfitThreshold) (VNum (Fin 0))).
Proof.
  intros Hd c c' Hrs.
  rewrite (run_route_dispatching _ _ _ _ Hd). cbv zeta. cbn [fst].
  destruct Hd as (_ & _ & Hbt).
  by rewrite (execute_all_ok _ settle merged ss rs Hbt Hrs).
Qed.

Section RouteRequests.

Lemma mapM_ext_in {A B} (f g : A → result B) (l : list A) :
  (∀ x, x ∈ l → f x = g x) → mapM f l = mapM g l.
Proof.
  induction l as [|x l IH]; intros H; [done|].
  rewrite !mapM_cons, (H x (list_elem_of_here _ _)), IH; [done|].
  intros y Hy. apply H. by apply list_elem_of_further.
Qed.

Lemma map_ext_elem_of {A B} (f g : A → B) (l : list A) :
  (∀ x, x ∈ l → f x = g x) → map f l = map g l.
Proof.
  induction l as [|x l IH]; intros H; [done|].
  cbn [map]. rewrite (H x (list_elem_of_here _ _)), IH; [done|].
  intros y Hy. apply H. by apply list_elem_of_further.
Qed.

Lemma requestFor_route_request merged ss s :
  (s < length ss)%nat →
  route_request merged (requestFor ss (configured "backtest" merged) s) ∧
  route_request merged
    (requestFor ss (jsonConfig ss (configured "backtest" merged)) s).
Proof.
  intros Hs. destruct (lookup_lt_is_Some_2 ss s Hs) as [sp Hsp].
  unfold route_request, requestFor, configured.
  change (batchOption (Config.with_mode "backtest" merged)) with (batchOption merged).
  cbn [req_config req_span]. rewrite Hsp.
  destruct (truthy (batchOption merged Config.noBigData));
    (split; (split; [done|]; split; [by eexists|]; split; [by eexists|]; done)).
Qed.

End RouteRequests.

(** Extra X16.  The pipeline is only ever called on requests of the route's
    making: mode [backtest], a daterange that is one of the table's span
    objects, and [roundtrips] and [stratCandles] switched off when
    [batch.noBigData] is on.  Two pipelines that agree on such requests give
    the route the same outcome, so the mode, the daterange and, under
    [noBigData], the two flags that came with the request body never reach
    the pipeline. *)
Theorem pipeline_sees_only_route_requests
    (pipelineRunner1 pipelineRunner2 : string → request → result report)
    settle merged :
  (∀ req, route_request merged req →
          pipelineRunner1 "backtest" req = pipelineRunner2 "backtest" req) →
  (run (module_exports pipelineRunner1 settle merged) emptyWorld).1
  = (run (module_exports pipelineRunner2 settle merged) emptyWorld).1.
Proof.
  intros Hagree. rewrite !route_outcome.
  destruct (getDateMonthSpansForYear merged) as [tables|e]; [|done].
  rewrite !bind_Ok.
  assert ((run (execute pipelineRunner1 settle "backtest" 0
                  ((λ ss, seq 0 (length ss)) <$> tables))
               (dispatching (default [] tables) (configured "backtest" merged))).1
          = (run (execute pipelineRunner2 settle "backtest" 0
                    ((λ ss, seq 0 (length ss)) <$> tables))
                 (dispatching (default [] tables) (configured "backtest" merged))).1)
    as ->; [|done].
  rewrite !run_execute. destruct tables as [ss|]; [|done].
  cbn [fmap option_fmap option_map default].
  assert (∀ s, s ∈ seq 0 (length ss) → (s < length ss)%nat) as Hlt.
  { intros s Hs. apply elem_of_seq in Hs. lia. }
  destruct (seq 0 (length ss)) as [|s0 refs] eqn:Hrefs; [done|].
  destruct (Config.backtest (configured "backtest" merged)); [|done].
  destruct (truthy (batchOption (configured "backtest" merged) Config.synchronous)).
  - apply mapM_ext_in. intros s Hs. apply Hagree.
    by apply requestFor_route_request, Hlt.
  - f_equal. apply map_ext_elem_of. intros s Hs. apply Hagree.
    by apply requestFor_route_request, Hlt.
Qed.

Section RouteResponse.

Lemma dispatches_length merged ss :
  dispatches merged ss → (3 ≤ length ss)%nat.
Proof.
  intros (Hg & _). unfold getDateMonthSpansForYear in Hg.
  destruct (Config.tradingAdvisor merged) as [a|]; [|done].
  cbn [deref mbind result_bind] in Hg.
  repeat case_bool_decide; simplify_eq;
    unfold monthlySpans, quarterlySpans, yearlySpans; cbn [length]; lia.
Qed.

End RouteResponse.

(** Extra X17.  When the pipeline succeeds on every span with reports that
    carry a performance report and a [tradingAdvisor], the route answers,
    and the [backtests] of the answer are the very reports of the pipeline,
    in the order of the spans: every table has several spans, so the total
    report is an object of its own and no report is written into. *)
Theorem route_returns_the_pipeline_reports pipelineRunner settle merged ss rs :
  dispatches merged ss →
  let c := configured "backtest" merged in
  let c' := if truthy (batchOption merged Config.synchronous)
            then c else jsonConfig ss c in
  Forall2 (λ i r, pipelineRunner "backtest" (requestFor ss c' i) = Ok r)
          (seq 0 (length ss)) rs →
  Forall has_perf rs →
  Forall has_advisor rs →
  ∃ r,
    (run (module_exports pipelineRunner settle merged) emptyWorld).1 = Ok r ∧
    Response.backtests r = rs ∧
    length (Response.backtests r) = length ss ∧
    is_Some (Response.performanceReport r) ∧
    is_Some (Response.batchReport r) ∧
    Response.fakeReport r = getFakeReport (omap statsOf rs).
Proof.
  intros Hd c c' Hrs Hperf Hadv.
  pose proof (dispatches_length _ _ Hd) as Hlen.
  pose proof (Forall2_length _ _ _ Hrs) as Hlen'. rewrite length_seq in Hlen'.
  rewrite (run_route_dispatching _ _ _ _ Hd). cbv zeta. cbn [fst].
  destruct Hd as (_ & _ & Hbt).
  rewrite (execute_all_ok _ settle merged ss rs Hbt Hrs), bind_Ok.
  destruct rs as [|r1 [|r2 rs]]; [cbn in Hlen'; lia..|].
  destruct (buildResponse_Ok r1 (r2 :: rs)
              (jsOr (batchOption merged Config.batchPeriodProfitThreshold) (VNum (Fin 0)))
              Hperf Hadv)
    as (bs' & ret & Htot & ->).
  destruct (getTotal_Ok r1 (r2 :: rs)
              (jsOr (batchOption merged Config.batchPeriodProfitThreshold) (VNum (Fin 0)))
              Hperf)
    as (target & e1 & e2 & s1 & s2 & s3 & ret' & _ & _ & Hrun).
  rewrite Hrun in Htot. apply (f_equal (fmap fst)) in Htot.
  cbn [fmap result_fmap fst] in Htot. injection Htot as <-.
  eexists. split; [reflexivity|].
  cbn [Response.backtests Response.performanceReport Response.batchReport
       Response.fakeReport].
  split; [done|]. split; [lia|]. split; [by eexists|]. split; [by eexists|].
  reflexivity.
Qed.

(** Extra X18.  With [batch.synchronous] truthy and a pipeline that succeeds
    on every span, the route makes no copy of the configuration: the one
    configuration object is passed to every call and is left pointing at
    the last span of the table. *)
Theorem sequential_reuses_one_configuration pipelineRunner settle merged ss rs :
  dispatches merged ss →
  truthy (batchOption merged Config.synchronous) = true →
  Forall2 (λ i r, pipelineRunner "backtest"
                    (requestFor ss (configured "backtest" merged) i) = Ok r)
          (seq 0 (length ss)) rs →
  let w := (run (module_exports pipelineRunner settle merged) emptyWorld).2 in
  dispatched w = replicate (length ss) 0%nat ∧
  length (configObjs w) = 1%nat ∧
  resolve w 0
  = Some (requestFor ss (configured "backtest" merged) (length ss - 1)).
Proof.
  intros Hd Hflag Hrs. cbv zeta.
  pose proof (dispatches_length _ _ Hd) as Hlen.
  rewrite (run_route_dispatching _ _ _ _ Hd). cbv zeta. cbn [snd].
  destruct Hd as (_ & _ & [bt Hbt]).
  rewrite run_execute_sequential by (by rewrite configured_synchronous).
  erewrite (sequential_run_ok pipelineRunner "backtest" 0 _ rs []
              (dispatching ss (configured "backtest" merged))
              (configured "backtest" merged) bt);
    [| done | by rewrite configured_backtest | exact Hrs].
  assert (last (seq 0 (length ss)) = Some (length ss - 1)%nat) as ->.
  { replace (length ss) with (S (length ss - 1)) at 1 by lia.
    rewrite seq_S, last_snoc. reflexivity. }
  cbn [dispatched dispatching app]. rewrite length_seq.
  split; [done|]. split; [done|]. reflexivity.
Qed.

(** * Instances of the further properties *)

(** Extra X1 on three periods: the start values are those of the first
    period, the end values those of the last. *)
Lemma total_report_boundary_fields_example :
  ∃ bs' ret,
    getTotalPerformanceReport [first_period; middle_period; last_period] VUndef
    = Ok (bs', Some ret) ∧
    get ret "startBalance" = VNum (Fin 1000) ∧
    get ret "startPrice" = VNum (Fin 50) ∧
    get ret "startTime" = VNum (Fin 1) ∧
    get ret "endPrice" = VNum (Fin 60) ∧
    get ret "endTime" = VNum (Fin 4).
Proof.
  destruct (total_report_boundary_fields
              [first_period; middle_period; last_period] VUndef
              first_period last_period)
    as (bs' & ret & H & H1 & H2 & H3 & H4 & H5).
  - repeat constructor; by eexists.
  - reflexivity.
  - reflexivity.
  - exists bs', ret. repeat split; assumption.
Defined.

(** Extra X2 on the three periods and on the same periods in reverse. *)
Lemma total_report_order_independent_example :
  ∃ l ret l' ret',
    getTotalPerformanceReport [first_period; middle_period; last_period] VUndef
    = Ok (l, Some ret) ∧
    getTotalPerformanceReport [last_period; middle_period; first_period] VUndef
    = Ok (l', Some ret') ∧
    get ret "periodsProfit" = get ret' "periodsProfit" ∧
    get ret "periodsLoss" = get ret' "periodsLoss" ∧
    get ret "periodsTotal" = get ret' "periodsTotal" ∧
    get ret "minProfit" = get ret' "minProfit" ∧
    get ret "maxProfit" = get ret' "maxProfit".
Proof.
  apply total_report_order_independent.
  - discriminate.
  - apply (reverse_Permutation [last_period; middle_period; first_period]).
  - repeat constructor; by eexists.
Defined.

(** Extra X3 on two periods and a report without profit, which neither
    counter counts. *)
Lemma period_counters_partition_example :
  ∃ bs' ret (p l : nat),
    getTotalPerformanceReport [first_period; report_without_profit; middle_period]
      (VNum (Fin 0))
    = Ok (bs', Some ret) ∧
    get ret "periodsProfit" = VNum (Fin (Z.of_nat p)) ∧
    get ret "periodsLoss" = VNum (Fin (Z.of_nat l)) ∧
    get ret "periodsTotal" = VNum (Fin 3) ∧
    (p + l + 1)%nat = 3%nat.
Proof.
  destruct (period_counters_partition
              [first_period; report_without_profit; middle_period] (VNum (Fin 0)))
    as (bs' & ret & p & l & H & Hp & Hl & Ht & Hsum & _).
  - discriminate.
  - repeat constructor; by eexists.
  - exists bs', ret, p, l. repeat split; try assumption.
    apply Hsum. discriminate.
Defined.

(** Extra X4 on the three periods, whose profits are all numbers. *)
Lemma profit_extremes_example :
  ∃ bs' ret lo hi,
    getTotalPerformanceReport [first_period; middle_period; last_period] VUndef
    = Ok (bs', Some ret) ∧
    get ret "minProfit" = VNum lo ∧ get ret "maxProfit" = VNum hi ∧
    Num.ltb (Fin (-200)) lo = false ∧ Num.ltb hi (Fin 300) = false.
Proof.
  destruct (profit_extremes [first_period; middle_period; last_period] VUndef)
    as (bs' & ret & H & _ & Hnum).
  - discriminate.
  - repeat constructor; by eexists.
  - destruct Hnum as (lo & hi & Hlo & Hhi & _ & _ & _ & _ & Hall).
    { repeat constructor; discriminate. }
    exists bs', ret, lo, hi. repeat split; try assumption.
    + apply Forall_cons in Hall as [_ Hall]. apply Forall_cons in Hall as [[Hm _] _].
      exact Hm.
    + apply Forall_cons in Hall as [_ Hall]. apply Forall_cons in Hall as [_ Hall].
      apply Forall_cons in Hall as [[_ Hm] _]. exact Hm.
Defined.

(** Extra X5 on the three periods. *)
Lemma several_reports_are_left_untouched_example :
  ∃ ret,
    getTotalPerformanceReport [first_period; middle_period; last_period] VUndef
    = Ok ([first_period; middle_period; last_period], Some ret) ∧
    dom ret = list_to_set (summed ++ derived).
Proof.
  apply several_reports_are_left_untouched.
  repeat constructor; by eexists.
Defined.

(** Extra X6 on a single report without [losses]: the report handed back
    holds the returned object, which has no [losses] either. *)
Lemma single_report_is_written_into_example :
  ∃ ret,
    getTotalPerformanceReport [report_without_losses] VUndef
    = Ok ([ {| performanceReport := Some ret; tradingAdvisor := None |} ], Some ret) ∧
    ret !! "losses" = None ∧
    ret !! "trades" = Some (VNum (Fin 1)).
Proof.
  destruct (single_report_is_written_into report_without_losses _ VUndef eq_refl)
    as (ret & H & Hkeep & _).
  exists ret. split; [exact H|]. split.
  - rewrite Hkeep; [reflexivity|]. unfold derived. by apply (bool_decide_unpack _).
  - rewrite Hkeep; [reflexivity|]. unfold derived. by apply (bool_decide_unpack _).
Defined.


(** Extra X8 on the three periods, which carry no [tradingAdvisor]. *)
Lemma response_needs_tradingAdvisor_example :
  buildResponse [first_period; middle_period; last_period] (VNum (Fin 0))
  = Throw TypeError.
Proof.
  apply response_needs_tradingAdvisor.
  apply Exists_cons_hd. reflexivity.
Defined.

(** Extra X9 on the reports of the stub pipeline for 2019 and 2020: the
    two reports are handed back as they are, with the total report and the
    batch report that the two aggregators make of them. *)
Lemma response_of_complete_backtests_example :
  ∃ ret batch,
    getTotalPerformanceReport [stub_report year_2019; stub_report year_2020]
      (VNum (Fin 0))
    = Ok ([stub_report year_2019; stub_report year_2020], Some ret) ∧
    getBatchBacktestReport [stub_report year_2019; stub_report year_2020]
    = Ok (Some batch) ∧
    buildResponse [stub_report year_2019; stub_report year_2020] (VNum (Fin 0))
    = Ok {| Response.backtests := [stub_report year_2019; stub_report year_2020];
            Response.performanceReport := Some ret;
            Response.batchReport := Some batch;
            Response.fakeReport :=
              getFakeReport
                (omap statsOf [stub_report year_2019; stub_report year_2020]) |}.
Proof.
  destruct (response_of_complete_backtests
              [stub_report year_2019; stub_report year_2020] (VNum (Fin 0)))
    as (bs' & ret & batch & Htot & Hbatch & Hr & _ & Hsame).
  - discriminate.
  - repeat constructor; by eexists.
  - repeat constructor; by eexists.
  - rewrite Hsame in Htot, Hr by (cbn; lia).
    exists ret, batch. repeat split; assumption.
Defined.

(** Extra X11 on a request body without [tradingAdvisor]. *)
Lemma route_rejects_before_dispatch_example :
  ∃ w, run (module_exports stub [] config_without_advisor) emptyWorld
       = (Throw TypeError, w) ∧
       dispatched w = [].
Proof.
  apply route_rejects_before_dispatch. left. reflexivity.
Defined.

(** Extra X12 on the yearly table with a pipeline that fails on 2019, the
    second span: two calls, both with configuration object 0, and none for
    2020. *)
Lemma sequential_stops_at_first_failure_example :
  ∃ w, run (module_exports (failing_on year_2019 boom) [] (example_config true "1 year"))
           emptyWorld
       = (Throw boom, w) ∧
       dispatched w = [0; 0]%nat ∧
       resolve w 0
       = Some (requestFor (yearlySpans (Fin 600))
                 (configured "backtest" (example_config true "1 year")) 1).
Proof.
  apply (sequential_stops_at_first_failure _ _ _ (yearlySpans (Fin 600)) 1).
  - apply example_dispatches.
  - reflexivity.
  - cbn. lia.
  - intros j Hj. assert (j = 0%nat) as -> by lia. eexists. reflexivity.
  - reflexivity.
Defined.

(** Extra X13 on the yearly table with the same failing pipeline: all three
    spans are dispatched, each with a configuration object of its own. *)
Lemma concurrent_dispatches_every_span_example :
  dispatched
    (run (module_exports (failing_on year_2019 boom) [] (example_config false "1 year"))
       emptyWorld).2
  = [1; 2; 3]%nat.
Proof.
  apply (concurrent_dispatches_every_span _ _ _ (yearlySpans (Fin 600))).
  - apply example_dispatches.
  - reflexivity.
Defined.

(** Extra X14 on the yearly table with a pipeline that rejects 2019 and
    2020: when 2020 settles before 2019 the route fails with the error of
    2020. *)
Lemma concurrent_fails_with_first_rejection_example :
  (run (module_exports failing_twice ([0] ++ 2 :: [1])%nat
          (example_config false "1 year")) emptyWorld).1
  = Throw bang.
Proof.
  apply (concurrent_fails_with_first_rejection _ _ (yearlySpans (Fin 600))).
  - apply example_dispatches.
  - reflexivity.
  - intros j Hj _. apply list_elem_of_singleton in Hj as ->. eexists. reflexivity.
  - cbn. lia.
  - reflexivity.
Defined.

(** Extra X15 on the yearly table with the stub pipeline and promises that
    settle out of order. *)
Lemma route_answers_in_span_order_example :
  (run (module_exports stub [2; 0; 1]%nat (example_config false "1 year"))
     emptyWorld).1
  = buildResponse (map stub_report (yearlySpans (Fin 600))) (VNum (Fin 0)).
Proof.
  apply (route_answers_in_span_order stub [2; 0; 1]%nat
           (example_config false "1 year") (yearlySpans (Fin 600))
           (map stub_report (yearlySpans (Fin 600)))).
  - apply example_dispatches.
  - repeat constructor.
Defined.

(** Extra X16 with the stub pipeline and one that refuses every mode but
    [backtest]: the route cannot tell them apart, whatever the mode of the
    request body. *)
Lemma pipeline_sees_only_route_requests_example :
  (run (module_exports stub [] (example_config true "1 year")) emptyWorld).1
  = (run (module_exports strict_stub [] (example_config true "1 year")) emptyWorld).1.
Proof.
  apply pipeline_sees_only_route_requests.
  intros req (Hmode & _). unfold strict_stub. rewrite Hmode. reflexivity.
Defined.

(** Extra X17 on the yearly table with the stub pipeline. *)
Lemma route_returns_the_pipeline_reports_example :
  ∃ r,
    (run (module_exports stub [2; 0; 1]%nat (example_config false "1 year"))
       emptyWorld).1 = Ok r ∧
    Response.backtests r = map stub_report (yearlySpans (Fin 600)) ∧
    length (Response.backtests r) = 3%nat.
Proof.
  destruct (route_returns_the_pipeline_reports stub [2; 0; 1]%nat
              (example_config false "1 year") (yearlySpans (Fin 600))
              (map stub_report (yearlySpans (Fin 600))))
    as (r & Hr & Hbs & Hlen & _).
  - apply example_dispatches.
  - repeat constructor.
  - repeat constructor; by eexists.
  - repeat constructor; by eexists.
  - exists r. repeat split; assumption.
Defined.

(** Extra X18 on the yearly table with the stub pipeline: three calls with
    configuration object 0. *)
Lemma sequential_reuses_one_configuration_example :
  dispatched
    (run (module_exports stub [] (example_config true "1 year")) emptyWorld).2
  = [0; 0; 0]%nat.
Proof.
  apply (sequential_reuses_one_configuration stub [] (example_config true "1 year")
           (yearlySpans (Fin 600)) (map stub_report (yearlySpans (Fin 600)))).
  - apply example_dispatches.
  - reflexivity.
  - repeat constructor.
Defined.
